(** * Pay2Go: transaction lifecycle and refund consistency

    A shallow embedding of the refund entity, the refund, payment and retry
    use cases and the value objects they rely on, of the authentication
    middleware and of the partner repository, with the properties of the
    engine stated and proved over it.

    Conventions of the embedding:
    - an amount of the use cases and the entities is a [float64], as
      refund_transaction.go and README.md have it ([Money64]); the value
      object of the spec and of the money tests counts whole minor units
      ([Money], over [Z]);
    - a [float64] is a primitive float of Rocq: IEEE 754 binary64, with its
      addition and comparisons;
    - a [time.Time] is a UTC instant in seconds ([Z]); [time.Now()] is an
      operation of the environment;
    - a [uuid.UUID] is a number ([N]), [uuid.Nil] is [0];
    - the [amount] columns of the schema are [DECIMAL(19, 4)]: a stored
      amount is a whole number of ten-thousandths ([Z]);
    - a Go method with a pointer receiver that returns [error] becomes a
      function returning the receiver after the call and the error;
    - repository, gateway, clock and audit calls are operations of a small
      program monad, interpreted over an explicit world;
    - a Go string is its sequence of bytes ([string]); [strings.ToLower] and
      [strings.TrimSpace] are those of the Go library on ASCII strings;
    - the [partners] table behind [*sql.DB] is a map from the primary key
      to the row, with the constraints and the trigger of the schema; what
      the server may refuse beyond them is a parameter of the database. *)

From stdpp Require Import gmap strings list fin_maps sorting.
From Stdlib Require Import ZArith Lia Ascii Floats.

Local Open Scope Z_scope.

Definition UUID : Type := N.
Definition uuid_Nil : UUID := 0%N.

Definition Time : Type := Z.

(** A Go [float64]: a binary64 number of IEEE 754, with the addition and the
    comparisons of the language (rounding to nearest, ties to even; every
    comparison with NaN is false). *)
Definition float64 : Set := PrimFloat.float.

(** [t.Before(u)] and [t.After(u)] of package time. *)
Definition Before (t u : Time) : bool := t <? u.
Definition After (t u : Time) : bool := u <? t.

Definition secondsPerDay : Z := 86400.

(** [t.AddDate(0, 0, days)]: calendar days, which in UTC are 86400 s each.
    The zone of [time.Now()] is taken to be UTC; in a zone with daylight
    saving a calendar day can be an hour longer or shorter. *)
Definition AddDate (t : Time) (days : Z) : Time := t + days * secondsPerDay.

(** ** Package errors (internal/domain/errors) *)
Module errors.

#[warnings="-register-all"] Inductive error : Type :=
| ErrInvalidAmount
| ErrInvalidCurrency
| ErrInvalidPaymentMethod
| ErrInvalidStatus
| ErrTransactionNotFound
| ErrDuplicateTransaction
| ErrPartnerNotFound
| ErrPartnerInactive
| ErrInvalidAPIKey
| ErrRefundAmountExceeded
| ErrRefundNotAllowed
| ErrRefundWindowExpired
| ErrAmountBelowMinimum
| ErrAmountAboveMaximum
| ErrUnauthorizedOperation
(** [&DomainError{Code, Message, Err}] *)
| DomainError (Code Message : string) (Err : option error)
(** [fmt.Errorf("<prefix>: %w", err)] *)
| Errorf (prefix : string) (err : error)
(** an error value handed back by a collaborator (store, gateway) *)
| External (message : string).

Definition NewDomainError (code message : string) (err : option error) : error :=
  DomainError code message err.

Definition NewValidationError (field message : string) : error :=
  DomainError "VALIDATION_ERROR" (field +:+ ": " +:+ message) None.

Definition NewBusinessRuleError (rule message : string) : error :=
  DomainError "BUSINESS_RULE_VIOLATION" (rule +:+ ": " +:+ message) None.

(** [err.Error()] *)
Fixpoint Error (e : error) : string :=
  match e with
  | ErrInvalidAmount => "invalid transaction amount"
  | ErrInvalidCurrency => "invalid currency code"
  | ErrInvalidPaymentMethod => "invalid payment method"
  | ErrInvalidStatus => "invalid transaction status"
  | ErrTransactionNotFound => "transaction not found"
  | ErrDuplicateTransaction => "duplicate transaction detected"
  | ErrPartnerNotFound => "partner not found"
  | ErrPartnerInactive => "partner is inactive"
  | ErrInvalidAPIKey => "invalid API key"
  | ErrRefundAmountExceeded => "refund amount exceeds transaction amount"
  | ErrRefundNotAllowed => "refund not allowed for this transaction"
  | ErrRefundWindowExpired => "refund window has expired"
  | ErrAmountBelowMinimum => "amount below minimum allowed"
  | ErrAmountAboveMaximum => "amount above maximum allowed"
  | ErrUnauthorizedOperation => "unauthorized operation"
  | DomainError code message None => "[" +:+ code +:+ "] " +:+ message
  | DomainError code message (Some err) =>
      "[" +:+ code +:+ "] " +:+ message +:+ ": " +:+ Error err
  | Errorf prefix err => prefix +:+ ": " +:+ Error err
  | External message => message
  end.

(** A Go [(T, error)] result: a value, or the error with a nil value. *)
Inductive result (A : Type) : Type :=
| Ok (a : A)
| Err (e : error).
Global Arguments Ok {A} a.
Global Arguments Err {A} e.

Definition is_Ok {A} (r : result A) : bool :=
  match r with Ok _ => true | Err _ => false end.

(** Sequencing of two fallible computations. *)
Definition andThen {A B : Type} (r : result A) (k : A -> result B) : result B :=
  match r with Ok a => k a | Err e => Err e end.

End errors.
Export errors.

(** ** Package valueobjects *)
Module Currency.

Definition t : Type := string.

(** Modelled from the spec: the currency value object is not among the
    sources. Its "fixed allow-list of active currencies" (section 3) is the
    seeded [currencies] table of the initial schema. *)
Definition activeCurrencies : list t := ["USD"; "EUR"; "GBP"; "JPY"; "THB"].

(** Modelled from the spec: [Currency.IsValid] of the missing value object;
    membership in the allow-list. *)
Definition IsValid (c : t) : bool := bool_decide (c ∈ activeCurrencies).

End Currency.

Module Money.

(** Modelled from the spec: internal/domain/valueobjects/money.go is not
    among the sources (README.md sketches it, the money tests exercise it).
    Section 3: an amount in minor units and a currency code, under the field
    names the tests and the use cases read. *)
Record t : Type := mk { Amount : Z; Currency : Currency.t }.

(** Modelled from the spec: the bounds of section 3 and 4.1,
    [1 <= amountMinorUnits <= 100_000_00]. *)
Definition MinAmount : Z := 1.
Definition MaxAmount : Z := 10000000.

(** Modelled from the spec: [create(amountMinorUnits, currencyCode)] of 4.1:
    "fails if amount < 1, amount > 100_000_00, or currency not in the active
    allow-list". *)
Definition NewMoney (amount : Z) (currency : string) : result t :=
  if amount <? MinAmount then Err ErrAmountBelowMinimum
  else if MaxAmount <? amount then Err ErrAmountAboveMaximum
  else if negb (Currency.IsValid currency) then Err ErrInvalidCurrency
  else Ok (mk amount currency).

(** Modelled from the spec: [add(a, b) -> Money | CurrencyMismatchError]. *)
Definition Add (m other : t) : result t :=
  if negb (bool_decide (Currency m = Currency other))
  then Err (NewValidationError "currency" "cannot add different currencies")
  else Ok (mk (Amount m + Amount other) (Currency m)).

(** Modelled from the spec: [subtract(a, b) -> Money | CurrencyMismatchError
    | NegativeResultError]: "fails (does not clamp to zero) if a - b < 0". *)
Definition Subtract (m other : t) : result t :=
  if negb (bool_decide (Currency m = Currency other))
  then Err (NewValidationError "currency" "cannot subtract different currencies")
  else if Amount m - Amount other <? 0
  then Err (NewValidationError "amount" "result cannot be negative")
  else Ok (mk (Amount m - Amount other) (Currency m)).

(** Modelled from the spec: the boolean [IsGreaterThan] that the refund use
    case calls; the money tests fix it on one currency only, across
    currencies it answers false. *)
Definition IsGreaterThan (m other : t) : bool :=
  bool_decide (Currency m = Currency other) && (Amount other <? Amount m).

(** Modelled from the spec: "two Money values are equal iff amount and
    currency are both equal". *)
Definition Equals (m other : t) : bool :=
  bool_decide (Currency m = Currency other) && (Amount m =? Amount other).

End Money.

(** [valueobjects.Money] as the use cases and the entities of src/ hold it.
    Modelled from README.md: money.go is not among the sources. The refund
    use case passes its [float64] amount to [NewMoney] and adds and compares
    [Money.Amount] with [float64] values (refund_transaction.go, steps 5, 7
    and 14), and README.md shows the struct with [Amount float64] and the
    two bounds of the constructor, [amount < 0.01] and [amount > 100000].
    The spec and the money tests count whole minor units instead: that
    value object is [Money] above. *)
Module Money64.

Record t : Type := mk { Amount : float64; Currency : Currency.t }.
Global Arguments mk Amount%_float Currency.

#[warnings="-inexact-float"] Definition MinAmount : float64 := 0.01%float.
Definition MaxAmount : float64 := 100000%float.

Definition NewMoney (amount : float64) (currency : string) : result t :=
  if (amount <? MinAmount)%float then Err ErrAmountBelowMinimum
  else if (MaxAmount <? amount)%float then Err ErrAmountAboveMaximum
  else if negb (Currency.IsValid currency) then Err ErrInvalidCurrency
  else Ok (mk amount currency).

(** The boolean [IsGreaterThan] that the refund use case calls; across
    currencies it answers false. *)
Definition IsGreaterThan (m other : t) : bool :=
  bool_decide (Currency m = Currency other) && (Amount other <? Amount m)%float.

End Money64.

(** ** Package entities: the refund (internal/domain/entities/refund.go) *)
Module Refund.

Inductive RefundStatus : Type :=
| RefundStatusPending
| RefundStatusProcessing
| RefundStatusCompleted
| RefundStatusFailed.

Global Instance RefundStatus_eq_dec : EqDecision RefundStatus.
Proof. solve_decision. Defined.

Definition status_string (s : RefundStatus) : string :=
  match s with
  | RefundStatusPending => "pending"
  | RefundStatusProcessing => "processing"
  | RefundStatusCompleted => "completed"
  | RefundStatusFailed => "failed"
  end.

Record t : Type := mk {
  ID : UUID;
  TransactionID : UUID;
  Amount : Money64.t;
  Status : RefundStatus;
  Reason : string;
  ProviderRefundID : string;
  ErrorCode : string;
  ErrorMessage : string;
  CreatedAt : Time;
  UpdatedAt : Time;
  ProcessedAt : option Time;
  DeletedAt : option Time
}.

(** [NewRefund]; [id] is the value of [uuid.New()], [now] of [time.Now()]. *)
Definition NewRefund (id : UUID) (now : Time)
    (transactionID : UUID) (amount : Money64.t) (reason : string) : result t :=
  if bool_decide (transactionID = uuid_Nil)
  then Err (NewValidationError "transaction_id" "cannot be empty")
  else if bool_decide (reason = "")
  then Err (NewValidationError "reason" "cannot be empty")
  else if negb (Currency.IsValid (Money64.Currency amount))
  then Err ErrInvalidCurrency
  else Ok {| ID := id;
             TransactionID := transactionID;
             Amount := amount;
             Status := RefundStatusPending;
             Reason := reason;
             ProviderRefundID := "";
             ErrorCode := "";
             ErrorMessage := "";
             CreatedAt := now;
             UpdatedAt := now;
             ProcessedAt := None;
             DeletedAt := None |}.

(** [MarkAsProcessing]: the refund after the call and the returned error. *)
Definition MarkAsProcessing (now : Time) (r : t) : t * option error :=
  if negb (bool_decide (Status r = RefundStatusPending))
  then (r, Some (NewBusinessRuleError "invalid_state_transition"
                   "can only process pending refunds"))
  else ({| ID := ID r;
           TransactionID := TransactionID r;
           Amount := Amount r;
           Status := RefundStatusProcessing;
           Reason := Reason r;
           ProviderRefundID := ProviderRefundID r;
           ErrorCode := ErrorCode r;
           ErrorMessage := ErrorMessage r;
           CreatedAt := CreatedAt r;
           UpdatedAt := now;
           ProcessedAt := ProcessedAt r;
           DeletedAt := DeletedAt r |}, None).

Definition MarkAsCompleted (now : Time) (providerRefundID : string) (r : t)
    : t * option error :=
  if negb (bool_decide (Status r = RefundStatusProcessing))
  then (r, Some (NewBusinessRuleError "invalid_state_transition"
                   "can only complete processing refunds"))
  else ({| ID := ID r;
           TransactionID := TransactionID r;
           Amount := Amount r;
           Status := RefundStatusCompleted;
           Reason := Reason r;
           ProviderRefundID := providerRefundID;
           ErrorCode := "";
           ErrorMessage := "";
           CreatedAt := CreatedAt r;
           UpdatedAt := now;
           ProcessedAt := Some now;
           DeletedAt := DeletedAt r |}, None).

Definition MarkAsFailed (now : Time) (errorCode errorMessage : string) (r : t)
    : t * option error :=
  if negb (bool_decide (Status r = RefundStatusProcessing))
     && negb (bool_decide (Status r = RefundStatusPending))
  then (r, Some (NewBusinessRuleError "invalid_state_transition"
                   "can only fail pending or processing refunds"))
  else ({| ID := ID r;
           TransactionID := TransactionID r;
           Amount := Amount r;
           Status := RefundStatusFailed;
           Reason := Reason r;
           ProviderRefundID := ProviderRefundID r;
           ErrorCode := errorCode;
           ErrorMessage := errorMessage;
           CreatedAt := CreatedAt r;
           UpdatedAt := now;
           ProcessedAt := ProcessedAt r;
           DeletedAt := DeletedAt r |}, None).

Definition IsCompleted (r : t) : bool := bool_decide (Status r = RefundStatusCompleted).
Definition IsFailed (r : t) : bool := bool_decide (Status r = RefundStatusFailed).

Definition SoftDelete (now : Time) (r : t) : t :=
  {| ID := ID r;
     TransactionID := TransactionID r;
     Amount := Amount r;
     Status := Status r;
     Reason := Reason r;
     ProviderRefundID := ProviderRefundID r;
     ErrorCode := ErrorCode r;
     ErrorMessage := ErrorMessage r;
     CreatedAt := CreatedAt r;
     UpdatedAt := now;
     ProcessedAt := ProcessedAt r;
     DeletedAt := Some now |}.

Definition IsDeleted (r : t) : bool :=
  match DeletedAt r with Some _ => true | None => false end.

(** One call of a state-changing method of the entity, at a given time. *)
Inductive Call : Type :=
| CallMarkAsProcessing (now : Time)
| CallMarkAsCompleted (now : Time) (providerRefundID : string)
| CallMarkAsFailed (now : Time) (errorCode errorMessage : string).

(** The refund after a call, whether the call returned an error or not. *)
Definition after (r : t) (call : Call) : t :=
  match call with
  | CallMarkAsProcessing now => fst (MarkAsProcessing now r)
  | CallMarkAsCompleted now providerRefundID => fst (MarkAsCompleted now providerRefundID r)
  | CallMarkAsFailed now errorCode errorMessage =>
      fst (MarkAsFailed now errorCode errorMessage r)
  end.

End Refund.

(** ** Package entities: the transaction *)
Module Transaction.

(** Modelled from the spec: internal/domain/entities/transaction.go is not
    among the sources. The states of 4.2, which are the values of the
    [transaction_status] enum of the initial schema. *)
Inductive TransactionStatus : Type :=
| StatusPending
| StatusProcessing
| StatusCompleted
| StatusFailed
| StatusCancelled
| StatusRefunded
| StatusPartiallyRefunded.

Global Instance TransactionStatus_eq_dec : EqDecision TransactionStatus.
Proof. solve_decision. Defined.

Definition status_string (s : TransactionStatus) : string :=
  match s with
  | StatusPending => "pending"
  | StatusProcessing => "processing"
  | StatusCompleted => "completed"
  | StatusFailed => "failed"
  | StatusCancelled => "cancelled"
  | StatusRefunded => "refunded"
  | StatusPartiallyRefunded => "partially_refunded"
  end.

(** Modelled from the spec: the attributes of the missing entity, from
    section 3; the completion and failure timestamps carry the names of the
    schema's [processed_at] and [failed_at] columns. *)
Record t : Type := mk {
  ID : UUID;
  PartnerID : UUID;
  Amount : Money64.t;
  IdempotencyKey : string;
  Status : TransactionStatus;
  Provider : string;
  ProviderTransactionID : string;
  RetryCount : Z;
  ErrorCode : string;
  ErrorMessage : string;
  CreatedAt : Time;
  UpdatedAt : Time;
  ProcessedAt : option Time;
  FailedAt : option Time;
  DeletedAt : option Time
}.

(** The assignments of a lifecycle method, applied to a copy of the record. *)
Definition assign (status : TransactionStatus) (providerTransactionID : string)
    (errorCode errorMessage : string) (updatedAt : Time)
    (processedAt failedAt : option Time) (x : t) : t :=
  {| ID := ID x;
     PartnerID := PartnerID x;
     Amount := Amount x;
     IdempotencyKey := IdempotencyKey x;
     Status := status;
     Provider := Provider x;
     ProviderTransactionID := providerTransactionID;
     RetryCount := RetryCount x;
     ErrorCode := errorCode;
     ErrorMessage := errorMessage;
     CreatedAt := CreatedAt x;
     UpdatedAt := updatedAt;
     ProcessedAt := processedAt;
     FailedAt := failedAt;
     DeletedAt := DeletedAt x |}.

(** Modelled from the spec: the factory of the missing entity; README.md
    shows its two checks (partner id, idempotency key); a new transaction is
    in the initial state [pending]. *)
Definition NewTransaction (id : UUID) (now : Time) (partnerID : UUID)
    (idempotencyKey : string) (amount : Money64.t) (provider : string) : result t :=
  if bool_decide (partnerID = uuid_Nil)
  then Err (NewValidationError "partner_id" "cannot be empty")
  else if bool_decide (idempotencyKey = "")
  then Err (NewValidationError "idempotency_key" "cannot be empty")
  else Ok {| ID := id;
             PartnerID := partnerID;
             Amount := amount;
             IdempotencyKey := idempotencyKey;
             Status := StatusPending;
             Provider := provider;
             ProviderTransactionID := "";
             RetryCount := 0;
             ErrorCode := "";
             ErrorMessage := "";
             CreatedAt := now;
             UpdatedAt := now;
             ProcessedAt := None;
             FailedAt := None;
             DeletedAt := None |}.

(** Modelled from the spec: the status tests that the payment use case
    calls on the missing entity, and its soft-delete marker. *)
Definition IsPending (x : t) : bool := bool_decide (Status x = StatusPending).
Definition IsFailed (x : t) : bool := bool_decide (Status x = StatusFailed).
Definition IsDeleted (x : t) : bool :=
  match DeletedAt x with Some _ => true | None => false end.

(** Modelled from the spec: 4.2 [markAsProcessing()], "legal only from
    pending or failed". *)
Definition MarkAsProcessing (now : Time) (x : t) : t * option error :=
  if negb (bool_decide (Status x = StatusPending))
     && negb (bool_decide (Status x = StatusFailed))
  then (x, Some (NewBusinessRuleError "invalid_state_transition"
                   "can only process pending or failed transactions"))
  else (assign StatusProcessing (ProviderTransactionID x) (ErrorCode x)
          (ErrorMessage x) now (ProcessedAt x) (FailedAt x) x, None).

(** Modelled from the spec: 4.2 [markAsCompleted(providerTransactionId)],
    "legal only from processing. Sets completion timestamp, clears error
    fields". *)
Definition MarkAsCompleted (now : Time) (providerID : string) (x : t)
    : t * option error :=
  if negb (bool_decide (Status x = StatusProcessing))
  then (x, Some (NewBusinessRuleError "invalid_state_transition"
                   "can only complete processing transactions"))
  else (assign StatusCompleted providerID "" "" now (Some now) (FailedAt x) x, None).

(** Modelled from the spec: 4.2 [markAsFailed(code, message)], "legal only
    from processing; increments no counters itself". *)
Definition MarkAsFailed (now : Time) (errorCode errorMessage : string) (x : t)
    : t * option error :=
  if negb (bool_decide (Status x = StatusProcessing))
  then (x, Some (NewBusinessRuleError "invalid_state_transition"
                   "can only fail processing transactions"))
  else (assign StatusFailed (ProviderTransactionID x) errorCode errorMessage
          now (ProcessedAt x) (Some now) x, None).

(** Modelled from the spec: 4.2 [markAsRefunded(isPartial)], "legal only from
    completed; sets status to partially_refunded or refunded accordingly",
    re-entered "only to move from partially_refunded to refunded". *)
Definition MarkAsRefunded (now : Time) (isPartial : bool) (x : t)
    : t * option error :=
  if bool_decide (Status x = StatusCompleted)
     || (bool_decide (Status x = StatusPartiallyRefunded) && negb isPartial)
  then (assign (if isPartial then StatusPartiallyRefunded else StatusRefunded)
          (ProviderTransactionID x) (ErrorCode x) (ErrorMessage x) now
          (ProcessedAt x) (FailedAt x) x, None)
  else (x, Some (NewBusinessRuleError "invalid_state_transition"
                   "can only refund completed transactions")).

(** The refund window in days. *)
Definition refundWindowDays : Z := 90.

(** Modelled from the spec: 4.2 [isRefundable()], "true only if status is
    completed (or partially_refunded) and the transaction's completion
    timestamp is within a rolling 90-day window from the current time";
    "exactly 90 days since completion is still refundable". *)
Definition IsRefundable (now : Time) (x : t) : bool :=
  (bool_decide (Status x = StatusCompleted)
   || bool_decide (Status x = StatusPartiallyRefunded))
  && match ProcessedAt x with
     | Some completedAt => negb (Before completedAt (AddDate now (- refundWindowDays)))
     | None => false
     end.

End Transaction.

(** ** Package ports: the collaborators of the use cases *)
Module ports.

Inductive AuditValue : Type :=
| AString (s : string)
| ANumber (z : Z)
| AFloat (x : float64)
(** [id.String()] *)
| AUUID (id : UUID).

(** [ports.AuditAction] *)
Record AuditAction : Type := mkAuditAction {
  PartnerID : UUID;
  Action : string;
  ResourceType : string;
  ResourceID : UUID;
  IPAddress : string;
  UserAgent : string;
  Changes : list (string * AuditValue)
}.

(** One call of a use case to its environment, indexed by what it returns:
    the clock, the id source, the transaction repository, the refund
    repository, the payment gateway and the audit logger. An [option error]
    is a Go [error] ([None] is nil). *)
Inductive Op : Type -> Type :=
| Now : Op Time
| NewUUID : Op UUID
| TxGetByID (id : UUID) : Op (result (option Transaction.t))
| TxGetByIdempotencyKey (partnerID : UUID) (key : string)
    : Op (result (option Transaction.t))
| TxCreate (x : Transaction.t) : Op (option error)
| TxUpdate (x : Transaction.t) : Op (option error)
| RefundGetTotalRefundedAmount (transactionID : UUID) : Op (result float64)
| RefundCreate (r : Refund.t) : Op (option error)
| RefundUpdate (r : Refund.t) : Op (option error)
| ProcessPayment (x : Transaction.t) : Op (result string)
| ProcessRefund (r : Refund.t) (x : Transaction.t) : Op (result string)
| LogAction (a : AuditAction) : Op (option error).

(** A use case: a tree of calls, each continued with the call's answer. *)
Inductive Prog (A : Type) : Type :=
| Ret (a : A)
| Vis {X : Type} (op : Op X) (k : X -> Prog A).
Global Arguments Ret {A} a.
Global Arguments Vis {A X} op k.

(** The durable store (transactions and refunds by id), the audit trail and
    the two sources of fresh values. *)
Record World : Type := mkWorld {
  clock : Time;
  next_uuid : UUID;
  transactions : gmap UUID Transaction.t;
  refunds : gmap UUID Refund.t;
  audit_log : list AuditAction
}.

(** What the engine does not decide: whether the store refuses a call (and
    with which error), and what the payment provider answers. *)
Record Collaborators : Type := mkCollaborators {
  fault : World -> forall X, Op X -> option error;
  gatewayPayment : Transaction.t -> result string;
  gatewayRefund : Refund.t -> Transaction.t -> result string
}.

Definition with_transactions (m : gmap UUID Transaction.t) (w : World) : World :=
  mkWorld (clock w) (next_uuid w) m (refunds w) (audit_log w).
Definition with_refunds (m : gmap UUID Refund.t) (w : World) : World :=
  mkWorld (clock w) (next_uuid w) (transactions w) m (audit_log w).
Definition with_audit_log (l : list AuditAction) (w : World) : World :=
  mkWorld (clock w) (next_uuid w) (transactions w) (refunds w) l.
Definition with_next_uuid (n : UUID) (w : World) : World :=
  mkWorld (clock w) n (transactions w) (refunds w) (audit_log w).
Definition with_clock (now : Time) (w : World) : World :=
  mkWorld now (next_uuid w) (transactions w) (refunds w) (audit_log w).

(** A stored transaction that is not soft-deleted. *)
Definition live (x : Transaction.t) : bool := negb (Transaction.IsDeleted x).

(** Modelled from the spec: the transaction and refund repositories are not
    among the sources (section 6 lists their operations; the partner
    repository shows one statement per call on a plain [*sql.DB]).
    [getTransactionById]: the stored transaction, "absent or soft-deleted"
    being not found (4.4 step 1). *)
Definition GetByID (id : UUID) (w : World) : option Transaction.t :=
  match transactions w !! id with
  | Some x => if live x then Some x else None
  | None => None
  end.

(** Modelled from the spec: "a matching non-deleted transaction ... for
    [(partnerId, idempotencyKey)]" of 4.3. *)
Definition matchesKey (partnerID : UUID) (key : string) (x : Transaction.t) : bool :=
  bool_decide (Transaction.PartnerID x = partnerID)
  && bool_decide (Transaction.IdempotencyKey x = key)
  && live x.

(** Modelled from the spec: [getTransactionByIdempotencyKey], the non-deleted
    transaction stored for [(partnerId, idempotencyKey)], if any. *)
Definition GetByIdempotencyKey (partnerID : UUID) (key : string) (w : World)
    : option Transaction.t :=
  snd <$> List.find (fun kv => matchesKey partnerID key (snd kv))
            (map_to_list (transactions w)).

(** The stored transactions that the guard can answer with for a pair. *)
Definition matching (partnerID : UUID) (key : string) (w : World)
    : list (UUID * Transaction.t) :=
  List.filter (fun kv => matchesKey partnerID key (snd kv))
    (map_to_list (transactions w)).

(** The store invariant of the guard: at most one live transaction for
    every pair of partner and idempotency key; and the ids the source hands
    out are unused. *)
Definition keysUnique (w : World) : Prop :=
  forall partnerID key, (length (matching partnerID key w) <= 1)%nat.
Definition idsUnused (w : World) : Prop :=
  forall id, (next_uuid w <= id)%N -> transactions w !! id = None.

(** The share of one refund in the completed total of a transaction. *)
Definition completedAmount (transactionID : UUID) (r : Refund.t) : float64 :=
  if bool_decide (Refund.TransactionID r = transactionID) && Refund.IsCompleted r
  then Money64.Amount (Refund.Amount r) else 0%float.

(** Modelled from the spec: [sumCompletedRefunds(transactionId)], "the
    current sum of all refunds in completed status for this transaction",
    as the [float64] that the use case receives (the refund repository is
    not among the sources): the amounts of the completed refunds added one
    after the other. *)
Definition GetTotalRefundedAmount (transactionID : UUID) (w : World) : float64 :=
  map_fold (fun _ r acc => (acc + completedAmount transactionID r)%float) 0%float
    (refunds w).

(** Modelled from the spec: [insertTransaction], [updateTransaction],
    [insertRefund] and [updateRefund] of the missing repositories store the
    row under its id; the audit collaborator appends to the trail. *)
Definition putTransaction (x : Transaction.t) (w : World) : World :=
  with_transactions (<[Transaction.ID x := x]> (transactions w)) w.
Definition putRefund (r : Refund.t) (w : World) : World :=
  with_refunds (<[Refund.ID r := r]> (refunds w)) w.
Definition logged (a : AuditAction) (w : World) : World :=
  with_audit_log (audit_log w ++ [a]) w.

(** The store takes the call [op], whatever its state; or refuses it with
    [err]; or takes every call. *)
Definition accepts (c : Collaborators) {X : Type} (op : Op X) : Prop :=
  forall w, fault c w X op = None.
Definition refuses (c : Collaborators) {X : Type} (op : Op X) (err : error) : Prop :=
  forall w, fault c w X op = Some err.
Definition available (c : Collaborators) : Prop :=
  forall w X (op : Op X), fault c w X op = None.

(** The answer of the environment to one call, and the world after it: a
    call that the store refuses returns the error and changes nothing. *)
Definition handle (c : Collaborators) {X : Type} (op : Op X) (w : World) : X * World :=
  match op in Op X0 return option error -> X0 * World with
  | Now => fun _ => (clock w, w)
  | NewUUID => fun _ => (next_uuid w, with_next_uuid (N.succ (next_uuid w)) w)
  | TxGetByID id => fun f =>
      match f with
      | Some err => (Err err, w)
      | None => (Ok (GetByID id w), w)
      end
  | TxGetByIdempotencyKey partnerID key => fun f =>
      match f with
      | Some err => (Err err, w)
      | None => (Ok (GetByIdempotencyKey partnerID key w), w)
      end
  | TxCreate x => fun f =>
      match f with
      | Some err => (Some err, w)
      | None => (None, putTransaction x w)
      end
  | TxUpdate x => fun f =>
      match f with
      | Some err => (Some err, w)
      | None => (None, putTransaction x w)
      end
  | RefundGetTotalRefundedAmount transactionID => fun f =>
      match f with
      | Some err => (Err err, w)
      | None => (Ok (GetTotalRefundedAmount transactionID w), w)
      end
  | RefundCreate r => fun f =>
      match f with
      | Some err => (Some err, w)
      | None => (None, putRefund r w)
      end
  | RefundUpdate r => fun f =>
      match f with
      | Some err => (Some err, w)
      | None => (None, putRefund r w)
      end
  | ProcessPayment x => fun _ => (gatewayPayment c x, w)
  | ProcessRefund r x => fun _ => (gatewayRefund c r x, w)
  | LogAction a => fun _ => (None, logged a w)
  end (fault c w X op).

(** A use case run alone, from its first call to its return. *)
Fixpoint run {A : Type} (c : Collaborators) (p : Prog A) (w : World) : A * World :=
  match p with
  | Ret a => (a, w)
  | Vis op k => let (x, w') := handle c op w in run c (k x) w'
  end.

(** Two use cases run concurrently: the schedule says whose call comes next
    ([true]: the first, [false]: the second); a call is atomic, nothing else
    is. A finished use case ignores its turns. *)
Fixpoint interleave {A B : Type} (c : Collaborators) (schedule : list bool)
    (p : Prog A) (q : Prog B) (w : World) : Prog A * Prog B * World :=
  match schedule with
  | [] => (p, q, w)
  | true :: rest =>
      match p with
      | Ret _ => interleave c rest p q w
      | Vis op k => let (x, w') := handle c op w in interleave c rest (k x) q w'
      end
  | false :: rest =>
      match q with
      | Ret _ => interleave c rest p q w
      | Vis op k => let (x, w') := handle c op w in interleave c rest p (k x) w'
      end
  end.

Definition returned {A : Type} (p : Prog A) : option A :=
  match p with Ret a => Some a | Vis _ _ => None end.

End ports.
Export ports.

Declare Scope prog_scope.
Delimit Scope prog_scope with prog.
Notation "x <- op ;; k" := (Vis op (fun x => k))
  (at level 100, op at next level, right associativity,
   format "x  <-  op  ;;  '//' k") : prog_scope.

(** ** Package transaction: the refund use case
    (internal/usecases/transaction/refund_transaction.go) *)
Module RefundTransactionUseCase.

Record RefundTransactionInput : Type := mkInput {
  TransactionID : UUID;
  PartnerID : UUID;
  Amount : float64;
  Currency : string;
  Reason : string;
  IPAddress : string;
  UserAgent : string
}.

(** The use case holds its collaborators; [auditLogger] says whether the
    logger is non-nil. *)
Record t : Type := mk { auditLogger : bool }.

Local Open Scope prog_scope.

(** Step 15: the audit record of a completed refund. *)
Definition auditRefundCompleted (input : RefundTransactionInput)
    (refund : Refund.t) (transaction : Transaction.t) (providerRefundID : string)
    : AuditAction :=
  {| ports.PartnerID := PartnerID input;
     ports.Action := "refund_completed";
     ports.ResourceType := "refund";
     ports.ResourceID := Refund.ID refund;
     ports.IPAddress := IPAddress input;
     ports.UserAgent := UserAgent input;
     ports.Changes :=
       [("transaction_id", AUUID (Transaction.ID transaction));
        ("amount", AFloat (Amount input));
        ("provider_refund_id", AString providerRefundID);
        ("transaction_status",
         AString (Transaction.status_string (Transaction.Status transaction)))] |}.

(** Steps 14 and 15, after the refund was marked completed and stored. *)
Definition finish (uc : t) (input : RefundTransactionInput)
    (transaction : Transaction.t) (totalRefunded : float64) (refund : Refund.t)
    (providerRefundID : string) : Prog (result Refund.t) :=
  (* Step 14: Update transaction status *)
  let isFullRefund :=
    (Money64.Amount (Transaction.Amount transaction) <=? totalRefunded + Amount input)%float in
  now <- Now ;;
  let (transaction, e) := Transaction.MarkAsRefunded now (negb isFullRefund) transaction in
  match e with
  | Some err => Ret (Err (Errorf "failed to update transaction status" err))
  | None =>
  e <- TxUpdate transaction ;;
  match e with
  | Some err => Ret (Err (Errorf "failed to update transaction" err))
  | None =>
  (* Step 15: Log audit event *)
  if auditLogger uc
  then _ <- LogAction (auditRefundCompleted input refund transaction providerRefundID) ;;
       Ret (Ok refund)
  else Ret (Ok refund)
  end end.

(** Steps 10 to 13, from the new refund entity on. *)
Definition process (uc : t) (input : RefundTransactionInput)
    (transaction : Transaction.t) (totalRefunded : float64) (refund : Refund.t)
    : Prog (result Refund.t) :=
  (* Step 10: Persist refund *)
  e <- RefundCreate refund ;;
  match e with
  | Some err => Ret (Err (Errorf "failed to create refund" err))
  | None =>
  (* Step 11: Mark refund as processing *)
  now <- Now ;;
  let (refund, e) := Refund.MarkAsProcessing now refund in
  match e with
  | Some err => Ret (Err (Errorf "failed to mark refund as processing" err))
  | None =>
  e <- RefundUpdate refund ;;
  match e with
  | Some err => Ret (Err (Errorf "failed to update refund" err))
  | None =>
  (* Step 12: Process refund through payment gateway *)
  r <- ProcessRefund refund transaction ;;
  match r with
  | Err err =>
      (* Refund failed *)
      now <- Now ;;
      let (refund, _) := Refund.MarkAsFailed now "REFUND_FAILED" (Error err) refund in
      _ <- RefundUpdate refund ;;
      Ret (Err (Errorf "refund processing failed" err))
  | Ok providerRefundID =>
  (* Step 13: Mark refund as completed *)
  now <- Now ;;
  let (refund, e) := Refund.MarkAsCompleted now providerRefundID refund in
  match e with
  | Some err => Ret (Err (Errorf "failed to mark refund as completed" err))
  | None =>
  e <- RefundUpdate refund ;;
  match e with
  | Some err => Ret (Err (Errorf "failed to update refund" err))
  | None => finish uc input transaction totalRefunded refund providerRefundID
  end end end end end end.

(** Steps 5 to 9, the checks on the amount of a refundable transaction. *)
Definition checkAmount (uc : t) (input : RefundTransactionInput)
    (transaction : Transaction.t) : Prog (result Refund.t) :=
  (* Step 5: Create Money value object for refund *)
  match Money64.NewMoney (Amount input) (Currency input) with
  | Err err => Ret (Err (Errorf "invalid refund amount" err))
  | Ok refundMoney =>
  (* Step 6: Validate refund amount doesn't exceed transaction amount *)
  if Money64.IsGreaterThan refundMoney (Transaction.Amount transaction)
  then Ret (Err ErrRefundAmountExceeded) else
  (* Step 7: Check total refunded amount *)
  r <- RefundGetTotalRefundedAmount (Transaction.ID transaction) ;;
  match r with
  | Err err => Ret (Err (Errorf "failed to get total refunded" err))
  | Ok totalRefunded =>
  if (Money64.Amount (Transaction.Amount transaction) <? totalRefunded + Amount input)%float
  then Ret (Err ErrRefundAmountExceeded) else
  (* Step 8: Validate currency matches *)
  if negb (bool_decide (Money64.Currency refundMoney
                        = Money64.Currency (Transaction.Amount transaction)))
  then Ret (Err (NewValidationError "currency" "must match transaction currency")) else
  (* Step 9: Create Refund entity *)
  now <- Now ;;
  id <- NewUUID ;;
  match Refund.NewRefund id now (Transaction.ID transaction) refundMoney (Reason input) with
  | Err err => Ret (Err (Errorf "failed to create refund entity" err))
  | Ok refund => process uc input transaction totalRefunded refund
  end end end.

(** [Execute] processes a refund. *)
Definition Execute (uc : t) (input : RefundTransactionInput) : Prog (result Refund.t) :=
  (* Step 1: Retrieve transaction *)
  r <- TxGetByID (TransactionID input) ;;
  match r with
  | Err err => Ret (Err (Errorf "failed to get transaction" err))
  | Ok None => Ret (Err ErrTransactionNotFound)
  | Ok (Some transaction) =>
  (* Step 2: Authorization - verify partner owns this transaction *)
  if negb (bool_decide (Transaction.PartnerID transaction = PartnerID input))
  then Ret (Err ErrUnauthorizedOperation) else
  (* Step 3: Business Rule - Check if transaction is refundable *)
  now <- Now ;;
  if negb (Transaction.IsRefundable now transaction)
  then Ret (Err ErrRefundNotAllowed) else
  (* Step 4: Business Rule - Check 90-day window *)
  now <- Now ;;
  let ninetyDaysAgo := AddDate now (-90) in
  if Before (Transaction.CreatedAt transaction) ninetyDaysAgo
  then Ret (Err ErrRefundWindowExpired)
  else checkAmount uc input transaction
  end.

(** The request passes steps 1 to 5 on the stored transaction [transaction]
    and the read of step 7 is answered: it reaches the amount check. *)
Definition reachesAmountCheck (c : Collaborators) (input : RefundTransactionInput)
    (w : World) (transaction : Transaction.t) : Prop :=
  fault c w _ (TxGetByID (TransactionID input)) = None
  /\ GetByID (TransactionID input) w = Some transaction
  /\ Transaction.PartnerID transaction = PartnerID input
  /\ Transaction.IsRefundable (clock w) transaction = true
  /\ Before (Transaction.CreatedAt transaction) (AddDate (clock w) (-90)) = false
  /\ Money64.NewMoney (Amount input) (Currency input)
     = Ok (Money64.mk (Amount input) (Currency input))
  /\ fault c w _ (RefundGetTotalRefundedAmount (Transaction.ID transaction)) = None.

(** The request passes steps 1 to 9: [totalRefunded] is the total read in
    step 7 and [refund] the entity built in step 9. *)
Definition passesChecks (c : Collaborators) (input : RefundTransactionInput)
    (w : World) (transaction : Transaction.t) (totalRefunded : float64)
    (refund : Refund.t) : Prop :=
  reachesAmountCheck c input w transaction
  /\ Money64.IsGreaterThan (Money64.mk (Amount input) (Currency input))
       (Transaction.Amount transaction) = false
  /\ totalRefunded = GetTotalRefundedAmount (Transaction.ID transaction) w
  /\ (Money64.Amount (Transaction.Amount transaction) <? totalRefunded + Amount input)%float
     = false
  /\ Currency input = Money64.Currency (Transaction.Amount transaction)
  /\ Refund.NewRefund (next_uuid w) (clock w) (Transaction.ID transaction)
       (Money64.mk (Amount input) (Currency input)) (Reason input) = Ok refund.

End RefundTransactionUseCase.

(** ** Package transaction: the payment use case (process_payment.go) *)
Module ProcessPaymentUseCase.

Record t : Type := mk { auditLogger : bool }.

Local Open Scope prog_scope.

Definition auditPaymentFailed (transaction : Transaction.t) (err : error) : AuditAction :=
  {| ports.PartnerID := Transaction.PartnerID transaction;
     ports.Action := "payment_failed";
     ports.ResourceType := "transaction";
     ports.ResourceID := Transaction.ID transaction;
     ports.IPAddress := "";
     ports.UserAgent := "";
     ports.Changes :=
       [("error", AString (Error err));
        ("status", AString (Transaction.status_string (Transaction.Status transaction)))] |}.

Definition auditPaymentCompleted (transaction : Transaction.t) (providerTxnID : string)
    : AuditAction :=
  {| ports.PartnerID := Transaction.PartnerID transaction;
     ports.Action := "payment_completed";
     ports.ResourceType := "transaction";
     ports.ResourceID := Transaction.ID transaction;
     ports.IPAddress := "";
     ports.UserAgent := "";
     ports.Changes :=
       [("provider_transaction_id", AString providerTxnID);
        ("status", AString (Transaction.status_string (Transaction.Status transaction)))] |}.

(** [Execute] processes a payment through the payment gateway. The webhook
    of step 7 builds a payload and drops it; it has no effect. *)
Definition Execute (uc : t) (transactionID : UUID) : Prog (option error) :=
  (* Step 1: Retrieve transaction *)
  r <- TxGetByID transactionID ;;
  match r with
  | Err err => Ret (Some (Errorf "failed to get transaction" err))
  | Ok None => Ret (Some ErrTransactionNotFound)
  | Ok (Some transaction) =>
  (* Step 2: Validate transaction state *)
  if negb (Transaction.IsPending transaction) && negb (Transaction.IsFailed transaction)
  then Ret (Some (NewBusinessRuleError "invalid_state"
                    ("transaction is in "
                     +:+ Transaction.status_string (Transaction.Status transaction)
                     +:+ " state, cannot process"))) else
  (* Step 3: Mark as processing *)
  now <- Now ;;
  let (transaction, e) := Transaction.MarkAsProcessing now transaction in
  match e with
  | Some err => Ret (Some (Errorf "failed to mark as processing" err))
  | None =>
  e <- TxUpdate transaction ;;
  match e with
  | Some err => Ret (Some (Errorf "failed to update transaction" err))
  | None =>
  (* Step 4: Process payment through gateway *)
  r <- ProcessPayment transaction ;;
  match r with
  | Err err =>
      (* Payment failed - mark transaction as failed *)
      now <- Now ;;
      let (transaction, _) :=
        Transaction.MarkAsFailed now "PAYMENT_FAILED" (Error err) transaction in
      _ <- TxUpdate transaction ;;
      if auditLogger uc
      then _ <- LogAction (auditPaymentFailed transaction err) ;;
           Ret (Some (Errorf "payment processing failed" err))
      else Ret (Some (Errorf "payment processing failed" err))
  | Ok providerTxnID =>
  (* Step 5: Mark transaction as completed *)
  now <- Now ;;
  let (transaction, e) := Transaction.MarkAsCompleted now providerTxnID transaction in
  match e with
  | Some err => Ret (Some (Errorf "failed to mark as completed" err))
  | None =>
  e <- TxUpdate transaction ;;
  match e with
  | Some err => Ret (Some (Errorf "failed to update transaction" err))
  | None =>
  (* Step 6: Log audit event *)
  if auditLogger uc
  then _ <- LogAction (auditPaymentCompleted transaction providerTxnID) ;;
       Ret None
  else Ret None
  end end end end end end.

End ProcessPaymentUseCase.

(** ** Package transaction: creation behind the idempotency guard *)
Module CreateTransactionUseCase.

Record CreateTransactionInput : Type := mkInput {
  PartnerID : UUID;
  IdempotencyKey : string;
  Amount : float64;
  Currency : string;
  Provider : string
}.

Local Open Scope prog_scope.

(** Modelled from the spec: internal/usecases/transaction/create_transaction.go
    and the transaction repository are not among the sources (README.md
    sketches the use case). Section 2 and 4.3: the request "first consults
    IdempotencyGuard"; a matching non-deleted transaction is returned
    "verbatim rather than creating a new one, regardless of request body
    differences"; otherwise Money validates the amount and currency and the
    entity is created in its initial state and inserted. *)
Definition Execute (input : CreateTransactionInput) : Prog (result Transaction.t) :=
  r <- TxGetByIdempotencyKey (PartnerID input) (IdempotencyKey input) ;;
  match r with
  | Err err => Ret (Err (Errorf "failed to check idempotency" err))
  | Ok (Some existing) => Ret (Ok existing)
  | Ok None =>
  match Money64.NewMoney (Amount input) (Currency input) with
  | Err err => Ret (Err (Errorf "invalid amount" err))
  | Ok money =>
  now <- Now ;;
  id <- NewUUID ;;
  match Transaction.NewTransaction id now (PartnerID input) (IdempotencyKey input)
          money (Provider input) with
  | Err err => Ret (Err (Errorf "failed to create transaction entity" err))
  | Ok transaction =>
  e <- TxCreate transaction ;;
  match e with
  | Some err => Ret (Err (Errorf "failed to create transaction" err))
  | None => Ret (Ok transaction)
  end end end end.

End CreateTransactionUseCase.

(** ** The storage-level refund check (migrations/000001_init_schema.up.sql) *)
Module schema.

(** The columns [amount] of the two tables are [DECIMAL(19, 4)]: a stored
    amount is a whole number of ten-thousandths, and the sums and the
    comparison of the trigger are exact. The repositories that write the
    rows are not among the sources: [decimal] is the value of the column for
    the [float64] amount of the entity. *)
Section Trigger.

Variable decimal : float64 -> Z.

(** The share of one row in [SUM(amount) ... WHERE transaction_id = ... AND
    status = 'completed']. *)
Definition completed (transactionID : UUID) (r : Refund.t) : Z :=
  if bool_decide (Refund.TransactionID r = transactionID) && Refund.IsCompleted r
  then decimal (Money64.Amount (Refund.Amount r)) else 0.

(** [SELECT COALESCE(SUM(amount), 0) FROM refunds WHERE transaction_id = $1
    AND status = 'completed'] *)
Definition completed_total (transactionID : UUID) (w : World) : Z :=
  map_fold (fun _ r acc => acc + completed transactionID r) 0 (refunds w).

(** [SELECT COALESCE(SUM(amount), 0) FROM refunds WHERE transaction_id =
    NEW.transaction_id AND status = 'completed' AND id != NEW.id] *)
Definition total_refunded (new : Refund.t) (w : World) : Z :=
  map_fold (fun _ r acc =>
              if negb (bool_decide (Refund.ID r = Refund.ID new))
              then acc + completed (Refund.TransactionID new) r
              else acc)
           0 (refunds w).

(** The body of the trigger function [validate_refund_amount()] for the row
    [new]: the exception it raises, if any. A comparison with the amount of
    a transaction that is not stored is NULL and raises nothing. *)
Definition validate_refund_amount (new : Refund.t) (w : World) : option error :=
  match transactions w !! Refund.TransactionID new with
  | Some x =>
      if decimal (Money64.Amount (Transaction.Amount x))
         <? total_refunded new w + decimal (Money64.Amount (Refund.Amount new))
      then Some (External "Refund amount exceeds transaction amount")
      else None
  | None => None
  end.

(** [validate_refund_amount_trigger]: BEFORE INSERT OR UPDATE ON refunds, as
    a behaviour of the store. *)
Definition trigger (w : World) (X : Type) (op : Op X) : option error :=
  match op with
  | RefundCreate r => validate_refund_amount r w
  | RefundUpdate r => validate_refund_amount r w
  | _ => None
  end.

End Trigger.

End schema.

(** ** The first service layer (entities, repositories, usecases) *)
Module legacy.

(** [entities.Transaction]: [gorm.Model] (of which the primary key [ID]
    matters here), the user, the amount and a free status string. *)
Record Transaction : Type := mkTransaction {
  ID : N;
  UserID : N;
  Amount : float64;
  Status : string
}.

(** The table behind [*gorm.DB]: its rows by primary key and its sequence. *)
Record DB : Type := mkDB {
  rows : gmap N Transaction;
  sequence : N
}.

(** [db.Create(tx)]: a zero primary key is filled from the sequence, a given
    one is kept; the insert fails on a primary key that is taken. The
    record is returned as the call leaves it. *)
Definition Create (tx : Transaction) (db : DB) : Transaction * option error * DB :=
  let id := if bool_decide (ID tx = 0%N) then sequence db else ID tx in
  let seq := if bool_decide (ID tx = 0%N) then N.succ (sequence db) else sequence db in
  match rows db !! id with
  | Some _ => (tx, Some (External "duplicate key value violates unique constraint"),
               mkDB (rows db) seq)
  | None =>
      let tx' := mkTransaction id (UserID tx) (Amount tx) (Status tx) in
      (tx', None, mkDB (<[id := tx']> (rows db)) seq)
  end.

(** [GormTransactionRepository.CreateTransaction] *)
Definition GormTransactionRepository_CreateTransaction (tx : Transaction) (db : DB)
    : Transaction * option error * DB :=
  Create tx db.

(** [TransactionService.CreateTransaction] *)
Definition CreateTransaction (tx : Transaction) (db : DB)
    : Transaction * option error * DB :=
  GormTransactionRepository_CreateTransaction tx db.

End legacy.

(** ** Worlds and collaborators used in examples *)
Module scenario.

Definition day : Z := secondsPerDay.

(** A store that takes every call and a provider that answers like the mock
    gateway: always with an identifier. *)
Definition healthy : Collaborators :=
  {| fault := fun _ _ _ => None;
     gatewayPayment := fun x => Ok "mock_stripe_txn";
     gatewayRefund := fun r x => Ok "mock_refund_stripe" |}.

(** The value of a [DECIMAL(19, 4)] column that is given the [float64] [x],
    in ten-thousandths: the number [x] stands for, times 10000, rounded to
    the nearest whole number (half away from zero). On an amount of at most
    four decimal places below 2^53 / 10000 this is the amount itself. *)
Definition decimal4 (x : float64) : Z :=
  match Prim2SF x with
  | S754_finite negative m e =>
      let n := Z.pos m * 10000 in
      let rounded := if 0 <=? e then n * 2 ^ e else (n + 2 ^ (- e - 1)) / 2 ^ (- e) in
      if negative then - rounded else rounded
  | _ => 0
  end.

(** The same store with the refund trigger of the schema in place. *)
Definition withTrigger : Collaborators :=
  {| fault := schema.trigger decimal4;
     gatewayPayment := fun x => Ok "mock_stripe_txn";
     gatewayRefund := fun r x => Ok "mock_refund_stripe" |}.

(** A provider that declines. *)
Definition declining : Collaborators :=
  {| fault := fun _ _ _ => None;
     gatewayPayment := fun x => Err (External "card declined");
     gatewayRefund := fun r x => Err (External "provider unavailable") |}.

(** A provider that declines, on a store that refuses to write a failed
    refund. *)
Definition decliningRefusesFailed : Collaborators :=
  {| fault := fun _ _ op =>
       match op with
       | RefundUpdate r =>
           if Refund.IsFailed r then Some (External "connection reset") else None
       | _ => None
       end;
     gatewayPayment := fun x => Err (External "card declined");
     gatewayRefund := fun r x => Err (External "provider unavailable") |}.

(** A store that refuses to write a completed refund. *)
Definition refusesCompleted : Collaborators :=
  {| fault := fun _ _ op =>
       match op with
       | RefundUpdate r =>
           if Refund.IsCompleted r then Some (External "connection reset") else None
       | _ => None
       end;
     gatewayPayment := fun x => Ok "mock_stripe_txn";
     gatewayRefund := fun r x => Ok "mock_refund_stripe" |}.

(** A store that refuses to write a processing refund. *)
Definition refusesProcessing : Collaborators :=
  {| fault := fun _ _ op =>
       match op with
       | RefundUpdate r =>
           if bool_decide (Refund.Status r = Refund.RefundStatusProcessing)
           then Some (External "connection reset") else None
       | _ => None
       end;
     gatewayPayment := fun x => Ok "mock_stripe_txn";
     gatewayRefund := fun r x => Ok "mock_refund_stripe" |}.

(** A transaction of 10000 USD of partner 7, created at [created] and
    completed at [completed]. *)
Definition completedTransaction (created completed : Time) : Transaction.t :=
  {| Transaction.ID := 1%N;
     Transaction.PartnerID := 7%N;
     Transaction.Amount := Money64.mk 10000 "USD";
     Transaction.IdempotencyKey := "order-1";
     Transaction.Status := Transaction.StatusCompleted;
     Transaction.Provider := "stripe";
     Transaction.ProviderTransactionID := "mock_stripe_txn";
     Transaction.RetryCount := 0;
     Transaction.ErrorCode := "";
     Transaction.ErrorMessage := "";
     Transaction.CreatedAt := created;
     Transaction.UpdatedAt := completed;
     Transaction.ProcessedAt := Some completed;
     Transaction.FailedAt := None;
     Transaction.DeletedAt := None |}.

(** The same transaction over another amount, completed ten seconds after
    its creation. *)
Definition transactionOver (amount : float64) : Transaction.t :=
  {| Transaction.ID := 1%N;
     Transaction.PartnerID := 7%N;
     Transaction.Amount := Money64.mk amount "USD";
     Transaction.IdempotencyKey := "order-1";
     Transaction.Status := Transaction.StatusCompleted;
     Transaction.Provider := "stripe";
     Transaction.ProviderTransactionID := "mock_stripe_txn";
     Transaction.RetryCount := 0;
     Transaction.ErrorCode := "";
     Transaction.ErrorMessage := "";
     Transaction.CreatedAt := 0;
     Transaction.UpdatedAt := 10;
     Transaction.ProcessedAt := Some 10;
     Transaction.FailedAt := None;
     Transaction.DeletedAt := None |}.

(** The same transaction before processing. *)
Definition pendingTransaction (created : Time) : Transaction.t :=
  {| Transaction.ID := 1%N;
     Transaction.PartnerID := 7%N;
     Transaction.Amount := Money64.mk 10000 "USD";
     Transaction.IdempotencyKey := "order-1";
     Transaction.Status := Transaction.StatusPending;
     Transaction.Provider := "stripe";
     Transaction.ProviderTransactionID := "";
     Transaction.RetryCount := 0;
     Transaction.ErrorCode := "";
     Transaction.ErrorMessage := "";
     Transaction.CreatedAt := created;
     Transaction.UpdatedAt := created;
     Transaction.ProcessedAt := None;
     Transaction.FailedAt := None;
     Transaction.DeletedAt := None |}.

(** A world holding one transaction and no refund, at time [now]. *)
Definition worldOf (now : Time) (x : Transaction.t) : World :=
  {| clock := now;
     next_uuid := 100%N;
     transactions := {[ Transaction.ID x := x ]};
     refunds := ∅;
     audit_log := [] |}.

Definition uc : RefundTransactionUseCase.t := RefundTransactionUseCase.mk true.

(** A refund request of partner 7 on transaction 1. *)
Definition refund (amount : float64) : RefundTransactionUseCase.RefundTransactionInput :=
  RefundTransactionUseCase.mkInput 1%N 7%N amount "USD" "customer request"
    "203.0.113.9" "curl".
Global Arguments refund amount%_float.

(** A refund of 2500 USD on transaction 1 as [NewRefund] builds it on the
    fifth day. *)
Definition pendingRefund : Refund.t :=
  {| Refund.ID := 100%N;
     Refund.TransactionID := 1%N;
     Refund.Amount := Money64.mk 2500 "USD";
     Refund.Status := Refund.RefundStatusPending;
     Refund.Reason := "customer request";
     Refund.ProviderRefundID := "";
     Refund.ErrorCode := "";
     Refund.ErrorMessage := "";
     Refund.CreatedAt := 5 * day;
     Refund.UpdatedAt := 5 * day;
     Refund.ProcessedAt := None;
     Refund.DeletedAt := None |}.

(** An amount of [n] hundredths as Go reads its decimal literal: the
    [float64] nearest to n / 100. *)
Definition cents (n : Z) : float64 :=
  (PrimFloat.of_uint63 (Uint63.of_Z n) / 100)%float.

(** 0.10 and then 0.70 refunded of a transaction of 0.80, and 1.10 and then
    2.20 of a transaction of 3.30, five days after the transaction. *)
Definition afterTenCents : result Refund.t * World :=
  run healthy (RefundTransactionUseCase.Execute uc (refund (cents 10)))
    (worldOf (5 * day) (transactionOver (cents 80))).
Definition afterSeventyCents : result Refund.t * World :=
  run healthy (RefundTransactionUseCase.Execute uc (refund (cents 70))) (snd afterTenCents).
Definition afterOneTen : result Refund.t * World :=
  run healthy (RefundTransactionUseCase.Execute uc (refund (cents 110)))
    (worldOf (5 * day) (transactionOver (cents 330))).
Definition afterTwoTwenty : result Refund.t * World :=
  run healthy (RefundTransactionUseCase.Execute uc (refund (cents 220))) (snd afterOneTen).

(** The world five days after the transaction was created and completed. *)
Definition w0 : World := worldOf (5 * day) (completedTransaction 0 10).

(** A pending transaction one minute after its creation. *)
Definition beforePayment : World := worldOf 60 (pendingTransaction 0).

(** A first refund of 3000 of the transaction of 10000. *)
Definition afterFirst : result Refund.t * World :=
  run healthy (RefundTransactionUseCase.Execute uc (refund 3000)) w0.

(** A transaction created 100 days ago that stayed pending for 95 days and
    was completed 5 days ago. *)
Definition completedLate : Transaction.t := completedTransaction 0 (95 * day).
Definition lateWorld : World := worldOf (100 * day) completedLate.

(** A transaction created and completed exactly 90 days ago, and one second
    earlier than that. *)
Definition atBoundary : World := worldOf (90 * day) (completedTransaction 0 0).
Definition pastBoundary : World := worldOf (90 * day + 1) (completedTransaction 0 0).

(** Two requests of 6000 running concurrently. A use case that succeeds
    makes 15 calls; its first ten reach the answer of the provider. In
    [racy] both requests have read the total and been refunded by the
    provider before either is marked completed. *)
Definition racy : list bool :=
  replicate 10 true ++ replicate 10 false ++ replicate 5 true ++ replicate 5 false.

(** One request after the other. *)
Definition serial : list bool := replicate 15 true ++ replicate 15 false.

Definition race (c : Collaborators) (schedule : list bool)
    : Prog (result Refund.t) * Prog (result Refund.t) * World :=
  interleave c schedule
    (RefundTransactionUseCase.Execute uc (refund 6000))
    (RefundTransactionUseCase.Execute uc (refund 6000)) w0.

(** What the two racing requests returned and the completed total they
    left on transaction 1. *)
Definition outcome (c : Collaborators) (schedule : list bool)
    : option (result Refund.t) * option (result Refund.t) * float64 :=
  let '(p, q, w) := race c schedule in
  (returned p, returned q, GetTotalRefundedAmount 1%N w).

(** A store without transactions; the next id is 1. *)
Definition emptyWorld : World :=
  {| clock := 0; next_uuid := 1%N; transactions := ∅; refunds := ∅; audit_log := [] |}.

(** A create request of partner 7 under the idempotency key order-1. *)
Definition order (amount : float64) (currency provider : string)
    : CreateTransactionUseCase.CreateTransactionInput :=
  CreateTransactionUseCase.mkInput 7%N "order-1" amount currency provider.
Global Arguments order amount%_float currency provider.

End scenario.

(** * The code around the refund engine *)

(** ** Package strings of the Go library *)
Module Strings.

(** [strings.Split(s, sep)] for a separator of one byte: the pieces of [s]
    between the separators, in order; a string without separator is its
    only piece. *)
Fixpoint Split (s : string) (sep : ascii) : list string :=
  match s with
  | EmptyString => [""]
  | String a rest =>
      if Ascii.eqb a sep then "" :: Split rest sep
      else match Split rest sep with
           | [] => [String a ""]
           | piece :: pieces => String a piece :: pieces
           end
  end.

(** The byte [sep] occurs in [s]. *)
Fixpoint Contains (s : string) (sep : ascii) : bool :=
  match s with
  | EmptyString => false
  | String a rest => Ascii.eqb a sep || Contains rest sep
  end.

(** The strings on which [ToLower] and [TrimSpace] below are those of the
    Go library: every byte is below [utf8.RuneSelf] (0x80). On other strings
    Go decodes UTF-8 and consults the Unicode tables. *)
Fixpoint isASCII (s : string) : bool :=
  match s with
  | EmptyString => true
  | String a rest => (N_of_ascii a <? 128)%N && isASCII rest
  end.

(** The ASCII white space of [strings.TrimSpace]: tab, line feed, vertical
    tab, form feed, carriage return and space. *)
Definition asciiSpace (a : ascii) : bool :=
  bool_decide (N_of_ascii a ∈ [9; 10; 11; 12; 13; 32]%N).

(** One byte of [strings.ToLower]: 'A' to 'Z' move by ['a' - 'A']. *)
Definition lower (a : ascii) : ascii :=
  if ((65 <=? N_of_ascii a) && (N_of_ascii a <=? 90))%N
  then ascii_of_N (N_of_ascii a + 32)
  else a.

(** [strings.ToLower(s)] *)
Fixpoint ToLower (s : string) : string :=
  match s with
  | EmptyString => EmptyString
  | String a rest => String (lower a) (ToLower rest)
  end.

(** [strings.TrimSpace(s)]: [s] without its leading and its trailing white
    space. *)
Fixpoint TrimLeft (s : string) : string :=
  match s with
  | EmptyString => EmptyString
  | String a rest => if asciiSpace a then TrimLeft rest else s
  end.

Fixpoint TrimRight (s : string) : string :=
  match s with
  | EmptyString => EmptyString
  | String a rest =>
      match TrimRight rest with
      | EmptyString => if asciiSpace a then EmptyString else String a EmptyString
      | kept => String a kept
      end
  end.

Definition TrimSpace (s : string) : string := TrimRight (TrimLeft s).

End Strings.

(** ** Package valueobjects: payment method and payment provider
    (payment_method.go, payment_provider.go) *)
Module PaymentMethod.

Definition t : Type := string.

Definition PaymentMethodCard : t := "card".
Definition PaymentMethodBankTransfer : t := "bank_transfer".
Definition PaymentMethodEWallet : t := "e_wallet".
Definition PaymentMethodCrypto : t := "crypto".

(** The map of [NewPaymentMethod]; a key that is missing reads as false. *)
Definition validMethods : gmap string bool :=
  list_to_map [("card", true); ("bank_transfer", true); ("e_wallet", true);
               ("crypto", true)].

(** [NewPaymentMethod] validates and creates a payment method. *)
Definition NewPaymentMethod (method : string) : result t :=
  let method := Strings.ToLower (Strings.TrimSpace method) in
  if negb (default false (validMethods !! method))
  then Err ErrInvalidPaymentMethod
  else Ok method.

(** [String] returns the string representation. *)
Definition String (pm : t) : string := pm.

(** [IsValid] checks the payment method by building it again. *)
Definition IsValid (pm : t) : bool := is_Ok (NewPaymentMethod (String pm)).

End PaymentMethod.

Module PaymentProvider.

Definition t : Type := string.

Definition ProviderStripe : t := "stripe".
Definition ProviderPayPal : t := "paypal".
Definition ProviderAdyen : t := "adyen".
Definition ProviderManual : t := "manual".

Definition validProviders : gmap string bool :=
  list_to_map [("stripe", true); ("paypal", true); ("adyen", true); ("manual", true)].

(** [NewPaymentProvider] validates and creates a payment provider. *)
Definition NewPaymentProvider (provider : string) : result t :=
  let provider := Strings.ToLower (Strings.TrimSpace provider) in
  if negb (default false (validProviders !! provider))
  then Err (NewValidationError "provider" "invalid payment provider")
  else Ok provider.

Definition String (pp : t) : string := pp.

Definition IsValid (pp : t) : bool := is_Ok (NewPaymentProvider (String pp)).

End PaymentProvider.

(** ** What the initial schema lists (migrations/000001_init_schema.up.sql) *)
Module catalog.

(** The codes of the rows that the schema inserts into [payment_methods],
    and the values of its [payment_provider] enum. *)
Definition payment_methods : list string := ["card"; "bank_transfer"; "e_wallet"; "crypto"].
Definition payment_provider : list string := ["stripe"; "paypal"; "adyen"; "manual"].

End catalog.

(** ** Package entities: the partner *)
Module Partner.

(** [entities.Partner] is not among the sources; these are the fields that
    the partner repository reads and writes, under its names. The JSON
    column [metadata] is left out. *)
Record t : Type := mk {
  ID : UUID;
  Name : string;
  Email : string;
  APIKeyHash : string;
  APIKeyPrefix : string;
  IsActive : bool;
  RateLimitPerMinute : Z;
  WebhookURL : string;
  WebhookSecret : string;
  CreatedAt : Time;
  UpdatedAt : Time
}.

End Partner.

(** ** Package middleware: authentication
    (internal/adapters/http/middleware/auth.go) *)
Module middleware.

(** A value kept in the request context under a key ([c.Locals]). *)
Inductive Local : Type :=
| LocalUUID (id : UUID)
| LocalPartner (partner : Partner.t).

(** What the middleware needs of [*fiber.Ctx]: the request headers and the
    values kept for the handlers that follow. *)
Record Ctx : Type := mkCtx {
  headers : gmap string string;
  locals : gmap string Local
}.

(** [c.Get(key)]: the header, or the empty string. *)
Definition Get (key : string) (c : Ctx) : string := default "" (headers c !! key).

(** [c.Locals(key, value)] *)
Definition Locals (key : string) (value : Local) (c : Ctx) : Ctx :=
  mkCtx (headers c) (<[key := value]> (locals c)).

(** How a handler ends: [c.Status(status).JSON(fiber.Map{"error": ...,
    "message": ...})], or [c.Next()]. *)
Inductive Reply : Type :=
| JSON (status : Z) (error message : string)
| Next.

Definition StatusUnauthorized : Z := 401.
Definition StatusForbidden : Z := 403.

(** The middleware holds the partner repository, of which it calls
    [GetByAPIKeyPrefix]. [ValidateAPIKey] is a method of the partner entity,
    which is not among the sources: the middleware is given it as a
    function of the partner and the key. *)
Record AuthMiddleware : Type := mk {
  GetByAPIKeyPrefix : string -> result (option Partner.t);
  ValidateAPIKey : Partner.t -> string -> option error
}.

(** [Handle] validates the API key and authenticates the partner. *)
Definition Handle (m : AuthMiddleware) (c : Ctx) : Reply * Ctx :=
  (* Get API key from Authorization header *)
  let authHeader := Get "Authorization" c in
  if bool_decide (authHeader = "")
  then (JSON StatusUnauthorized "unauthorized" "missing authorization header", c) else
  (* Expected format: "Bearer <api_key>" *)
  let parts := Strings.Split authHeader " "%char in
  match parts with
  | [scheme; apiKey] =>
      if negb (bool_decide (scheme = "Bearer"))
      then (JSON StatusUnauthorized "unauthorized" "invalid authorization header format", c)
      else
      if (String.length apiKey <? 8)%nat
      then (JSON StatusUnauthorized "unauthorized" "invalid API key", c) else
      (* Get API key prefix (first 8 characters) *)
      let prefix := String.substring 0 8 apiKey in
      (* Find partner by prefix *)
      match GetByAPIKeyPrefix m prefix with
      | Err _ | Ok None => (JSON StatusUnauthorized "unauthorized" "invalid API key", c)
      | Ok (Some partner) =>
          (* Validate API key *)
          match ValidateAPIKey m partner apiKey with
          | Some ErrPartnerInactive =>
              (JSON StatusForbidden "forbidden" "partner account is inactive", c)
          | Some _ => (JSON StatusUnauthorized "unauthorized" "invalid API key", c)
          | None =>
              (* Set partner ID in context *)
              (Next, Locals "partner" (LocalPartner partner)
                       (Locals "partner_id" (LocalUUID (Partner.ID partner)) c))
          end
      end
  | _ => (JSON StatusUnauthorized "unauthorized" "invalid authorization header format", c)
  end.

(** [GetPartnerID] retrieves the partner id from the context. *)
Definition GetPartnerID (c : Ctx) : UUID * option error :=
  match locals c !! "partner_id" with
  | None => (uuid_Nil, Some ErrUnauthorizedOperation)
  | Some (LocalUUID id) => (id, None)
  | Some _ => (uuid_Nil, Some ErrUnauthorizedOperation)
  end.

(** The key of a well-formed header, the partner that the repository
    answers for its first 8 bytes, and how the partner's check of the key
    ends. *)
Definition presents (m : AuthMiddleware) (c : Ctx) (apiKey : string)
    (partner : Partner.t) (checked : option error) : Prop :=
  Get "Authorization" c = "Bearer " +:+ apiKey
  /\ Strings.Contains apiKey " "%char = false
  /\ (8 <= String.length apiKey)%nat
  /\ GetByAPIKeyPrefix m (String.substring 0 8 apiKey) = Ok (Some partner)
  /\ ValidateAPIKey m partner apiKey = checked.

End middleware.

(** ** Package postgres: the partner repository
    (internal/adapters/persistence/postgres/partner_repository.go) *)
Module postgres.

(** A row of the [partners] table: the columns of the partner and the
    soft-delete marker [deleted_at]. *)
Record Row : Type := mkRow {
  columns : Partner.t;
  deleted_at : option Time
}.

(** The statements of the repository. *)
Inductive Statement : Type :=
| InsertPartner (partner : Partner.t)
| SelectPartner (id : UUID)
| SelectIDByEmail (email : string)
| SelectIDByAPIKeyPrefix (prefix : string)
| UpdatePartner (partner : Partner.t)
| SelectIDs (limit offset : Z).

(** The database behind [*sql.DB]: the rows of [partners] under their
    primary key, the value of [NOW()], and what the repository does not
    decide: whether the server refuses a statement (a lost connection, a
    value too long for its column), and with which error; and the value that
    a [TIMESTAMP WITH TIME ZONE] column keeps of a [time.Time], which it
    holds to the microsecond. *)
Record DB : Type := mkDB {
  partners : gmap UUID Row;
  NOW : Time;
  refuses : gmap UUID Row -> Statement -> option error;
  timestamptz : Time -> Time
}.

Definition with_partners (rows : gmap UUID Row) (db : DB) : DB :=
  mkDB rows (NOW db) (refuses db) (timestamptz db).

Definition live (row : Row) : bool :=
  match deleted_at row with None => true | Some _ => false end.

(** The error of the server for a statement, if any. *)
Definition refused (db : DB) (statement : Statement) : option error :=
  refuses db (partners db) statement.

(** The rows that [WHERE <cond> AND deleted_at IS NULL] keeps, in the order
    in which the scan meets them. *)
Definition selectLive (cond : Partner.t -> bool) (db : DB) : list Partner.t :=
  columns <$> List.filter (fun row => cond (columns row) && live row)
                (map_to_list (partners db)).*2.

(** The constraints of the table on a new row: the primary key and the two
    UNIQUE columns, [email] and [api_key_hash]. A soft-deleted row is a row
    of the table like any other. *)
Definition clashes (partner : Partner.t) (db : DB) : bool :=
  bool_decide (is_Some (partners db !! Partner.ID partner))
  || existsb (fun row => bool_decide (Partner.Email (columns row) = Partner.Email partner)
                         || bool_decide (Partner.APIKeyHash (columns row)
                                         = Partner.APIKeyHash partner))
       (map_to_list (partners db)).*2.

Definition uniqueViolation : error :=
  External "duplicate key value violates unique constraint".

(** The row that [INSERT INTO partners (...) VALUES ($1, ..., $12)] leaves:
    the columns as they were passed, [created_at] and [updated_at] as their
    columns keep them, and no [deleted_at]. *)
Definition inserted (db : DB) (partner : Partner.t) : Row :=
  mkRow {| Partner.ID := Partner.ID partner;
           Partner.Name := Partner.Name partner;
           Partner.Email := Partner.Email partner;
           Partner.APIKeyHash := Partner.APIKeyHash partner;
           Partner.APIKeyPrefix := Partner.APIKeyPrefix partner;
           Partner.IsActive := Partner.IsActive partner;
           Partner.RateLimitPerMinute := Partner.RateLimitPerMinute partner;
           Partner.WebhookURL := Partner.WebhookURL partner;
           Partner.WebhookSecret := Partner.WebhookSecret partner;
           Partner.CreatedAt := timestamptz db (Partner.CreatedAt partner);
           Partner.UpdatedAt := timestamptz db (Partner.UpdatedAt partner) |}
        None.

(** [Create] creates a new partner. *)
Definition Create (partner : Partner.t) (db : DB) : option error * DB :=
  match refused db (InsertPartner partner) with
  | Some err => (Some (Errorf "failed to create partner" err), db)
  | None =>
      if clashes partner db
      then (Some (Errorf "failed to create partner" uniqueViolation), db)
      else (None, with_partners (<[Partner.ID partner := inserted db partner]> (partners db)) db)
  end.

(** [GetByID] retrieves a partner by id. *)
Definition GetByID (id : UUID) (db : DB) : result Partner.t :=
  match refused db (SelectPartner id) with
  | Some err => Err (Errorf "failed to get partner" err)
  | None =>
      match partners db !! id with
      | Some row => if live row then Ok (columns row) else Err ErrPartnerNotFound
      | None => Err ErrPartnerNotFound
      end
  end.

(** [GetByEmail] retrieves a partner by email. *)
Definition GetByEmail (email : string) (db : DB) : result Partner.t :=
  match refused db (SelectIDByEmail email) with
  | Some err => Err (Errorf "failed to get partner by email" err)
  | None =>
      match selectLive (fun p => bool_decide (Partner.Email p = email)) db with
      | [] => Err ErrPartnerNotFound
      | found :: _ => GetByID (Partner.ID found) db
      end
  end.

(** [GetByAPIKeyPrefix] retrieves a partner by API key prefix. The column
    is not unique: of several rows, [QueryRow] reads the first. *)
Definition GetByAPIKeyPrefix (prefix : string) (db : DB) : result Partner.t :=
  match refused db (SelectIDByAPIKeyPrefix prefix) with
  | Some err => Err (Errorf "failed to get partner by API key prefix" err)
  | None =>
      match selectLive (fun p => bool_decide (Partner.APIKeyPrefix p = prefix)) db with
      | [] => Err ErrPartnerNotFound
      | found :: _ => GetByID (Partner.ID found) db
      end
  end.




(** [ORDER BY created_at DESC] *)
Definition newerOrSame (p q : Partner.t) : Prop := Partner.CreatedAt q <= Partner.CreatedAt p.

Global Instance newerOrSame_dec p q : Decision (newerOrSame p q).
Proof. unfold newerOrSame. apply _. Defined.

Global Instance newerOrSame_transitive : Transitive newerOrSame.
Proof. intros p q r. unfold newerOrSame. lia. Qed.

Global Instance newerOrSame_total : Total newerOrSame.
Proof. intros p q. unfold newerOrSame. lia. Qed.

(** The loop of [List] over the ids that the query returned: the first
    error of [GetByID] ends it. *)
Fixpoint collect (ids : list UUID) (db : DB) : result (list Partner.t) :=
  match ids with
  | [] => Ok []
  | id :: rest =>
      match GetByID id db with
      | Err err => Err err
      | Ok partner =>
          match collect rest db with
          | Err err => Err err
          | Ok partners => Ok (partner :: partners)
          end
      end
  end.

(** [List] retrieves all partners with pagination. The server refuses a
    negative LIMIT or OFFSET. *)
Definition List (limit offset : Z) (db : DB) : result (list Partner.t) :=
  match refused db (SelectIDs limit offset) with
  | Some err => Err (Errorf "failed to list partners" err)
  | None =>
      if limit <? 0
      then Err (Errorf "failed to list partners" (External "LIMIT must not be negative"))
      else if offset <? 0
      then Err (Errorf "failed to list partners" (External "OFFSET must not be negative"))
      else
        let page :=
          take (Z.to_nat limit)
            (drop (Z.to_nat offset) (merge_sort newerOrSame (selectLive (fun _ => true) db))) in
        collect (Partner.ID <$> page) db
  end.

(** The table keeps its constraints: a row is stored under its id, and no
    two rows share an email. *)
Definition wellFormed (db : DB) : Prop :=
  (forall id row, partners db !! id = Some row -> Partner.ID (columns row) = id)
  /\ (forall id id' row row',
        partners db !! id = Some row -> partners db !! id' = Some row' ->
        Partner.Email (columns row) = Partner.Email (columns row') -> id = id').

(** The middleware over this repository and database. *)
Definition authOver (db : DB) (validate : Partner.t -> string -> option error)
    : middleware.AuthMiddleware :=
  middleware.mk
    (fun prefix => match GetByAPIKeyPrefix prefix db with
                   | Ok partner => Ok (Some partner)
                   | Err err => Err err
                   end)
    validate.

End postgres.

(** ** Package transaction: the retry use case (process_payment.go) *)
Module RetryFailedPaymentUseCase.

(** The two methods of the transaction entity that the use case calls.
    The entity is not among the sources: the use case is given them as
    functions, [IncrementRetryCount] of the current time and the
    transaction. *)
Record Entity : Type := mkEntity {
  CanRetry : Transaction.t -> bool;
  IncrementRetryCount : Time -> Transaction.t -> Transaction.t * option error
}.

Record t : Type := mk { auditLogger : bool }.

Local Open Scope prog_scope.

Definition auditPaymentRetry (transaction : Transaction.t) : AuditAction :=
  {| ports.PartnerID := Transaction.PartnerID transaction;
     ports.Action := "payment_retry";
     ports.ResourceType := "transaction";
     ports.ResourceID := Transaction.ID transaction;
     ports.IPAddress := "";
     ports.UserAgent := "";
     ports.Changes := [("retry_count", ANumber (Transaction.RetryCount transaction))] |}.

(** [Execute] retries a failed payment. The use case it builds at the end
    has the same repository, gateway and audit logger, and no notification
    service. *)
Definition Execute (entity : Entity) (uc : t) (transactionID : UUID)
    : Prog (option error) :=
  (* Get transaction *)
  r <- TxGetByID transactionID ;;
  match r with
  | Err err => Ret (Some (Errorf "failed to get transaction" err))
  | Ok None => Ret (Some ErrTransactionNotFound)
  | Ok (Some transaction) =>
  (* Check if retry is allowed (business rule: max 3 retries) *)
  if negb (CanRetry entity transaction)
  then Ret (Some (NewBusinessRuleError "max_retries_exceeded"
                    "transaction has reached maximum retry attempts")) else
  (* Increment retry count *)
  now <- Now ;;
  let (transaction, e) := IncrementRetryCount entity now transaction in
  match e with
  | Some err => Ret (Some (Errorf "failed to increment retry count" err))
  | None =>
  e <- TxUpdate transaction ;;
  match e with
  | Some err => Ret (Some (Errorf "failed to update transaction" err))
  | None =>
  (* Log audit event *)
  let processUseCase := ProcessPaymentUseCase.mk (auditLogger uc) in
  if auditLogger uc
  then _ <- LogAction (auditPaymentRetry transaction) ;;
       (* Process payment again *)
       ProcessPaymentUseCase.Execute processUseCase transactionID
  else ProcessPaymentUseCase.Execute processUseCase transactionID
  end end end.

End RetryFailedPaymentUseCase.

(** ** The refund entity under sequences of method calls *)
Module RefundHistory.

(** One call of a method that writes to the entity: a transition or
    [SoftDelete]. *)
Inductive Method : Type :=
| Transition (call : Refund.Call)
| Delete (now : Time).

Definition invoke (r : Refund.t) (m : Method) : Refund.t :=
  match m with
  | Transition call => Refund.after r call
  | Delete now => Refund.SoftDelete now r
  end.

(** The refund after the calls [ms], made in order. *)
Definition replay (r : Refund.t) (ms : list Method) : Refund.t := foldl invoke r ms.

(** What the fields of a refund say in each state: the provider's id and
    the processing time belong to a completed refund, the error code and
    message to a failed one. *)
Definition consistent (r : Refund.t) : Prop :=
  match Refund.Status r with
  | Refund.RefundStatusPending | Refund.RefundStatusProcessing =>
      Refund.ProcessedAt r = None /\ Refund.ProviderRefundID r = ""
      /\ Refund.ErrorCode r = "" /\ Refund.ErrorMessage r = ""
  | Refund.RefundStatusCompleted =>
      is_Some (Refund.ProcessedAt r)
      /\ Refund.ErrorCode r = "" /\ Refund.ErrorMessage r = ""
  | Refund.RefundStatusFailed =>
      Refund.ProcessedAt r = None /\ Refund.ProviderRefundID r = ""
  end.

(** The arrows of the state machine that the guards leave open. *)
Definition arrow (s s' : Refund.RefundStatus) : bool :=
  match s, s' with
  | Refund.RefundStatusPending, Refund.RefundStatusProcessing
  | Refund.RefundStatusPending, Refund.RefundStatusFailed
  | Refund.RefundStatusProcessing, Refund.RefundStatusCompleted
  | Refund.RefundStatusProcessing, Refund.RefundStatusFailed => true
  | _, _ => false
  end.

End RefundHistory.

(** ** The errors of the refund use case *)
Module RefundOutcomes.

(** The errors with which [Execute] turns a request down before it builds
    a refund: the sentinels of steps 1 to 7 and the validation error of
    step 8. *)
Definition rejections : list error :=
  [ErrTransactionNotFound; ErrUnauthorizedOperation; ErrRefundNotAllowed;
   ErrRefundWindowExpired; ErrRefundAmountExceeded;
   NewValidationError "currency" "must match transaction currency"].

(** The messages under which [Execute] wraps ([%w]) the error of a
    collaborator or of an entity. *)
Definition wrappers : list string :=
  ["failed to get transaction"; "invalid refund amount";
   "failed to get total refunded"; "failed to create refund entity";
   "failed to create refund"; "failed to mark refund as processing";
   "failed to update refund"; "refund processing failed";
   "failed to mark refund as completed"; "failed to update transaction status";
   "failed to update transaction"].

End RefundOutcomes.

(** ** The tables of the store *)
Module tables.

Definition refundsByID (w : World) : Prop :=
  forall id r, refunds w !! id = Some r -> Refund.ID r = id.

(** The share of the row stored under the id of [new] in the completed
    total of the transaction of [new], as the column holds it. *)
Definition own (decimal : float64 -> Z) (new : Refund.t) (m : gmap UUID Refund.t) : Z :=
  match m !! Refund.ID new with
  | Some r0 => schema.completed decimal (Refund.TransactionID new) r0
  | None => 0
  end.

End tables.

(** ** Partners, requests and stores used in examples *)
Module examples.

(** The two partners of the seed data (migrations/seed.sql): both under the
    key prefix "test-key". *)
Definition acme : Partner.t :=
  {| Partner.ID := 0xa0eebc999c0b4ef8bb6d6bb9bd380a11%N;
     Partner.Name := "Acme Corporation";
     Partner.Email := "payments@acme.com";
     Partner.APIKeyHash := "$2a$10$qVZ3vxDKJ1HYq5zQqG5c8.UhW0YqJZ9VqS7K8R4xN6fY7M8L9P0Qa";
     Partner.APIKeyPrefix := "test-key";
     Partner.IsActive := true;
     Partner.RateLimitPerMinute := 100;
     Partner.WebhookURL := "";
     Partner.WebhookSecret := "";
     Partner.CreatedAt := 1000;
     Partner.UpdatedAt := 1000 |}.

Definition techstart : Partner.t :=
  {| Partner.ID := 0xb1ffcd999c0b4ef8bb6d6bb9bd380a22%N;
     Partner.Name := "TechStart Inc";
     Partner.Email := "api@techstart.io";
     Partner.APIKeyHash := "$2a$10$vWA4wyELK2IZr6aRrH6d9.ViX1ZrKA0WrT8L9S5yO7gZ9N1M2Q3Rb";
     Partner.APIKeyPrefix := "test-key";
     Partner.IsActive := true;
     Partner.RateLimitPerMinute := 100;
     Partner.WebhookURL := "";
     Partner.WebhookSecret := "";
     Partner.CreatedAt := 2000;
     Partner.UpdatedAt := 2000 |}.

(** A partner whose account was closed and whose row was soft-deleted, and
    one whose account is suspended. *)
Definition initech : Partner.t :=
  {| Partner.ID := 0xc2aade999c0b4ef8bb6d6bb9bd380a33%N;
     Partner.Name := "Initech";
     Partner.Email := "billing@initech.example";
     Partner.APIKeyHash := "$2a$10$initech";
     Partner.APIKeyPrefix := "init-key";
     Partner.IsActive := true;
     Partner.RateLimitPerMinute := 100;
     Partner.WebhookURL := "";
     Partner.WebhookSecret := "";
     Partner.CreatedAt := 500;
     Partner.UpdatedAt := 3000 |}.

Definition globex : Partner.t :=
  {| Partner.ID := 0xd3bbef999c0b4ef8bb6d6bb9bd380a44%N;
     Partner.Name := "Globex";
     Partner.Email := "pay@globex.example";
     Partner.APIKeyHash := "$2a$10$globex";
     Partner.APIKeyPrefix := "glob-key";
     Partner.IsActive := false;
     Partner.RateLimitPerMinute := 100;
     Partner.WebhookURL := "";
     Partner.WebhookSecret := "";
     Partner.CreatedAt := 3000;
     Partner.UpdatedAt := 4000 |}.



(** A database with the four partners, the row of Initech soft-deleted, on
    a server that takes every statement. The times of the examples are
    whole seconds, which a timestamp column keeps as they are. *)
Definition directory : postgres.DB :=
  {| postgres.partners :=
       <[Partner.ID acme := postgres.mkRow acme None]>
         (<[Partner.ID techstart := postgres.mkRow techstart None]>
            (<[Partner.ID initech := postgres.mkRow initech (Some 3000)]>
               (<[Partner.ID globex := postgres.mkRow globex None]> ∅)));
     postgres.NOW := 6000;
     postgres.refuses := fun _ _ => None;
     postgres.timestamptz := fun t => t |}.

(** A check of the key in the place of the partner's [ValidateAPIKey]: an
    inactive partner is turned away, and each partner has one key. *)
Definition keys : list (UUID * string) :=
  [(Partner.ID acme, "test-key-partner-1");
   (Partner.ID techstart, "test-key-partner-2");
   (Partner.ID initech, "init-key-partner-3");
   (Partner.ID globex, "glob-key-partner-4")].

Definition ownKey (partner : Partner.t) (apiKey : string) : option error :=
  if negb (Partner.IsActive partner) then Some ErrPartnerInactive
  else if bool_decide ((Partner.ID partner, apiKey) ∈ keys) then None
  else Some ErrInvalidAPIKey.

(** A check that takes every key of an active partner. *)
Definition anyKey (partner : Partner.t) (apiKey : string) : option error :=
  if negb (Partner.IsActive partner) then Some ErrPartnerInactive else None.

(** A request that carries [authHeader] as its Authorization header. *)
Definition request (authHeader : string) : middleware.Ctx :=
  middleware.mkCtx {[ "Authorization" := authHeader ]} ∅.

(** A store that refuses to write a failed transaction. *)
Definition refusesFailed : Collaborators :=
  {| fault := fun _ _ op =>
       match op with
       | TxUpdate x =>
           if Transaction.IsFailed x then Some (External "connection reset") else None
       | _ => None
       end;
     gatewayPayment := fun x => Err (External "card declined");
     gatewayRefund := fun r x => Err (External "provider unavailable") |}.

(** The transaction of the scenarios after a payment that failed, with one
    retry behind it. *)
Definition failedTransaction : Transaction.t :=
  {| Transaction.ID := 1%N;
     Transaction.PartnerID := 7%N;
     Transaction.Amount := Money64.mk 10000 "USD";
     Transaction.IdempotencyKey := "order-1";
     Transaction.Status := Transaction.StatusFailed;
     Transaction.Provider := "stripe";
     Transaction.ProviderTransactionID := "";
     Transaction.RetryCount := 1;
     Transaction.ErrorCode := "PAYMENT_FAILED";
     Transaction.ErrorMessage := "card declined";
     Transaction.CreatedAt := 0;
     Transaction.UpdatedAt := 60;
     Transaction.ProcessedAt := None;
     Transaction.FailedAt := Some 60;
     Transaction.DeletedAt := None |}.

Definition afterDecline : World := scenario.worldOf 120 failedTransaction.

(** Entity methods in the place of [CanRetry] and [IncrementRetryCount]: a
    failed transaction may be retried up to three times. *)
Definition upToThree : RetryFailedPaymentUseCase.Entity :=
  {| RetryFailedPaymentUseCase.CanRetry := fun x =>
       Transaction.IsFailed x && (Transaction.RetryCount x <? 3);
     RetryFailedPaymentUseCase.IncrementRetryCount := fun now x =>
       ({| Transaction.ID := Transaction.ID x;
           Transaction.PartnerID := Transaction.PartnerID x;
           Transaction.Amount := Transaction.Amount x;
           Transaction.IdempotencyKey := Transaction.IdempotencyKey x;
           Transaction.Status := Transaction.Status x;
           Transaction.Provider := Transaction.Provider x;
           Transaction.ProviderTransactionID := Transaction.ProviderTransactionID x;
           Transaction.RetryCount := Transaction.RetryCount x + 1;
           Transaction.ErrorCode := Transaction.ErrorCode x;
           Transaction.ErrorMessage := Transaction.ErrorMessage x;
           Transaction.CreatedAt := Transaction.CreatedAt x;
           Transaction.UpdatedAt := now;
           Transaction.ProcessedAt := Transaction.ProcessedAt x;
           Transaction.FailedAt := Transaction.FailedAt x;
           Transaction.DeletedAt := Transaction.DeletedAt x |}, None) |}.

(** The refund that the first request of the end-to-end scenario returns. *)
Definition firstRefund : Refund.t :=
  Eval vm_compute in
    match fst scenario.afterFirst with Ok r => r | Err _ => scenario.pendingRefund end.

End examples.

(** * Properties *)

(** ** The refund entity *)
Section RefundEntity.

Import Refund.

Lemma MarkAsProcessing_from_pending now r :
  Status r = RefundStatusPending ->
  snd (MarkAsProcessing now r) = None
  /\ Status (fst (MarkAsProcessing now r)) = RefundStatusProcessing.
Proof. intros H. unfold MarkAsProcessing. rewrite H. done. Qed.

Lemma MarkAsProcessing_rejected now r :
  Status r <> RefundStatusPending ->
  MarkAsProcessing now r
  = (r, Some (NewBusinessRuleError "invalid_state_transition"
                "can only process pending refunds")).
Proof.
  intros H. unfold MarkAsProcessing.
  rewrite bool_decide_eq_false_2 by done. done.
Qed.

Lemma MarkAsCompleted_from_processing now providerRefundID r :
  Status r = RefundStatusProcessing ->
  snd (MarkAsCompleted now providerRefundID r) = None
  /\ Status (fst (MarkAsCompleted now providerRefundID r)) = RefundStatusCompleted
  /\ ProviderRefundID (fst (MarkAsCompleted now providerRefundID r)) = providerRefundID.
Proof. intros H. unfold MarkAsCompleted. rewrite H. done. Qed.

Lemma MarkAsCompleted_rejected now providerRefundID r :
  Status r <> RefundStatusProcessing ->
  MarkAsCompleted now providerRefundID r
  = (r, Some (NewBusinessRuleError "invalid_state_transition"
                "can only complete processing refunds")).
Proof.
  intros H. unfold MarkAsCompleted.
  rewrite bool_decide_eq_false_2 by done. done.
Qed.

Lemma MarkAsFailed_rejected now code message r :
  Status r <> RefundStatusProcessing ->
  Status r <> RefundStatusPending ->
  MarkAsFailed now code message r
  = (r, Some (NewBusinessRuleError "invalid_state_transition"
                "can only fail pending or processing refunds")).
Proof.
  intros H1 H2. unfold MarkAsFailed.
  rewrite !bool_decide_eq_false_2 by done. done.
Qed.

Lemma MarkAsFailed_from_processing now code message r :
  Status r = RefundStatusProcessing ->
  snd (MarkAsFailed now code message r) = None
  /\ Status (fst (MarkAsFailed now code message r)) = RefundStatusFailed
  /\ ErrorCode (fst (MarkAsFailed now code message r)) = code
  /\ ErrorMessage (fst (MarkAsFailed now code message r)) = message.
Proof. intros H. unfold MarkAsFailed. rewrite H. done. Qed.

Lemma MarkAsFailed_from_pending now code message r :
  Status r = RefundStatusPending ->
  snd (MarkAsFailed now code message r) = None
  /\ Status (fst (MarkAsFailed now code message r)) = RefundStatusFailed
  /\ ErrorCode (fst (MarkAsFailed now code message r)) = code
  /\ ErrorMessage (fst (MarkAsFailed now code message r)) = message.
Proof. intros H. unfold MarkAsFailed. rewrite H. done. Qed.

(** The methods keep the identity and the amount of a refund. *)
Lemma transitions_keep_identity now a b r :
  let keeps (r' : t) :=
    ID r' = ID r /\ TransactionID r' = TransactionID r /\ Amount r' = Amount r in
  keeps (fst (MarkAsProcessing now r))
  /\ keeps (fst (MarkAsCompleted now a r))
  /\ keeps (fst (MarkAsFailed now a b r)).
Proof.
  unfold MarkAsProcessing, MarkAsCompleted, MarkAsFailed.
  repeat split; destruct (Status r); done.
Qed.

(** C9, as the code has it: [MarkAsFailed] is legal from [pending] and from
    [processing], where it moves the refund to [failed] and records the code
    and the message; from [completed] and [failed] it returns the
    invalid-transition business-rule error and leaves the refund as it
    was. *)
Theorem MarkAsFailed_legal_from_pending_or_processing
    (now : Time) (code message : string) (r : Refund.t) :
  match Status r with
  | RefundStatusPending | RefundStatusProcessing =>
      snd (MarkAsFailed now code message r) = None
      /\ Status (fst (MarkAsFailed now code message r)) = RefundStatusFailed
      /\ ErrorCode (fst (MarkAsFailed now code message r)) = code
      /\ ErrorMessage (fst (MarkAsFailed now code message r)) = message
  | RefundStatusCompleted | RefundStatusFailed =>
      MarkAsFailed now code message r
      = (r, Some (NewBusinessRuleError "invalid_state_transition"
                    "can only fail pending or processing refunds"))
  end.
Proof.
  destruct (Status r) eqn:E.
  - by apply MarkAsFailed_from_pending.
  - by apply MarkAsFailed_from_processing.
  - apply MarkAsFailed_rejected; rewrite E; done.
  - apply MarkAsFailed_rejected; rewrite E; done.
Qed.

(** C9, as the claim states it, fails: a refund that [NewRefund] has just
    built is [pending], not [processing], and [MarkAsFailed] succeeds on
    it. *)
Lemma MarkAsFailed_succeeds_from_pending :
  NewRefund 100%N (5 * scenario.day) 1%N (Money64.mk 2500 "USD") "customer request"
  = Ok scenario.pendingRefund
  /\ Status scenario.pendingRefund = RefundStatusPending
  /\ snd (MarkAsFailed 60 "REFUND_FAILED" "provider unavailable" scenario.pendingRefund)
     = None
  /\ Status (fst (MarkAsFailed 60 "REFUND_FAILED" "provider unavailable"
                    scenario.pendingRefund))
     = RefundStatusFailed.
Proof. vm_compute. done. Qed.

(** A call on a completed or failed refund leaves it as it was. *)
Lemma terminal_after r call :
  Status r = RefundStatusCompleted \/ Status r = RefundStatusFailed ->
  after r call = r.
Proof.
  intros H. destruct call; cbn [after].
  - rewrite MarkAsProcessing_rejected; [done|]. by destruct H as [-> | ->].
  - rewrite MarkAsCompleted_rejected; [done|]. by destruct H as [-> | ->].
  - rewrite MarkAsFailed_rejected; [done| |]; by destruct H as [-> | ->].
Qed.

(** C10: a refund built by [NewRefund] is [pending]; in [completed] and in
    [failed] each of [MarkAsProcessing], [MarkAsCompleted] and [MarkAsFailed]
    returns an error and leaves the refund, hence its status, unchanged;
    a [MarkAsCompleted] that succeeds sets [ProcessedAt] to the current time
    and clears the error code and message; and no sequence of calls of the
    three methods moves a completed or failed refund. *)
Theorem refund_starts_pending_and_ends_terminal :
  (forall id now transactionID amount reason r,
      NewRefund id now transactionID amount reason = Ok r ->
      Status r = RefundStatusPending)
  /\ (forall now a b r,
        Status r = RefundStatusCompleted \/ Status r = RefundStatusFailed ->
        (fst (MarkAsProcessing now r) = r /\ snd (MarkAsProcessing now r) <> None)
        /\ (fst (MarkAsCompleted now a r) = r /\ snd (MarkAsCompleted now a r) <> None)
        /\ (fst (MarkAsFailed now a b r) = r /\ snd (MarkAsFailed now a b r) <> None))
  /\ (forall now providerRefundID r,
        snd (MarkAsCompleted now providerRefundID r) = None ->
        Status (fst (MarkAsCompleted now providerRefundID r)) = RefundStatusCompleted
        /\ ProcessedAt (fst (MarkAsCompleted now providerRefundID r)) = Some now
        /\ ErrorCode (fst (MarkAsCompleted now providerRefundID r)) = ""
        /\ ErrorMessage (fst (MarkAsCompleted now providerRefundID r)) = "")
  /\ (forall calls r,
        Status r = RefundStatusCompleted \/ Status r = RefundStatusFailed ->
        foldl after r calls = r).
Proof.
  split; [|split; [|split]].
  - intros id now transactionID amount reason r. unfold NewRefund.
    repeat case_match; try discriminate. intros [= <-]. done.
  - intros now a b r H.
    rewrite MarkAsProcessing_rejected, MarkAsCompleted_rejected, MarkAsFailed_rejected
      by (destruct H as [-> | ->]; done).
    done.
  - intros now providerRefundID r. unfold MarkAsCompleted.
    case_match; [discriminate|]. done.
  - intros calls r H. induction calls as [|call calls IH]; [done|].
    cbn [foldl]. rewrite terminal_after by done. apply IH.
Qed.

(** The three parts of C10 on a concrete refund: built, failed by an error
    that carries a code and a message, and unmoved afterwards; and a
    processing refund completed at time 90. *)
Lemma refund_starts_pending_and_ends_terminal_witness :
  let failed := fst (MarkAsFailed 60 "REFUND_FAILED" "provider unavailable"
                       scenario.pendingRefund) in
  let processing := fst (MarkAsProcessing 30 scenario.pendingRefund) in
  Status scenario.pendingRefund = RefundStatusPending
  /\ fst (MarkAsCompleted 90 "re_1" failed) = failed
  /\ ProcessedAt (fst (MarkAsCompleted 90 "re_1" processing)) = Some 90.
Proof.
  pose proof refund_starts_pending_and_ends_terminal as (Hnew & Hterm & Hdone & _).
  intros failed processing. split; [|split].
  - apply (Hnew 100%N (5 * scenario.day) 1%N (Money64.mk 2500 "USD") "customer request").
    reflexivity.
  - apply (Hterm 90 "re_1" "" _). right. reflexivity.
  - apply (Hdone 90 "re_1" _). reflexivity.
Defined.

End RefundEntity.

(** ** The money value object *)
Section MoneyValue.

Import Money.

Lemma IsValid_active c : Currency.IsValid c = true <-> c ∈ Currency.activeCurrencies.
Proof. unfold Currency.IsValid. apply bool_decide_eq_true. Qed.

Lemma NewMoney_ok amount currency :
  1 <= amount <= 10000000 ->
  Currency.IsValid currency = true ->
  NewMoney amount currency = Ok (mk amount currency).
Proof.
  intros Hamount Hcurrency. unfold NewMoney, MinAmount, MaxAmount.
  rewrite Hcurrency.
  destruct (Z.ltb_spec amount 1); [lia|].
  destruct (Z.ltb_spec 10000000 amount); [lia|].
  done.
Qed.

Lemma NewMoney_inv amount currency m :
  NewMoney amount currency = Ok m ->
  1 <= amount <= 10000000 /\ Currency.IsValid currency = true /\ m = mk amount currency.
Proof.
  unfold NewMoney, MinAmount, MaxAmount.
  destruct (Z.ltb_spec amount 1); [done|].
  destruct (Z.ltb_spec 10000000 amount); [done|].
  destruct (Currency.IsValid currency); [|done].
  intros [= <-]. repeat split; lia.
Qed.

(** The cases of the money tests ([TestNewMoney_Success],
    [TestNewMoney_Invalid]). *)
Lemma TestNewMoney :
  NewMoney 10000 "USD" = Ok (mk 10000 "USD")
  /\ NewMoney 50000 "EUR" = Ok (mk 50000 "EUR")
  /\ NewMoney 1 "USD" = Ok (mk 1 "USD")
  /\ NewMoney 10000000 "USD" = Ok (mk 10000000 "USD")
  /\ is_Ok (NewMoney (-10000) "USD") = false
  /\ is_Ok (NewMoney 0 "USD") = false
  /\ is_Ok (NewMoney 10000001 "USD") = false
  /\ is_Ok (NewMoney 10000 "XXX") = false
  /\ is_Ok (NewMoney 10000 "") = false.
Proof. vm_compute. done. Qed.

(** The cases of [TestMoney_Add], [TestMoney_Add_DifferentCurrencies],
    [TestMoney_Subtract] and [TestMoney_Subtract_ResultsInNegative]. *)
Lemma TestMoney_arithmetic :
  Add (mk 10000 "USD") (mk 5000 "USD") = Ok (mk 15000 "USD")
  /\ is_Ok (Add (mk 10000 "USD") (mk 5000 "EUR")) = false
  /\ Subtract (mk 10000 "USD") (mk 3000 "USD") = Ok (mk 7000 "USD")
  /\ is_Ok (Subtract (mk 5000 "USD") (mk 10000 "USD")) = false.
Proof. vm_compute. done. Qed.

(** The cases of [TestMoney_IsGreaterThan] and [TestMoney_Equals]. *)
Lemma TestMoney_comparisons :
  IsGreaterThan (mk 10000 "USD") (mk 5000 "USD") = true
  /\ IsGreaterThan (mk 5000 "USD") (mk 10000 "USD") = false
  /\ IsGreaterThan (mk 10000 "USD") (mk 10000 "USD") = false
  /\ Equals (mk 10000 "USD") (mk 10000 "USD") = true
  /\ Equals (mk 10000 "USD") (mk 5000 "USD") = false
  /\ Equals (mk 10000 "USD") (mk 10000 "EUR") = false.
Proof. vm_compute. done. Qed.

(** C7: [NewMoney] succeeds exactly on an amount between 1 and 10_000_000
    minor units in an active currency, and then returns that amount and that
    currency unchanged; anything else is an error: an amount of 0, an amount
    of 10_000_001 and the currency XXX among them. *)
Theorem NewMoney_succeeds_iff_in_bounds_and_active (amount : Z) (currency : string) :
  (1 <= amount <= 10000000 /\ currency ∈ Currency.activeCurrencies ->
   exists m, NewMoney amount currency = Ok m
             /\ Amount m = amount /\ Currency m = currency)
  /\ (~ (1 <= amount <= 10000000 /\ currency ∈ Currency.activeCurrencies) ->
      exists e, NewMoney amount currency = Err e)
  /\ (exists e, NewMoney 0 currency = Err e)
  /\ (exists e, NewMoney 10000001 currency = Err e)
  /\ (exists e, NewMoney amount "XXX" = Err e).
Proof.
  split; [|split; [|split; [|split]]].
  - intros [Hamount Hcurrency]. exists (mk amount currency).
    rewrite NewMoney_ok; [done|done|]. by apply IsValid_active.
  - intros Hnot. destruct (NewMoney amount currency) as [m|e] eqn:E; [|by eexists].
    apply NewMoney_inv in E as (Hamount & Hcurrency & _).
    exfalso. apply Hnot. split; [done|]. by apply IsValid_active.
  - by eexists.
  - by eexists.
  - unfold NewMoney.
    destruct (amount <? MinAmount); [by eexists|].
    destruct (MaxAmount <? amount); by eexists.
Qed.

(** C7 at 2500 USD, at the two bounds' neighbours and at XXX. *)
Lemma NewMoney_succeeds_iff_in_bounds_and_active_witness :
  (exists m, NewMoney 2500 "USD" = Ok m /\ Amount m = 2500 /\ Currency m = "USD")
  /\ (exists e, NewMoney 10000001 "USD" = Err e).
Proof.
  split.
  - destruct (NewMoney_succeeds_iff_in_bounds_and_active 2500 "USD") as (Hok & _).
    apply Hok. split; [lia|]. unfold Currency.activeCurrencies. set_solver.
  - destruct (NewMoney_succeeds_iff_in_bounds_and_active 10000001 "USD") as (_ & Herr & _).
    apply Herr. intros [Hamount _]. lia.
Defined.

Lemma Add_same_currency a b :
  Currency a = Currency b ->
  Add a b = Ok (mk (Amount a + Amount b) (Currency a)).
Proof. intros H. unfold Add. rewrite bool_decide_eq_true_2; done. Qed.

Lemma Add_mixed_currency a b :
  Currency a <> Currency b ->
  Add a b = Err (NewValidationError "currency" "cannot add different currencies").
Proof. intros H. unfold Add. rewrite bool_decide_eq_false_2; done. Qed.

Lemma Subtract_ok_nonneg a b m : Subtract a b = Ok m -> 0 <= Amount m.
Proof.
  unfold Subtract. destruct (bool_decide _); [|done]. cbn.
  destruct (Z.ltb_spec (Amount a - Amount b) 0); [done|].
  intros [= <-]. done.
Qed.

(** C8: on one currency [Add] is commutative and associative; on two
    currencies it returns an error and no value; [Subtract a b] on one
    currency with [a] below [b] returns the negative-result error, and no
    successful [Subtract] returns a negative amount. *)
Theorem Add_commutative_associative_Subtract_never_negative :
  (forall a b, Currency a = Currency b -> Add a b = Add b a)
  /\ (forall a b c,
        Currency a = Currency b -> Currency b = Currency c ->
        andThen (Add a b) (fun ab => Add ab c)
        = andThen (Add b c) (fun bc => Add a bc))
  /\ (forall a b, Currency a <> Currency b -> exists e, Add a b = Err e)
  /\ (exists e, Add (mk 100 "USD") (mk 50 "EUR") = Err e)
  /\ (forall a b,
        Currency a = Currency b -> Amount a < Amount b ->
        Subtract a b = Err (NewValidationError "amount" "result cannot be negative"))
  /\ (forall a b m, Subtract a b = Ok m -> 0 <= Amount m).
Proof.
  split; [|split; [|split; [|split; [|split]]]].
  - intros a b H. rewrite !Add_same_currency by done.
    rewrite H. f_equal. f_equal. lia.
  - intros a b c Hab Hbc.
    rewrite (Add_same_currency a b), (Add_same_currency b c) by done. cbn.
    rewrite !Add_same_currency by (cbn; congruence). cbn.
    f_equal. f_equal. lia.
  - intros a b H. rewrite Add_mixed_currency by done. by eexists.
  - by eexists.
  - intros a b Hcur Hlt. unfold Subtract.
    rewrite bool_decide_eq_true_2 by done. cbn.
    destruct (Z.ltb_spec (Amount a - Amount b) 0); [done|lia].
  - apply Subtract_ok_nonneg.
Qed.

(** C8 on 100, 50 and 25 USD, on 100 USD with 50 EUR and on 50 - 100 USD. *)
Lemma Add_commutative_associative_Subtract_never_negative_witness :
  Add (mk 100 "USD") (mk 50 "USD") = Add (mk 50 "USD") (mk 100 "USD")
  /\ andThen (Add (mk 100 "USD") (mk 50 "USD")) (fun ab => Add ab (mk 25 "USD"))
     = andThen (Add (mk 50 "USD") (mk 25 "USD")) (fun bc => Add (mk 100 "USD") bc)
  /\ (exists e, Add (mk 100 "USD") (mk 50 "EUR") = Err e)
  /\ Subtract (mk 50 "USD") (mk 100 "USD")
     = Err (NewValidationError "amount" "result cannot be negative").
Proof.
  pose proof Add_commutative_associative_Subtract_never_negative
    as (Hcomm & Hassoc & Hmixed & _ & Hneg & _).
  split; [|split; [|split]].
  - apply Hcomm. reflexivity.
  - apply Hassoc; reflexivity.
  - apply Hmixed. cbn. discriminate.
  - apply Hneg; [reflexivity|cbn; lia].
Defined.

End MoneyValue.

(** ** The refund use case *)
Section RefundUseCase.


Import RefundTransactionUseCase.

Variable c : Collaborators.
Variable uc : RefundTransactionUseCase.t.
Variable input : RefundTransactionInput.

(** Steps 1 to 4 as an equation on runs. *)
Lemma run_Execute w :
  run c (Execute uc input) w =
  match fault c w _ (TxGetByID (TransactionID input)) with
  | Some err => (Err (Errorf "failed to get transaction" err), w)
  | None =>
      match GetByID (TransactionID input) w with
      | None => (Err ErrTransactionNotFound, w)
      | Some transaction =>
          if negb (bool_decide (Transaction.PartnerID transaction = PartnerID input))
          then (Err ErrUnauthorizedOperation, w)
          else if negb (Transaction.IsRefundable (clock w) transaction)
          then (Err ErrRefundNotAllowed, w)
          else if Before (Transaction.CreatedAt transaction) (AddDate (clock w) (-90))
          then (Err ErrRefundWindowExpired, w)
          else run c (checkAmount uc input transaction) w
      end
  end.
Proof.
  unfold Execute. cbn [run handle].
  destruct (fault c w _ (TxGetByID (TransactionID input))); [done|].
  destruct (GetByID (TransactionID input) w); [|done].
  destruct (negb (bool_decide _)); [done|]. cbn [run handle].
  destruct (negb (Transaction.IsRefundable _ _)); [done|]. cbn [run handle].
  destruct (Before _ _); done.
Qed.

(** Steps 5 to 9 as an equation on runs. *)
Lemma run_checkAmount transaction w :
  run c (checkAmount uc input transaction) w =
  match Money64.NewMoney (Amount input) (Currency input) with
  | Err err => (Err (Errorf "invalid refund amount" err), w)
  | Ok refundMoney =>
      if Money64.IsGreaterThan refundMoney (Transaction.Amount transaction)
      then (Err ErrRefundAmountExceeded, w)
      else
        match fault c w _ (RefundGetTotalRefundedAmount (Transaction.ID transaction)) with
        | Some err => (Err (Errorf "failed to get total refunded" err), w)
        | None =>
            let totalRefunded := GetTotalRefundedAmount (Transaction.ID transaction) w in
            if (Money64.Amount (Transaction.Amount transaction)
                <? totalRefunded + Amount input)%float
            then (Err ErrRefundAmountExceeded, w)
            else if negb (bool_decide (Money64.Currency refundMoney
                                       = Money64.Currency (Transaction.Amount transaction)))
            then (Err (NewValidationError "currency" "must match transaction currency"), w)
            else
              let w' := with_next_uuid (N.succ (next_uuid w)) w in
              match Refund.NewRefund (next_uuid w) (clock w) (Transaction.ID transaction)
                      refundMoney (Reason input) with
              | Err err => (Err (Errorf "failed to create refund entity" err), w')
              | Ok refund => run c (process uc input transaction totalRefunded refund) w'
              end
        end
  end.
Proof.
  unfold checkAmount.
  destruct (Money64.NewMoney _ _) as [refundMoney|err]; [|done].
  destruct (Money64.IsGreaterThan _ _); [done|]. cbn [run handle].
  destruct (fault c w _ _); [done|]. cbn zeta.
  destruct (PrimFloat.ltb _ _); [done|].
  destruct (negb (bool_decide _)); [done|]. cbn [run handle].
  destruct (Refund.NewRefund _ _ _ _ _); done.
Qed.

(** Steps 14 and 15 as an equation on runs. *)
Lemma run_finish transaction totalRefunded refund providerRefundID w :
  run c (finish uc input transaction totalRefunded refund providerRefundID) w =
  let isFullRefund :=
    (Money64.Amount (Transaction.Amount transaction) <=? totalRefunded + Amount input)%float in
  let marked := Transaction.MarkAsRefunded (clock w) (negb isFullRefund) transaction in
  match snd marked with
  | Some err => (Err (Errorf "failed to update transaction status" err), w)
  | None =>
      match fault c w _ (TxUpdate (fst marked)) with
      | Some err => (Err (Errorf "failed to update transaction" err), w)
      | None =>
          (Ok refund,
           if auditLogger uc
           then logged (auditRefundCompleted input refund (fst marked) providerRefundID)
                  (putTransaction (fst marked) w)
           else putTransaction (fst marked) w)
      end
  end.
Proof.
  unfold finish. cbn [run handle]. cbn zeta.
  destruct (Transaction.MarkAsRefunded _ _ _) as [transaction' [err|]]; [done|].
  cbn [run handle fst snd].
  destruct (fault c w _ _); [done|].
  destruct (auditLogger uc); done.
Qed.

(** Steps 10 to 13 as an equation on runs. *)
Lemma run_process transaction totalRefunded refund w :
  run c (process uc input transaction totalRefunded refund) w =
  match fault c w _ (RefundCreate refund) with
  | Some err => (Err (Errorf "failed to create refund" err), w)
  | None =>
      let w1 := putRefund refund w in
      let processing := Refund.MarkAsProcessing (clock w) refund in
      match snd processing with
      | Some err => (Err (Errorf "failed to mark refund as processing" err), w1)
      | None =>
          match fault c w1 _ (RefundUpdate (fst processing)) with
          | Some err => (Err (Errorf "failed to update refund" err), w1)
          | None =>
              let w2 := putRefund (fst processing) w1 in
              match gatewayRefund c (fst processing) transaction with
              | Err err =>
                  let failed :=
                    fst (Refund.MarkAsFailed (clock w) "REFUND_FAILED" (Error err)
                           (fst processing)) in
                  (Err (Errorf "refund processing failed" err),
                   match fault c w2 _ (RefundUpdate failed) with
                   | Some _ => w2
                   | None => putRefund failed w2
                   end)
              | Ok providerRefundID =>
                  let completed :=
                    Refund.MarkAsCompleted (clock w) providerRefundID (fst processing) in
                  match snd completed with
                  | Some err => (Err (Errorf "failed to mark refund as completed" err), w2)
                  | None =>
                      match fault c w2 _ (RefundUpdate (fst completed)) with
                      | Some err => (Err (Errorf "failed to update refund" err), w2)
                      | None =>
                          run c (finish uc input transaction totalRefunded (fst completed)
                                   providerRefundID)
                            (putRefund (fst completed) w2)
                      end
                  end
              end
          end
      end
  end.
Proof.
  unfold process. cbn [run handle].
  destruct (fault c w _ (RefundCreate refund)); [done|]. cbn zeta.
  cbn [run handle].
  change (clock (putRefund refund w)) with (clock w).
  destruct (Refund.MarkAsProcessing (clock w) refund) as [r1 [err|]]; [done|].
  cbn [run handle fst snd].
  destruct (fault c (putRefund refund w) _ (RefundUpdate r1)); [done|].
  cbn [run handle].
  destruct (gatewayRefund c r1 transaction) as [providerRefundID|err].
  - cbn [run handle].
    change (clock (putRefund r1 (putRefund refund w))) with (clock w).
    destruct (Refund.MarkAsCompleted (clock w) providerRefundID r1) as [r2 [err|]]; [done|].
    cbn [run handle fst snd].
    destruct (fault c _ _ (RefundUpdate r2)); done.
  - cbn [run handle].
    change (clock (putRefund r1 (putRefund refund w))) with (clock w).
    destruct (Refund.MarkAsFailed (clock w) "REFUND_FAILED" (Error err) r1) as [r2 e].
    cbn [run handle fst snd].
    destruct (fault c _ _ (RefundUpdate r2)); done.
Qed.


Lemma Execute_passesChecks transaction totalRefunded refund w :
  passesChecks c input w transaction totalRefunded refund ->
  run c (Execute uc input) w
  = run c (process uc input transaction totalRefunded refund)
      (with_next_uuid (N.succ (next_uuid w)) w).
Proof.
  intros ((Hget & Hfound & Hpartner & Hrefundable & Hwindow & Hmoney & Htotal)
          & Hgreater & -> & Hsum & Hcurrency & Hnew).
  rewrite run_Execute, Hget, Hfound, Hpartner, Hrefundable, Hwindow.
  rewrite bool_decide_eq_true_2 by done. cbn [negb].
  rewrite run_checkAmount, Hmoney, Hgreater, Htotal. cbn zeta.
  rewrite Hsum. cbn [Money64.Currency].
  rewrite bool_decide_eq_true_2 by done. cbn [negb].
  by rewrite Hnew.
Qed.

(** Step 7 on [float64]: a request that reaches the amount check is
    refused when the transaction amount compares less than the sum, in
    [float64], of the total that the repository answers and the requested
    amount. *)
Lemma Execute_amount_exceeded transaction w :
  reachesAmountCheck c input w transaction ->
  (Money64.Amount (Transaction.Amount transaction)
   <? GetTotalRefundedAmount (Transaction.ID transaction) w + Amount input)%float = true ->
  run c (Execute uc input) w = (Err ErrRefundAmountExceeded, w).
Proof.
  intros (Hget & Hfound & Hpartner & Hrefundable & Hwindow & Hmoney & Htotal) Hsum.
  rewrite run_Execute, Hget, Hfound, Hpartner, Hrefundable, Hwindow.
  rewrite bool_decide_eq_true_2 by done. cbn [negb].
  rewrite run_checkAmount, Hmoney.
  destruct (Money64.IsGreaterThan _ _); [done|].
  rewrite Htotal. cbn zeta. by rewrite Hsum.
Qed.

Lemma Execute_not_refundable transaction w :
  fault c w _ (TxGetByID (TransactionID input)) = None ->
  GetByID (TransactionID input) w = Some transaction ->
  Transaction.PartnerID transaction = PartnerID input ->
  Transaction.IsRefundable (clock w) transaction = false ->
  run c (Execute uc input) w = (Err ErrRefundNotAllowed, w).
Proof.
  intros Hget Hfound Hpartner Hrefundable.
  rewrite run_Execute, Hget, Hfound, Hpartner, Hrefundable.
  by rewrite bool_decide_eq_true_2.
Qed.

(** What a successful run has gone through and left behind. *)
Lemma Execute_Ok_inv w refund' :
  fst (run c (Execute uc input) w) = Ok refund' ->
  exists transaction totalRefunded refund transaction',
    passesChecks c input w transaction totalRefunded refund
    /\ Refund.ID refund' = Refund.ID refund
    /\ Refund.Status refund' = Refund.RefundStatusCompleted
    /\ refunds (snd (run c (Execute uc input) w)) !! Refund.ID refund = Some refund'
    /\ transactions (snd (run c (Execute uc input) w)) !! Transaction.ID transaction
       = Some transaction'
    /\ Transaction.Status transaction'
       = (if (Money64.Amount (Transaction.Amount transaction)
              <=? totalRefunded + Amount input)%float
          then Transaction.StatusRefunded else Transaction.StatusPartiallyRefunded)
    /\ Transaction.ID transaction' = Transaction.ID transaction
    /\ Transaction.Amount transaction' = Transaction.Amount transaction.
Proof.
  rewrite run_Execute.
  destruct (fault c w _ (TxGetByID _)) eqn:Hget; [done|].
  destruct (GetByID _ w) as [transaction|] eqn:Hfound; [|done].
  destruct (bool_decide _) eqn:Hpartner; [|done]. cbn [negb].
  apply bool_decide_eq_true in Hpartner.
  destruct (Transaction.IsRefundable _ _) eqn:Hrefundable; [|done]. cbn [negb].
  destruct (Before _ _) eqn:Hwindow; [done|].
  rewrite run_checkAmount.
  destruct (Money64.NewMoney _ _) as [refundMoney|] eqn:Hmoney; [|done].
  destruct (Money64.IsGreaterThan _ _) eqn:Hgreater; [done|].
  destruct (fault c w _ (RefundGetTotalRefundedAmount _)) eqn:Htotal; [done|].
  cbn zeta.
  destruct (PrimFloat.ltb _ _) eqn:Hsum; [done|].
  destruct (bool_decide _) eqn:Hcurrency; [|done]. cbn [negb].
  apply bool_decide_eq_true in Hcurrency.
  destruct (Refund.NewRefund _ _ _ _ _) as [refund|] eqn:Hnew; [|done].
  assert (refundMoney = Money64.mk (Amount input) (Currency input)) as ->.
  { unfold Money64.NewMoney in Hmoney. repeat case_match; congruence. }
  generalize (with_next_uuid (N.succ (next_uuid w)) w) as w1. intros w1.
  rewrite run_process.
  destruct (fault c _ _ (RefundCreate refund)); [done|]. cbn zeta.
  destruct (Refund.MarkAsProcessing _ refund) as [r1 e1] eqn:Hprocessing.
  cbn [fst snd]. destruct e1; [done|].
  destruct (fault c _ _ (RefundUpdate r1)); [done|].
  destruct (gatewayRefund c r1 transaction) as [providerRefundID|]; [|done].
  destruct (Refund.MarkAsCompleted _ providerRefundID r1) as [r2 e2] eqn:Hcompleted.
  cbn [fst snd]. destruct e2; [done|].
  destruct (fault c _ _ (RefundUpdate r2)); [done|].
  rewrite run_finish. cbn zeta.
  destruct (Transaction.MarkAsRefunded _ _ transaction) as [transaction' e3] eqn:Hrefunded.
  cbn [fst snd]. destruct e3; [done|].
  destruct (fault c _ _ (TxUpdate transaction')); [done|].
  cbn [fst snd]. intros [= <-].
  pose proof (transitions_keep_identity (clock w1) "" "" refund) as ((Hid1 & _) & _).
  pose proof (transitions_keep_identity (clock w1) providerRefundID "" r1)
    as (_ & (Hid2 & _) & _).
  rewrite Hprocessing in Hid1. rewrite Hcompleted in Hid2. cbn [fst] in Hid1, Hid2.
  assert (Refund.Status r2 = Refund.RefundStatusCompleted) as Hstatus.
  { unfold Refund.MarkAsCompleted in Hcompleted. case_match; [congruence|].
    injection Hcompleted as <-. done. }
  assert (Transaction.ID transaction' = Transaction.ID transaction
          /\ Transaction.Status transaction'
             = (if (Money64.Amount (Transaction.Amount transaction)
                    <=? GetTotalRefundedAmount (Transaction.ID transaction) w
                        + Amount input)%float
                then Transaction.StatusRefunded
                else Transaction.StatusPartiallyRefunded)
          /\ Transaction.Amount transaction' = Transaction.Amount transaction)
    as (Hid3 & Hstatus3 & Hamount3).
  { unfold Transaction.MarkAsRefunded in Hrefunded. case_match; [|congruence].
    injection Hrefunded as <-. cbn. split; [done|]. split; [|done].
    by destruct (PrimFloat.leb _ _). }
  exists transaction, (GetTotalRefundedAmount (Transaction.ID transaction) w),
    refund, transaction'.
  split; [repeat split; done|].
  split; [congruence|]. split; [done|].
  assert (Refund.ID r2 = Refund.ID refund) as Hid by congruence.
  destruct (auditLogger uc); cbn;
    (split; [rewrite <- Hid; apply lookup_insert_eq
            |split; [rewrite <- Hid3; apply lookup_insert_eq|done]]).
Qed.


Lemma finish_keeps_refunds transaction totalRefunded refund providerRefundID w :
  refunds (snd (run c (finish uc input transaction totalRefunded refund providerRefundID) w))
  = refunds w.
Proof.
  rewrite run_finish. cbn zeta.
  repeat case_match; done.
Qed.

Lemma NewRefund_inv id now transactionID amount reason refund :
  Refund.NewRefund id now transactionID amount reason = Ok refund ->
  Refund.ID refund = id
  /\ Refund.TransactionID refund = transactionID
  /\ Refund.Amount refund = amount
  /\ Refund.Status refund = Refund.RefundStatusPending.
Proof.
  unfold Refund.NewRefund. repeat case_match; try done. by intros [= <-].
Qed.

(** Once stored, the refund record stays in the store under its id, with
    its transaction and its amount, however the run ends. *)
Lemma process_keeps_record transaction totalRefunded refund w :
  fault c w _ (RefundCreate refund) = None ->
  exists refund',
    refunds (snd (run c (process uc input transaction totalRefunded refund) w))
      !! Refund.ID refund = Some refund'
    /\ Refund.TransactionID refund' = Refund.TransactionID refund
    /\ Refund.Amount refund' = Refund.Amount refund.
Proof.
  intros Hcreate. rewrite run_process, Hcreate. cbn zeta.
  pose proof (transitions_keep_identity (clock w) "" "" refund)
    as ((Hid1 & Htx1 & Hamount1) & _).
  destruct (snd (Refund.MarkAsProcessing (clock w) refund)).
  { exists refund. cbn. by rewrite lookup_insert_eq. }
  destruct (fault c _ _ (RefundUpdate _)).
  { exists refund. cbn. by rewrite lookup_insert_eq. }
  set (r1 := fst (Refund.MarkAsProcessing (clock w) refund)) in *.
  destruct (gatewayRefund c r1 transaction) as [providerRefundID|err].
  - pose proof (transitions_keep_identity (clock w) providerRefundID "" r1)
      as (_ & (Hid2 & Htx2 & Hamount2) & _).
    destruct (snd (Refund.MarkAsCompleted (clock w) providerRefundID r1)).
    { exists r1. cbn. rewrite <- Hid1, lookup_insert_eq. split; [done|]. split; congruence. }
    destruct (fault c _ _ (RefundUpdate _)).
    { exists r1. cbn. rewrite <- Hid1, lookup_insert_eq. split; [done|]. split; congruence. }
    rewrite finish_keeps_refunds.
    exists (fst (Refund.MarkAsCompleted (clock w) providerRefundID r1)). cbn.
    rewrite <- Hid1, <- Hid2, lookup_insert_eq. split; [done|]. split; congruence.
  - pose proof (transitions_keep_identity (clock w) "REFUND_FAILED" (Error err) r1)
      as (_ & _ & (Hid2 & Htx2 & Hamount2)).
    cbn zeta. cbn [snd].
    destruct (fault c _ _ (RefundUpdate _)).
    { exists r1. cbn. rewrite <- Hid1, lookup_insert_eq. split; [done|]. split; congruence. }
    exists (fst (Refund.MarkAsFailed (clock w) "REFUND_FAILED" (Error err) r1)). cbn.
    rewrite <- Hid1, <- Hid2, lookup_insert_eq. split; [done|]. split; congruence.
Qed.

Lemma Money64_NewMoney_inv amount currency m :
  Money64.NewMoney amount currency = Ok m -> m = Money64.mk amount currency.
Proof. unfold Money64.NewMoney. repeat case_match; congruence. Qed.

(** C6, as the code has it. For a request that passes steps 1 to 9 and whose
    refund the store takes:
    - however the run ends, the refund record stays in the store under its
      id, with its transaction and its amount;
    - when the provider fails, the run returns the provider's error wrapped,
      the transactions are untouched and the refund is marked [failed] with
      code REFUND_FAILED and the provider's message; the error of the write
      that follows is discarded: the stored refund is the failed one when the
      store takes that write, and is left [processing] when it refuses it;
    - when the store refuses the write of the processing refund, the run
      returns that error wrapped and the stored refund is still [pending];
    - when the store refuses the write of the completed refund, the run
      returns that error wrapped and the stored refund is still
      [processing]. *)
Theorem refund_record_after_failure w transaction totalRefunded refund :
  passesChecks c input w transaction totalRefunded refund ->
  accepts c (RefundCreate refund) ->
  let out := run c (Execute uc input) w in
  let processing := fst (Refund.MarkAsProcessing (clock w) refund) in
  (exists refund',
      refunds (snd out) !! Refund.ID refund = Some refund'
      /\ Refund.TransactionID refund' = Transaction.ID transaction
      /\ Money64.Amount (Refund.Amount refund') = Amount input)
  /\ (forall err,
        accepts c (RefundUpdate processing) ->
        gatewayRefund c processing transaction = Err err ->
        let failed :=
          fst (Refund.MarkAsFailed (clock w) "REFUND_FAILED" (Error err) processing) in
        fst out = Err (Errorf "refund processing failed" err)
        /\ transactions (snd out) = transactions w
        /\ Refund.Status failed = Refund.RefundStatusFailed
        /\ Refund.ErrorCode failed = "REFUND_FAILED"
        /\ Refund.ErrorMessage failed = Error err
        /\ (accepts c (RefundUpdate failed) ->
            refunds (snd out) !! Refund.ID refund = Some failed)
        /\ (forall err',
              refuses c (RefundUpdate failed) err' ->
              refunds (snd out) !! Refund.ID refund = Some processing
              /\ Refund.Status processing = Refund.RefundStatusProcessing))
  /\ (forall err,
        refuses c (RefundUpdate processing) err ->
        fst out = Err (Errorf "failed to update refund" err)
        /\ refunds (snd out) !! Refund.ID refund = Some refund
        /\ Refund.Status refund = Refund.RefundStatusPending)
  /\ (forall providerRefundID err,
        accepts c (RefundUpdate processing) ->
        gatewayRefund c processing transaction = Ok providerRefundID ->
        refuses c (RefundUpdate
                     (fst (Refund.MarkAsCompleted (clock w) providerRefundID processing)))
          err ->
        fst out = Err (Errorf "failed to update refund" err)
        /\ refunds (snd out) !! Refund.ID refund = Some processing
        /\ Refund.Status processing = Refund.RefundStatusProcessing).
Proof.
  intros Hpasses Haccepts0 out processing.
  pose proof (Haccepts0 (with_next_uuid (N.succ (next_uuid w)) w)) as Hcreate.
  pose proof Hpasses as (_ & _ & _ & _ & _ & Hnew).
  apply NewRefund_inv in Hnew as (Hid & Htx & Hamount & Hpending).
  pose proof (MarkAsProcessing_from_pending (clock w) refund Hpending)
    as [Hnone Hprocessing].
  pose proof (transitions_keep_identity (clock w) "" "" refund) as ((Hid1 & _) & _).
  fold processing in Hnone, Hprocessing, Hid1.
  subst out. rewrite (Execute_passesChecks _ _ _ _ Hpasses).
  split; [|split; [|split]].
  - destruct (process_keeps_record transaction totalRefunded refund _ Hcreate)
      as (refund' & Hstored & Htx' & Hamount').
    exists refund'. split; [done|]. split; [congruence|].
    by rewrite Hamount', Hamount.
  - intros err Haccepts Hgateway failed.
    set (w2 := putRefund processing
                 (putRefund refund (with_next_uuid (N.succ (next_uuid w)) w))).
    assert (run c (process uc input transaction totalRefunded refund)
              (with_next_uuid (N.succ (next_uuid w)) w)
            = (Err (Errorf "refund processing failed" err),
               match fault c w2 _ (RefundUpdate failed) with
               | Some _ => w2
               | None => putRefund failed w2
               end)) as ->.
    { rewrite run_process, Hcreate. cbn zeta.
      change (clock (with_next_uuid _ w)) with (clock w).
      fold processing. by rewrite Hnone, Haccepts, Hgateway. }
    destruct (MarkAsFailed_from_processing (clock w) "REFUND_FAILED" (Error err)
                processing Hprocessing) as (_ & Hstatus & Hcode & Hmessage).
    pose proof (transitions_keep_identity (clock w) "REFUND_FAILED" (Error err) processing)
      as (_ & _ & (Hid2 & _)).
    fold failed in Hstatus, Hcode, Hmessage, Hid2.
    cbn [fst snd].
    split; [done|]. split; [by destruct (fault c w2 _ (RefundUpdate failed))|].
    split; [done|]. split; [done|]. split; [done|]. split.
    + intros Haccepts'. rewrite Haccepts'. cbn.
      rewrite <- Hid1, <- Hid2. apply lookup_insert_eq.
    + intros err' Hrefuses. rewrite Hrefuses. split; [|done]. cbn.
      rewrite <- Hid1. apply lookup_insert_eq.
  - intros err Hrefuses.
    rewrite run_process, Hcreate. cbn zeta.
    change (clock (with_next_uuid _ w)) with (clock w).
    fold processing. rewrite Hnone, Hrefuses. cbn [fst snd].
    repeat split; try done. cbn. apply lookup_insert_eq.
  - intros providerRefundID err Haccepts Hgateway Hrefuses.
    rewrite run_process, Hcreate. cbn zeta.
    change (clock (with_next_uuid _ w)) with (clock w).
    fold processing. rewrite Hnone, Haccepts, Hgateway.
    destruct (MarkAsCompleted_from_processing (clock w) providerRefundID processing
                Hprocessing) as (-> & _).
    rewrite Hrefuses. cbn [fst snd].
    repeat split; try done. cbn. rewrite <- Hid1. apply lookup_insert_eq.
Qed.

End RefundUseCase.

(** ** The refund use case on the scenarios *)
Section RefundScenarios.

Import RefundTransactionUseCase scenario.

(** C1 fails on the code: the total and the amount are added and compared
    in [float64] (steps 7 and 14).
    - Of a transaction of 0.80, 0.10 and then 0.70 are refunded. After the
      first refund the completed total is 0.10. In [float64] 0.1 + 0.7 is
      less than 0.8: the amount check lets the second request through, and
      the full-refund test of step 14 is false, so that the transaction is
      asked to be marked partially refunded. Both refunds are completed and
      stored, in the [DECIMAL(19, 4)] column they sum to the amount of the
      transaction, and the transaction is left [partially_refunded], not
      [refunded].
    - Of a transaction of 3.30, 1.10 is refunded. In [float64] 1.1 + 2.2 is
      greater than 3.3: the request of 2.20, which brings the total to the
      amount of the transaction, fails with [ErrRefundAmountExceeded] and
      changes nothing. *)
Theorem refund_total_compared_in_float64 :
  let transaction := transactionOver (cents 80) in
  10 + 70 = 80
  /\ is_Ok (fst afterTenCents) = true
  /\ GetTotalRefundedAmount 1%N (snd afterTenCents) = cents 10
  /\ (Money64.Amount (Transaction.Amount transaction)
      <? GetTotalRefundedAmount 1%N (snd afterTenCents) + cents 70)%float = false
  /\ (Money64.Amount (Transaction.Amount transaction)
      <=? GetTotalRefundedAmount 1%N (snd afterTenCents) + cents 70)%float = false
  /\ (Refund.Status <$> refunds (snd afterSeventyCents) !! 100%N
      = Some Refund.RefundStatusCompleted
      /\ Refund.Status <$> refunds (snd afterSeventyCents) !! 101%N
         = Some Refund.RefundStatusCompleted)
  /\ schema.completed_total decimal4 1%N (snd afterSeventyCents)
     = decimal4 (Money64.Amount (Transaction.Amount transaction))
  /\ Transaction.Status <$> GetByID 1%N (snd afterSeventyCents)
     = Some Transaction.StatusPartiallyRefunded
  /\ 110 + 220 = 330
  /\ is_Ok (fst afterOneTen) = true
  /\ GetTotalRefundedAmount 1%N (snd afterOneTen) = cents 110
  /\ (cents 330 <? GetTotalRefundedAmount 1%N (snd afterOneTen) + cents 220)%float = true
  /\ afterTwoTwenty = (Err ErrRefundAmountExceeded, snd afterOneTen).
Proof. vm_compute. repeat split; done. Qed.

(** C6, as the claim states it, fails. When the store refuses the write of
    the completed refund, the run returns the store's error and the stored
    refund is left [processing]; when it refuses the write of the processing
    refund, the stored refund is left [pending]. Neither is [failed]. *)
Lemma refund_left_unfailed_when_store_write_fails :
  fst (run refusesCompleted (Execute uc (refund 3000)) w0)
  = Err (Errorf "failed to update refund" (External "connection reset"))
  /\ Refund.Status
       <$> refunds (snd (run refusesCompleted (Execute uc (refund 3000)) w0)) !! 100%N
     = Some Refund.RefundStatusProcessing
  /\ fst (run refusesProcessing (Execute uc (refund 3000)) w0)
     = Err (Errorf "failed to update refund" (External "connection reset"))
  /\ Refund.Status
       <$> refunds (snd (run refusesProcessing (Execute uc (refund 3000)) w0)) !! 100%N
     = Some Refund.RefundStatusPending.
Proof. vm_compute. repeat split; done. Qed.

(** C6 on a refund of 2500 that the provider fails: the stored refund is
    the failed one when the store takes its write, the processing one when
    the store refuses it, and the transactions are as before. *)
Lemma refund_record_after_failure_witness :
  let processing := fst (Refund.MarkAsProcessing (5 * day) pendingRefund) in
  let failed :=
    fst (Refund.MarkAsFailed (5 * day) "REFUND_FAILED" "provider unavailable" processing) in
  (let out := run declining (Execute uc (refund 2500)) w0 in
   fst out = Err (Errorf "refund processing failed" (External "provider unavailable"))
   /\ transactions (snd out) = transactions w0
   /\ Refund.Status failed = Refund.RefundStatusFailed
   /\ Refund.ErrorCode failed = "REFUND_FAILED"
   /\ Refund.ErrorMessage failed = "provider unavailable"
   /\ refunds (snd out) !! 100%N = Some failed)
  /\ (let out := run decliningRefusesFailed (Execute uc (refund 2500)) w0 in
      fst out = Err (Errorf "refund processing failed" (External "provider unavailable"))
      /\ transactions (snd out) = transactions w0
      /\ refunds (snd out) !! 100%N = Some processing
      /\ Refund.Status processing = Refund.RefundStatusProcessing).
Proof.
  intros processing failed. split.
  - destruct (refund_record_after_failure declining uc (refund 2500) w0
                (completedTransaction 0 10) 0%float pendingRefund) as (_ & Hgateway & _).
    + repeat split; vm_compute; reflexivity.
    + intros w. reflexivity.
    + destruct (Hgateway (External "provider unavailable"))
        as (Hreturned & Htransactions & Hstatus & Hcode & Hmessage & Hstored & _).
      * intros w. reflexivity.
      * reflexivity.
      * exact (conj Hreturned (conj Htransactions (conj Hstatus (conj Hcode
                 (conj Hmessage (Hstored (fun _ => eq_refl))))))).
  - destruct (refund_record_after_failure decliningRefusesFailed uc (refund 2500) w0
                (completedTransaction 0 10) 0%float pendingRefund) as (_ & Hgateway & _).
    + repeat split; vm_compute; reflexivity.
    + intros w. reflexivity.
    + destruct (Hgateway (External "provider unavailable"))
        as (Hreturned & Htransactions & _ & _ & _ & _ & Hleft).
      * intros w. reflexivity.
      * reflexivity.
      * destruct (Hleft (External "connection reset")) as [Hstored Hstatus].
        -- intros w. reflexivity.
        -- exact (conj Hreturned (conj Htransactions (conj Hstored Hstatus))).
Defined.

End RefundScenarios.

(** ** The payment use case *)
Section PaymentUseCase.

Import ProcessPaymentUseCase.

Variable c : Collaborators.
Variable uc : ProcessPaymentUseCase.t.
Variable transactionID : UUID.

(** The payment use case as an equation on runs. *)
Lemma run_Execute_payment w :
  run c (Execute uc transactionID) w =
  match fault c w _ (TxGetByID transactionID) with
  | Some err => (Some (Errorf "failed to get transaction" err), w)
  | None =>
      match GetByID transactionID w with
      | None => (Some ErrTransactionNotFound, w)
      | Some transaction =>
          if negb (Transaction.IsPending transaction)
             && negb (Transaction.IsFailed transaction)
          then (Some (NewBusinessRuleError "invalid_state"
                        ("transaction is in "
                         +:+ Transaction.status_string (Transaction.Status transaction)
                         +:+ " state, cannot process")), w)
          else
            let processing := Transaction.MarkAsProcessing (clock w) transaction in
            match snd processing with
            | Some err => (Some (Errorf "failed to mark as processing" err), w)
            | None =>
                match fault c w _ (TxUpdate (fst processing)) with
                | Some err => (Some (Errorf "failed to update transaction" err), w)
                | None =>
                    let w1 := putTransaction (fst processing) w in
                    match gatewayPayment c (fst processing) with
                    | Err err =>
                        let failed :=
                          fst (Transaction.MarkAsFailed (clock w) "PAYMENT_FAILED"
                                 (Error err) (fst processing)) in
                        let w2 :=
                          match fault c w1 _ (TxUpdate failed) with
                          | Some _ => w1
                          | None => putTransaction failed w1
                          end in
                        (Some (Errorf "payment processing failed" err),
                         if auditLogger uc
                         then logged (auditPaymentFailed failed err) w2
                         else w2)
                    | Ok providerTxnID =>
                        let completed :=
                          Transaction.MarkAsCompleted (clock w) providerTxnID
                            (fst processing) in
                        match snd completed with
                        | Some err => (Some (Errorf "failed to mark as completed" err), w1)
                        | None =>
                            match fault c w1 _ (TxUpdate (fst completed)) with
                            | Some err =>
                                (Some (Errorf "failed to update transaction" err), w1)
                            | None =>
                                (None,
                                 if auditLogger uc
                                 then logged (auditPaymentCompleted (fst completed)
                                                providerTxnID)
                                        (putTransaction (fst completed) w1)
                                 else putTransaction (fst completed) w1)
                            end
                        end
                    end
                end
            end
      end
  end.
Proof.
  unfold Execute. cbn [run handle].
  destruct (fault c w _ (TxGetByID transactionID)); [done|].
  destruct (GetByID transactionID w) as [transaction|]; [|done].
  destruct (negb _ && negb _); [done|]. cbn [run handle]. cbn zeta.
  destruct (Transaction.MarkAsProcessing (clock w) transaction) as [t1 [err|]]; [done|].
  cbn [run handle fst snd].
  destruct (fault c w _ (TxUpdate t1)); [done|]. cbn [run handle].
  destruct (gatewayPayment c t1) as [providerTxnID|err]; cbn [run handle].
  - change (clock (putTransaction t1 w)) with (clock w).
    destruct (Transaction.MarkAsCompleted (clock w) providerTxnID t1) as [t2 [err|]];
      [done|].
    cbn [run handle fst snd].
    destruct (fault c _ _ (TxUpdate t2)); [done|].
    destruct (auditLogger uc); done.
  - change (clock (putTransaction t1 w)) with (clock w).
    destruct (Transaction.MarkAsFailed (clock w) "PAYMENT_FAILED" (Error err) t1)
      as [t2 e].
    cbn [run handle fst snd].
    destruct (fault c _ _ (TxUpdate t2)); destruct (auditLogger uc); done.
Qed.

Lemma Transaction_MarkAsProcessing_legal now transaction :
  Transaction.Status transaction = Transaction.StatusPending
  \/ Transaction.Status transaction = Transaction.StatusFailed ->
  snd (Transaction.MarkAsProcessing now transaction) = None
  /\ Transaction.Status (fst (Transaction.MarkAsProcessing now transaction))
     = Transaction.StatusProcessing
  /\ Transaction.ID (fst (Transaction.MarkAsProcessing now transaction))
     = Transaction.ID transaction.
Proof.
  intros H. unfold Transaction.MarkAsProcessing. by destruct H as [-> | ->].
Qed.

Lemma Transaction_MarkAsFailed_from_processing now code message transaction :
  Transaction.Status transaction = Transaction.StatusProcessing ->
  let failed := fst (Transaction.MarkAsFailed now code message transaction) in
  snd (Transaction.MarkAsFailed now code message transaction) = None
  /\ Transaction.Status failed = Transaction.StatusFailed
  /\ Transaction.ErrorCode failed = code
  /\ Transaction.ErrorMessage failed = message
  /\ Transaction.ID failed = Transaction.ID transaction.
Proof. intros H. unfold Transaction.MarkAsFailed. by rewrite H. Qed.

(** C5, as the code has it: when the transaction was marked processing and
    stored, and the payment gateway then fails, the run returns the gateway's
    error wrapped and the transaction is marked [failed] with the code
    PAYMENT_FAILED and the gateway's message. The error of the write that
    follows is discarded: the stored transaction is the failed one when the
    store takes that write, and is left [processing] when it refuses it. *)
Theorem payment_failure_leaves_transaction_failed w transaction err :
  fault c w _ (TxGetByID transactionID) = None ->
  GetByID transactionID w = Some transaction ->
  Transaction.Status transaction = Transaction.StatusPending
  \/ Transaction.Status transaction = Transaction.StatusFailed ->
  let processing := fst (Transaction.MarkAsProcessing (clock w) transaction) in
  accepts c (TxUpdate processing) ->
  gatewayPayment c processing = Err err ->
  let failed :=
    fst (Transaction.MarkAsFailed (clock w) "PAYMENT_FAILED" (Error err) processing) in
  let out := run c (Execute uc transactionID) w in
  fst out = Some (Errorf "payment processing failed" err)
  /\ Transaction.Status failed = Transaction.StatusFailed
  /\ Transaction.ErrorCode failed = "PAYMENT_FAILED"
  /\ Transaction.ErrorMessage failed = Error err
  /\ (accepts c (TxUpdate failed) ->
      transactions (snd out) !! Transaction.ID transaction = Some failed)
  /\ (forall err',
        refuses c (TxUpdate failed) err' ->
        transactions (snd out) !! Transaction.ID transaction = Some processing
        /\ Transaction.Status processing = Transaction.StatusProcessing).
Proof.
  intros Hget Hfound Hstatus processing Haccepts Hgateway failed out.
  destruct (Transaction_MarkAsProcessing_legal (clock w) transaction Hstatus)
    as (Hnone & Hprocessing & Hid).
  destruct (Transaction_MarkAsFailed_from_processing (clock w) "PAYMENT_FAILED"
              (Error err) processing Hprocessing) as (_ & Hfailed & Hcode & Hmessage & Hid').
  fold processing in Hnone, Hprocessing, Hid.
  fold failed in Hfailed, Hcode, Hmessage, Hid'.
  set (w1 := putTransaction processing w).
  set (w2 := match fault c w1 _ (TxUpdate failed) with
             | Some _ => w1
             | None => putTransaction failed w1
             end).
  assert (run c (Execute uc transactionID) w
          = (Some (Errorf "payment processing failed" err),
             if auditLogger uc then logged (auditPaymentFailed failed err) w2 else w2))
    as Hrun.
  { rewrite run_Execute_payment, Hget, Hfound.
    assert (negb (Transaction.IsPending transaction)
            && negb (Transaction.IsFailed transaction) = false) as ->.
    { unfold Transaction.IsPending, Transaction.IsFailed.
      by destruct Hstatus as [-> | ->]. }
    cbn zeta. fold processing. by rewrite Hnone, Haccepts, Hgateway. }
  subst out. rewrite Hrun. cbn [fst snd].
  assert (transactions (if auditLogger uc
                        then logged (auditPaymentFailed failed err) w2 else w2)
          = transactions w2) as ->.
  { by destruct (auditLogger uc). }
  split; [done|]. split; [done|]. split; [done|]. split; [done|]. split.
  - intros Haccepts'. subst w2. rewrite Haccepts'. cbn.
    rewrite <- Hid, <- Hid'. apply lookup_insert_eq.
  - intros err' Hrefuses. subst w2. rewrite Hrefuses. split; [|done]. cbn.
    rewrite <- Hid. apply lookup_insert_eq.
Qed.

(** X15: the payment use case does not look at the error of the write that
    follows a failed payment: when the store refuses to write the failed
    transaction, the run still returns the payment error only, and the stored
    transaction stays in processing. *)
Theorem payment_failure_write_unchecked w transaction err err' :
  fault c w _ (TxGetByID transactionID) = None ->
  GetByID transactionID w = Some transaction ->
  Transaction.Status transaction = Transaction.StatusPending
  \/ Transaction.Status transaction = Transaction.StatusFailed ->
  let processing := fst (Transaction.MarkAsProcessing (clock w) transaction) in
  accepts c (TxUpdate processing) ->
  gatewayPayment c processing = Err err ->
  refuses c (TxUpdate (fst (Transaction.MarkAsFailed (clock w) "PAYMENT_FAILED"
                              (Error err) processing))) err' ->
  let out := run c (Execute uc transactionID) w in
  fst out = Some (Errorf "payment processing failed" err)
  /\ transactions (snd out) !! Transaction.ID transaction = Some processing.
Proof.
  intros Hget Hfound Hstatus processing Haccepts Hgateway Hrefuses out.
  destruct (Transaction_MarkAsProcessing_legal (clock w) transaction Hstatus)
    as (Hnone & Hprocessing & Hid).
  fold processing in Hnone, Hid.
  subst out. rewrite run_Execute_payment, Hget, Hfound.
  assert (negb (Transaction.IsPending transaction)
          && negb (Transaction.IsFailed transaction) = false) as ->.
  { unfold Transaction.IsPending, Transaction.IsFailed.
    by destruct Hstatus as [-> | ->]. }
  cbn zeta. fold processing. rewrite Hnone, Haccepts, Hgateway. cbn zeta.
  rewrite (Hrefuses (putTransaction processing w)).
  split; [by destruct (auditLogger uc)|]. rewrite <- Hid.
  destruct (auditLogger uc); cbn; apply lookup_insert_eq.
Qed.

End PaymentUseCase.

Section PaymentWitness.
Import ProcessPaymentUseCase scenario.
(** C5, as the claim states it, fails. The provider declines the card and
    the store refuses the write of the failed transaction: the run returns
    the payment error, and the stored transaction is left [processing]. *)
Lemma payment_left_processing_when_store_write_fails :
  let out := run examples.refusesFailed (Execute (ProcessPaymentUseCase.mk true) 1%N)
               beforePayment in
  Transaction.Status <$> GetByID 1%N beforePayment = Some Transaction.StatusPending
  /\ fst out = Some (Errorf "payment processing failed" (External "card declined"))
  /\ Transaction.Status <$> transactions (snd out) !! 1%N
     = Some Transaction.StatusProcessing.
Proof. vm_compute. repeat split; done. Qed.

(** C5 on a pending transaction whose card the provider declines: the stored
    transaction is the failed one when the store takes its write, the
    processing one when the store refuses it. *)
Lemma payment_failure_leaves_transaction_failed_witness :
  let processing := fst (Transaction.MarkAsProcessing 60 (pendingTransaction 0)) in
  let failed :=
    fst (Transaction.MarkAsFailed 60 "PAYMENT_FAILED" "card declined" processing) in
  (let out := run declining (Execute (ProcessPaymentUseCase.mk true) 1%N) beforePayment in
   fst out = Some (Errorf "payment processing failed" (External "card declined"))
   /\ Transaction.Status failed = Transaction.StatusFailed
   /\ Transaction.ErrorCode failed = "PAYMENT_FAILED"
   /\ Transaction.ErrorMessage failed = "card declined"
   /\ transactions (snd out) !! 1%N = Some failed)
  /\ (let out := run examples.refusesFailed (Execute (ProcessPaymentUseCase.mk true) 1%N)
                   beforePayment in
      fst out = Some (Errorf "payment processing failed" (External "card declined"))
      /\ transactions (snd out) !! 1%N = Some processing
      /\ Transaction.Status processing = Transaction.StatusProcessing).
Proof.
  intros processing failed. split.
  - destruct (payment_failure_leaves_transaction_failed declining
                (ProcessPaymentUseCase.mk true) 1%N beforePayment (pendingTransaction 0)
                (External "card declined"))
      as (Hreturned & Hstatus & Hcode & Hmessage & Hstored & _).
    + reflexivity.
    + vm_compute. reflexivity.
    + left. reflexivity.
    + intros w. reflexivity.
    + reflexivity.
    + exact (conj Hreturned (conj Hstatus (conj Hcode (conj Hmessage
               (Hstored (fun _ => eq_refl)))))).
  - destruct (payment_failure_leaves_transaction_failed examples.refusesFailed
                (ProcessPaymentUseCase.mk true) 1%N beforePayment (pendingTransaction 0)
                (External "card declined"))
      as (Hreturned & _ & _ & _ & _ & Hleft).
    + reflexivity.
    + vm_compute. reflexivity.
    + left. reflexivity.
    + intros w. reflexivity.
    + reflexivity.
    + destruct (Hleft (External "connection reset")) as [Hstored Hstatus].
      * intros w. reflexivity.
      * exact (conj Hreturned (conj Hstored Hstatus)).
Defined.
End PaymentWitness.

(** ** The refund window *)
Section RefundWindow.

Import RefundTransactionUseCase.

Variable c : Collaborators.
Variable uc : RefundTransactionUseCase.t.
Variable input : RefundTransactionInput.

Lemma finish_not_window_expired transaction totalRefunded refund providerRefundID w :
  fst (run c (finish uc input transaction totalRefunded refund providerRefundID) w)
  <> Err ErrRefundWindowExpired.
Proof. rewrite run_finish. cbn zeta. repeat case_match; done. Qed.

Lemma process_not_window_expired transaction totalRefunded refund w :
  fst (run c (process uc input transaction totalRefunded refund) w)
  <> Err ErrRefundWindowExpired.
Proof.
  rewrite run_process. cbn zeta.
  repeat case_match; try done. apply finish_not_window_expired.
Qed.

Lemma checkAmount_not_window_expired transaction w :
  fst (run c (checkAmount uc input transaction) w) <> Err ErrRefundWindowExpired.
Proof.
  rewrite run_checkAmount. cbn zeta.
  repeat case_match; try done. apply process_not_window_expired.
Qed.

(** The window check of step 4: the request fails with
    [ErrRefundWindowExpired] exactly when the transaction is found, owned
    and refundable, and was created more than 90 days before now (days of
    86400 s: a clock in UTC). *)
Lemma Execute_window_expired_iff w :
  fst (run c (Execute uc input) w) = Err ErrRefundWindowExpired
  <-> fault c w _ (TxGetByID (TransactionID input)) = None
      /\ exists transaction,
           GetByID (TransactionID input) w = Some transaction
           /\ Transaction.PartnerID transaction = PartnerID input
           /\ Transaction.IsRefundable (clock w) transaction = true
           /\ Transaction.CreatedAt transaction < clock w - 90 * secondsPerDay.
Proof.
  rewrite run_Execute. split.
  - destruct (fault c w _ _); [done|].
    destruct (GetByID _ w) as [transaction|]; [|done].
    destruct (bool_decide _) eqn:Hpartner; [|done]. cbn [negb].
    apply bool_decide_eq_true in Hpartner.
    destruct (Transaction.IsRefundable _ _) eqn:Hrefundable; [|done]. cbn [negb].
    unfold Before, AddDate.
    destruct (Z.ltb_spec (Transaction.CreatedAt transaction)
                (clock w + -90 * secondsPerDay)).
    + intros _. split; [done|]. exists transaction. repeat split; try done; lia.
    + intros H'. by apply checkAmount_not_window_expired in H'.
  - intros (-> & transaction & -> & Hpartner & -> & Hcreated).
    rewrite bool_decide_eq_true_2 by done. cbn [negb].
    unfold Before, AddDate.
    destruct (Z.ltb_spec (Transaction.CreatedAt transaction)
                (clock w + -90 * secondsPerDay)); [done|lia].
Qed.

End RefundWindow.

Section WindowScenarios.
Import RefundTransactionUseCase scenario.

(** C4 at a transaction created 100 days ago and completed 5 days ago: its
    completion lies inside the 90-day window (the transaction is
    refundable), and the request fails with [ErrRefundWindowExpired],
    because step 4 reads [CreatedAt]. *)
Theorem Execute_window_counts_from_creation :
  Transaction.CreatedAt completedLate = 0
  /\ Transaction.ProcessedAt completedLate = Some (95 * day)
  /\ clock lateWorld = 100 * day
  /\ Transaction.IsRefundable (clock lateWorld) completedLate = true
  /\ fst (run healthy (Execute uc (refund 2500)) lateWorld) = Err ErrRefundWindowExpired.
Proof. vm_compute. repeat split; done. Qed.

(** The boundary of the window, for a clock in UTC. Created and completed
    exactly 90 days ago: the request passes. One second later the
    refundability check rejects it. Created 90 days and one second ago but
    completed exactly 90 days ago: the window check of step 4 rejects it. *)
Lemma window_boundary :
  is_Ok (fst (run healthy (Execute uc (refund 2500)) atBoundary)) = true
  /\ fst (run healthy (Execute uc (refund 2500)) pastBoundary) = Err ErrRefundNotAllowed
  /\ fst (run healthy (Execute uc (refund 2500))
            (worldOf (90 * day + 1) (completedTransaction 0 1)))
     = Err ErrRefundWindowExpired.
Proof. vm_compute. repeat split; done. Qed.
End WindowScenarios.

(** ** Creation behind the idempotency guard *)
Section Idempotency.

Import CreateTransactionUseCase.

Variable c : Collaborators.

(** The creation use case as an equation on runs. *)
Lemma run_Execute_create input w :
  run c (Execute input) w =
  match fault c w _ (TxGetByIdempotencyKey (PartnerID input) (IdempotencyKey input)) with
  | Some err => (Err (Errorf "failed to check idempotency" err), w)
  | None =>
      match GetByIdempotencyKey (PartnerID input) (IdempotencyKey input) w with
      | Some existing => (Ok existing, w)
      | None =>
          match Money64.NewMoney (Amount input) (Currency input) with
          | Err err => (Err (Errorf "invalid amount" err), w)
          | Ok money =>
              let w1 := with_next_uuid (N.succ (next_uuid w)) w in
              match Transaction.NewTransaction (next_uuid w) (clock w) (PartnerID input)
                      (IdempotencyKey input) money (Provider input) with
              | Err err => (Err (Errorf "failed to create transaction entity" err), w1)
              | Ok transaction =>
                  match fault c w1 _ (TxCreate transaction) with
                  | Some err => (Err (Errorf "failed to create transaction" err), w1)
                  | None => (Ok transaction, putTransaction transaction w1)
                  end
              end
          end
      end
  end.
Proof.
  unfold Execute. cbn [run handle].
  destruct (fault c w _ _); [done|].
  destruct (GetByIdempotencyKey _ _ w); [done|].
  destruct (Money64.NewMoney _ _); [|done]. cbn [run handle]. cbn zeta.
  destruct (Transaction.NewTransaction _ _ _ _ _ _); [|done]. cbn [run handle].
  destruct (fault c _ _ _); done.
Qed.

Lemma NewTransaction_inv id now partnerID key amount provider transaction :
  Transaction.NewTransaction id now partnerID key amount provider = Ok transaction ->
  Transaction.ID transaction = id
  /\ matchesKey partnerID key transaction = true
  /\ Transaction.Status transaction = Transaction.StatusPending.
Proof.
  unfold Transaction.NewTransaction. repeat case_match; try done.
  intros [= <-]. unfold matchesKey, live, Transaction.IsDeleted. cbn.
  by rewrite !bool_decide_eq_true_2.
Qed.

Lemma filter_Permutation {A} (f : A -> bool) (l l' : list A) :
  l ≡ₚ l' -> List.filter f l ≡ₚ List.filter f l'.
Proof.
  induction 1; cbn; repeat case_match; try done.
  - by constructor.
  - by constructor.
  - by etrans.
Qed.

(** The guard finds a transaction exactly when one is stored for the pair,
    and then it is one of those. *)
Lemma GetByIdempotencyKey_Some partnerID key w x :
  GetByIdempotencyKey partnerID key w = Some x ->
  exists id, (id, x) ∈ matching partnerID key w.
Proof.
  unfold GetByIdempotencyKey, matching.
  destruct (List.find _ _) as [[id y]|] eqn:Hfind; [|done].
  intros [= <-]. apply find_some in Hfind as [Hin Hmatch].
  exists id. apply list_elem_of_In, filter_In. done.
Qed.

Lemma GetByIdempotencyKey_None partnerID key w :
  GetByIdempotencyKey partnerID key w = None ->
  matching partnerID key w = [].
Proof.
  unfold GetByIdempotencyKey, matching.
  destruct (List.find _ _) as [[id y]|] eqn:Hfind; [done|]. intros _.
  pose proof (find_none _ _ Hfind) as Hnone.
  induction (map_to_list (transactions w)) as [|kv l IH]; [done|].
  cbn. rewrite (Hnone kv) by (by left).
  apply IH. cbn in Hfind. rewrite (Hnone kv) in Hfind by (by left). done.
  intros y' Hin. apply Hnone. by right.
Qed.

Lemma matching_singleton partnerID key w id x :
  (id, x) ∈ matching partnerID key w ->
  (length (matching partnerID key w) <= 1)%nat ->
  matching partnerID key w = [(id, x)].
Proof.
  destruct (matching partnerID key w) as [|kv [|kv' l]]; cbn.
  - intros H. by apply elem_of_nil in H.
  - intros H _. apply list_elem_of_singleton in H. by subst.
  - lia.
Qed.

Lemma GetByIdempotencyKey_singleton partnerID key w id x :
  matching partnerID key w = [(id, x)] ->
  GetByIdempotencyKey partnerID key w = Some x.
Proof.
  intros Hmatching.
  destruct (GetByIdempotencyKey partnerID key w) as [y|] eqn:Hget.
  - apply GetByIdempotencyKey_Some in Hget as [id' Hin].
    rewrite Hmatching in Hin. apply list_elem_of_singleton in Hin. congruence.
  - apply GetByIdempotencyKey_None in Hget. congruence.
Qed.

Lemma matching_putTransaction partnerID key w x :
  transactions w !! Transaction.ID x = None ->
  matching partnerID key w = [] ->
  matchesKey partnerID key x = true ->
  matching partnerID key (putTransaction x w) = [(Transaction.ID x, x)].
Proof.
  intros Hfresh Hnone Hmatch. unfold matching in *. cbn.
  pose proof (map_to_list_insert (transactions w) (Transaction.ID x) x Hfresh) as Hperm.
  apply (filter_Permutation
           (fun kv => matchesKey partnerID key (snd kv))) in Hperm.
  cbn in Hperm. rewrite Hmatch, Hnone in Hperm.
  by apply Permutation_singleton_r in Hperm.
Qed.

Lemma matchesKey_inv partnerID key x :
  matchesKey partnerID key x = true ->
  Transaction.PartnerID x = partnerID /\ Transaction.IdempotencyKey x = key.
Proof.
  unfold matchesKey. intros H.
  apply andb_true_iff in H as [H _]. apply andb_true_iff in H as [H1 H2].
  by apply bool_decide_eq_true in H1, H2.
Qed.

Lemma matching_putTransaction_other partnerID key w x :
  transactions w !! Transaction.ID x = None ->
  matchesKey partnerID key x = false ->
  matching partnerID key (putTransaction x w) ≡ₚ matching partnerID key w.
Proof.
  intros Hfresh Hother. unfold matching. cbn.
  pose proof (map_to_list_insert (transactions w) (Transaction.ID x) x Hfresh) as Hperm.
  apply (filter_Permutation
           (fun kv => matchesKey partnerID key (snd kv))) in Hperm.
  cbn in Hperm. by rewrite Hother in Hperm.
Qed.

(** A create request keeps the store invariant of the guard. *)
Lemma Execute_keeps_keys_unique input w :
  idsUnused w -> keysUnique w ->
  idsUnused (snd (run c (Execute input) w))
  /\ keysUnique (snd (run c (Execute input) w)).
Proof.
  intros Hunused Hunique. rewrite run_Execute_create.
  assert (idsUnused (with_next_uuid (N.succ (next_uuid w)) w)) as Hunused'.
  { intros id Hid. apply Hunused. cbn in Hid. lia. }
  destruct (fault c w _ _); [done|].
  destruct (GetByIdempotencyKey _ _ w) eqn:Hget; [done|].
  destruct (Money64.NewMoney _ _); [|done]. cbn zeta.
  destruct (Transaction.NewTransaction _ _ _ _ _ _) as [created|] eqn:Hnew; [|done].
  destruct (fault c _ _ _); [done|]. cbn [snd].
  apply NewTransaction_inv in Hnew as (Hid & Hmatch & _).
  apply GetByIdempotencyKey_None in Hget.
  split.
  - intros id Hle. cbn in *. rewrite lookup_insert_ne by lia.
    apply Hunused. lia.
  - intros partnerID key.
    assert (transactions (with_next_uuid (N.succ (next_uuid w)) w)
              !! Transaction.ID created = None) as Hfresh.
    { rewrite Hid. apply Hunused. lia. }
    destruct (matchesKey partnerID key created) eqn:Hother.
    + apply matchesKey_inv in Hother as [Hp' Hk'].
      pose proof (matchesKey_inv _ _ _ Hmatch) as [Hp Hk].
      assert (partnerID = PartnerID input) as -> by congruence.
      assert (key = IdempotencyKey input) as -> by congruence.
      by rewrite matching_putTransaction.
    + rewrite (Permutation_length (matching_putTransaction_other _ _ _ _ Hfresh Hother)).
      apply Hunique.
Qed.

(** From an empty store, any sequence of create requests leaves at most one
    live transaction for every pair. *)
Lemma requests_keep_keys_unique (inputs : list CreateTransactionInput) w :
  idsUnused w -> keysUnique w ->
  keysUnique (foldl (fun w input => snd (run c (Execute input) w)) w inputs).
Proof.
  revert w. induction inputs as [|input inputs IH]; intros w Hunused Hunique; [done|].
  cbn. destruct (Execute_keeps_keys_unique input w Hunused Hunique). by apply IH.
Qed.

(** C3: two create requests with the same partner and idempotency key, the
    second with any body. On a store that takes the calls and satisfies the
    invariant of the guard (unused ids, at most one live transaction for
    every pair), when the first request returns a transaction, the second
    returns that very transaction, inserts nothing, and the store then holds
    exactly that one transaction for the pair. *)
Theorem idempotent_creation_returns_existing_transaction input1 input2 w transaction :
  PartnerID input2 = PartnerID input1 ->
  IdempotencyKey input2 = IdempotencyKey input1 ->
  available c ->
  idsUnused w ->
  keysUnique w ->
  let first := run c (Execute input1) w in
  let second := run c (Execute input2) (snd first) in
  fst first = Ok transaction ->
  fst second = Ok transaction
  /\ transactions (snd second) = transactions (snd first)
  /\ snd <$> matching (PartnerID input1) (IdempotencyKey input1) (snd second)
     = [transaction].
Proof.
  intros Hpartner Hkey Havailable Hunused Hkeys first second.
  pose proof (Hunused (next_uuid w) (reflexivity _)) as Hfresh.
  pose proof (Hkeys (PartnerID input1) (IdempotencyKey input1)) as Hunique.
  subst first second. rewrite run_Execute_create, Havailable.
  destruct (GetByIdempotencyKey _ _ w) as [existing|] eqn:Hget.
  - cbn [fst snd]. intros [= ->].
    rewrite run_Execute_create, Havailable, Hpartner, Hkey, Hget. cbn [fst snd].
    split; [done|]. split; [done|].
    apply GetByIdempotencyKey_Some in Hget as [id Hin].
    by rewrite (matching_singleton _ _ _ _ _ Hin Hunique).
  - destruct (Money64.NewMoney _ _) as [money|]; [|done]. cbn zeta.
    destruct (Transaction.NewTransaction _ _ _ _ _ _) as [created|] eqn:Hnew; [|done].
    rewrite Havailable. cbn [fst snd]. intros [= ->].
    apply NewTransaction_inv in Hnew as (Hid & Hmatch & _).
    apply GetByIdempotencyKey_None in Hget.
    assert (matching (PartnerID input1) (IdempotencyKey input1)
              (putTransaction transaction (with_next_uuid (N.succ (next_uuid w)) w))
            = [(Transaction.ID transaction, transaction)]) as Hone.
    { apply matching_putTransaction; [by rewrite Hid|done|done]. }
    rewrite run_Execute_create, Havailable, Hpartner, Hkey.
    rewrite (GetByIdempotencyKey_singleton _ _ _ _ _ Hone). cbn [fst snd].
    split; [done|]. split; [done|]. by rewrite Hone.
Qed.

End Idempotency.

Section IdempotencyScenario.
Import CreateTransactionUseCase scenario.

(** C3 on an empty store: an order of 10000 USD by stripe, then the same key
    with 999 EUR by paypal; the second request returns the first
    transaction. *)
Lemma idempotent_creation_returns_existing_transaction_witness :
  let first := run healthy (Execute (order 10000 "USD" "stripe")) emptyWorld in
  let second := run healthy (Execute (order 999 "EUR" "paypal")) (snd first) in
  fst second = Ok (pendingTransaction 0)
  /\ transactions (snd second) = transactions (snd first)
  /\ snd <$> matching 7%N "order-1" (snd second) = [pendingTransaction 0].
Proof.
  intros first second.
  apply (idempotent_creation_returns_existing_transaction healthy
           (order 10000 "USD" "stripe") (order 999 "EUR" "paypal") emptyWorld
           (pendingTransaction 0)).
  - reflexivity.
  - reflexivity.
  - intros w X op. reflexivity.
  - intros id _. reflexivity.
  - intros partnerID key. vm_compute. lia.
  - vm_compute. reflexivity.
Defined.
End IdempotencyScenario.


(** ** Two refund requests at once *)
Section Concurrency.
Import RefundTransactionUseCase scenario.

(** A use case that is given every turn runs as [run] says. *)
Lemma interleave_alone {A B : Type} (c : Collaborators) (p : Prog A) :
  forall w, exists n, forall (q : Prog B),
    interleave c (replicate n true) p q w = (Ret (fst (run c p w)), q, snd (run c p w)).
Proof.
  induction p as [a|X op k IH]; intros w.
  - exists 0%nat. done.
  - cbn [run]. destruct (handle c op w) as [x w'] eqn:Hhandle.
    destruct (IH x w') as [n Hn]. exists (S n). intros q.
    cbn [replicate interleave]. rewrite Hhandle. apply Hn.
Qed.

(** C2 at two requests of 6000 on a transaction of 10000, under the schedule
    [racy] and a store with no check of its own: both requests read a total
    of 0, both succeed, and the completed refunds add up to 12000. *)
Theorem concurrent_refunds_both_admitted :
  let '(first, second, total) := outcome healthy racy in
  Money64.Amount (Transaction.Amount (completedTransaction 0 10)) = 10000%float
  /\ (is_Ok <$> first) = Some true
  /\ (is_Ok <$> second) = Some true
  /\ total = 12000%float.
Proof. vm_compute. done. Qed.

(** The same schedule on a store with the refund trigger of the schema: the
    provider has refunded both, the second request then fails on the write
    of its completed refund, with the store's error and not with
    [ErrRefundAmountExceeded], and its record is left [processing]. *)
Lemma concurrent_refunds_with_trigger :
  let '(first, second, total) := outcome withTrigger racy in
  (is_Ok <$> first) = Some true
  /\ second = Some (Err (Errorf "failed to update refund"
                           (External "Refund amount exceeds transaction amount")))
  /\ total = 6000%float
  /\ Refund.Status <$> refunds (snd (race withTrigger racy)) !! 101%N
     = Some Refund.RefundStatusProcessing.
Proof. vm_compute. done. Qed.

(** One request after the other: one success, one
    [ErrRefundAmountExceeded]. *)
Lemma serial_refunds_one_admitted :
  let '(first, second, total) := outcome healthy serial in
  (is_Ok <$> first) = Some true
  /\ second = Some (Err ErrRefundAmountExceeded)
  /\ total = 6000%float.
Proof. vm_compute. done. Qed.
End Concurrency.


(** ** The first service layer *)
Section Legacy.
Import legacy.
(** The first service layer has no idempotency key: the same body posted
    twice is inserted twice, under two primary keys. *)
Lemma CreateTransaction_inserts_every_request tx db :
  ID tx = 0%N ->
  rows db !! sequence db = None ->
  rows db !! N.succ (sequence db) = None ->
  let first := CreateTransaction tx db in
  let second := CreateTransaction tx (snd first) in
  snd (fst first) = None
  /\ snd (fst second) = None
  /\ ID (fst (fst first)) <> ID (fst (fst second))
  /\ rows (snd second) !! ID (fst (fst first)) = Some (fst (fst first))
  /\ rows (snd second) !! ID (fst (fst second)) = Some (fst (fst second)).
Proof.
  intros Hzero Hfree Hfree'.
  unfold CreateTransaction, GormTransactionRepository_CreateTransaction, Create.
  rewrite Hzero. cbn.
  rewrite !(bool_decide_eq_true_2 (0%N = 0%N)) by done.
  rewrite Hfree. cbn.
  rewrite lookup_insert_ne by lia. rewrite Hfree'. cbn.
  repeat split; try done.
  - lia.
  - rewrite lookup_insert_ne by lia. apply lookup_insert_eq.
  - apply lookup_insert_eq.
Qed.
End Legacy.

(** * Properties of the code around the engine *)

(** ** The refund entity under sequences of calls *)
Section RefundHistoryFacts.

Import Refund RefundHistory.

Lemma invoke_consistent r m : consistent r -> consistent (invoke r m).
Proof.
  unfold consistent. destruct m as [[now|now id|now code msg]|now]; cbn;
    unfold MarkAsProcessing, MarkAsCompleted, MarkAsFailed;
    repeat case_bool_decide; cbn; destruct (Status r) eqn:E; try congruence;
    intuition (eauto; done).
Qed.

(** X1: the fields of a refund agree with its status, whatever is called on
    it. After any sequence of transitions and soft deletes on a refund that
    [NewRefund] built: a pending or processing refund has no processing
    time, no provider id and no error; a completed one has a processing time
    and no error; a failed one has no processing time and no provider id. *)
Theorem refund_fields_consistent_in_every_state
    (id : UUID) (now : Time) (transactionID : UUID) (amount : Money64.t)
    (reason : string) (r : Refund.t) (ms : list Method) :
  NewRefund id now transactionID amount reason = Ok r ->
  consistent (replay r ms).
Proof.
  intros Hnew.
  assert (consistent r) as H.
  { unfold NewRefund in Hnew. repeat case_match; try discriminate.
    injection Hnew as <-. unfold consistent. cbn. done. }
  clear Hnew. unfold replay. revert r H.
  induction ms as [|m ms IH]; intros r H; [done|].
  cbn [foldl]. apply IH. by apply invoke_consistent.
Qed.

(** X1 on the refund of the scenarios: processed, soft-deleted, failed, and
    then asked to complete. *)
Lemma refund_fields_consistent_in_every_state_witness :
  consistent
    (replay scenario.pendingRefund
       [Transition (CallMarkAsProcessing 10);
        Delete 20;
        Transition (CallMarkAsFailed 30 "REFUND_FAILED" "provider unavailable");
        Transition (CallMarkAsCompleted 40 "re_1")]).
Proof.
  apply (refund_fields_consistent_in_every_state 100%N (5 * scenario.day) 1%N
           (Money64.mk 2500 "USD") "customer request").
  vm_compute. reflexivity.
Defined.

(** X2: no method of the refund writes its id, its transaction, its amount,
    its reason or its creation time: they are the same after any sequence of
    transitions and soft deletes. *)
Theorem refund_identity_survives_every_call (r : Refund.t) (ms : list Method) :
  ID (replay r ms) = ID r
  /\ TransactionID (replay r ms) = TransactionID r
  /\ Amount (replay r ms) = Amount r
  /\ Reason (replay r ms) = Reason r
  /\ CreatedAt (replay r ms) = CreatedAt r.
Proof.
  unfold replay. revert r. induction ms as [|m ms IH]; intros r; [done|].
  cbn [foldl]. destruct (IH (invoke r m)) as (-> & -> & -> & -> & ->).
  destruct m as [[now|now id|now code msg]|now]; cbn;
    unfold MarkAsProcessing, MarkAsCompleted, MarkAsFailed;
    repeat case_bool_decide; done.
Qed.

(** X3: one call leaves the status of a refund as it is or moves it along one
    of four arrows: pending to processing, pending to failed, processing to
    completed, processing to failed; and each of the four is taken by some
    call from every refund in its source state. *)
Theorem refund_status_moves_along_four_arrows :
  (forall r m,
      Status (invoke r m) = Status r
      \/ arrow (Status r) (Status (invoke r m)) = true)
  /\ (forall s s',
        arrow s s' = true ->
        exists call, forall r, Status r = s -> Status (after r call) = s').
Proof.
  split.
  - intros r [[now|now id|now code msg]|now]; cbn;
      unfold MarkAsProcessing, MarkAsCompleted, MarkAsFailed;
      repeat case_bool_decide; cbn; destruct (Status r); try congruence; auto.
  - intros s s' H. destruct s, s'; try discriminate.
    + exists (CallMarkAsProcessing 0). intros r Hr. cbn.
      by apply MarkAsProcessing_from_pending.
    + exists (CallMarkAsFailed 0 "" ""). intros r Hr. cbn.
      by apply MarkAsFailed_from_pending.
    + exists (CallMarkAsCompleted 0 ""). intros r Hr. cbn.
      by apply MarkAsCompleted_from_processing.
    + exists (CallMarkAsFailed 0 "" ""). intros r Hr. cbn.
      by apply MarkAsFailed_from_processing.
Qed.

End RefundHistoryFacts.

Section RefundSoftDelete.

Import Refund RefundHistory.

(** X4: [SoftDelete] marks the refund and no transition looks at the mark: the
    three transitions answer a soft-deleted refund as they answer the refund
    itself and move its status in the same way, and no later call takes the
    mark away. *)
Theorem soft_deleted_refund_still_moves (now : Time) (r : Refund.t) :
  IsDeleted (SoftDelete now r) = true
  /\ Status (SoftDelete now r) = Status r
  /\ (forall at_ a b,
        snd (MarkAsProcessing at_ (SoftDelete now r)) = snd (MarkAsProcessing at_ r)
        /\ snd (MarkAsCompleted at_ a (SoftDelete now r)) = snd (MarkAsCompleted at_ a r)
        /\ snd (MarkAsFailed at_ a b (SoftDelete now r)) = snd (MarkAsFailed at_ a b r))
  /\ (forall call, Status (after (SoftDelete now r) call) = Status (after r call))
  /\ (forall ms, IsDeleted (replay (SoftDelete now r) ms) = true).
Proof.
  split; [done|]. split; [done|]. split; [|split].
  - intros at_ a b. unfold MarkAsProcessing, MarkAsCompleted, MarkAsFailed. cbn [Status SoftDelete].
    repeat split; repeat case_match; done.
  - intros [at_|at_ a|at_ a b]; cbn [after];
      unfold MarkAsProcessing, MarkAsCompleted, MarkAsFailed; cbn [Status SoftDelete];
      repeat case_match; done.
  - intros ms.
    assert (forall r0, IsDeleted r0 = true -> IsDeleted (replay r0 ms) = true) as H;
      [|by apply H].
    unfold replay. induction ms as [|m ms IH]; intros r0 Hr0; [done|].
    cbn [foldl]. apply IH.
    destruct m as [[at_|at_ a|at_ a b]|at_]; cbn; [| | |done];
      unfold MarkAsProcessing, MarkAsCompleted, MarkAsFailed;
      repeat case_match; done.
Qed.

End RefundSoftDelete.

(** ** What a refund request returns and writes *)
Section RefundOutcomesFacts.

Import RefundTransactionUseCase RefundOutcomes.

Variable c : Collaborators.
Variable uc : RefundTransactionUseCase.t.
Variable input : RefundTransactionInput.

Local Ltac in_list :=
  unfold wrappers, rejections;
  repeat first [apply list_elem_of_here | apply list_elem_of_further].
Local Ltac wrapped := right; eexists _, _; split; [reflexivity|in_list].
Local Ltac rejected := left; in_list.

Lemma finish_errors transaction totalRefunded refund providerRefundID w e :
  fst (run c (finish uc input transaction totalRefunded refund providerRefundID) w) = Err e ->
  exists prefix inner, e = Errorf prefix inner /\ prefix ∈ wrappers.
Proof.
  rewrite run_finish. cbn zeta.
  destruct (snd (Transaction.MarkAsRefunded _ _ _)).
  { intros [= <-]. eexists _, _. split; [reflexivity|in_list]. }
  destruct (fault c w _ _); [|done].
  intros [= <-]. eexists _, _. split; [reflexivity|in_list].
Qed.

Lemma process_errors transaction totalRefunded refund w e :
  fst (run c (process uc input transaction totalRefunded refund) w) = Err e ->
  exists prefix inner, e = Errorf prefix inner /\ prefix ∈ wrappers.
Proof.
  assert (forall prefix inner, prefix ∈ wrappers ->
            Err (A := Refund.t) (Errorf prefix inner) = Err e ->
            exists prefix inner, e = Errorf prefix inner /\ prefix ∈ wrappers) as Hw.
  { intros prefix inner Hin [= <-]. eauto. }
  rewrite run_process.
  destruct (fault c w _ _); [apply Hw; in_list|]. cbn zeta.
  destruct (snd (Refund.MarkAsProcessing _ _)); [apply Hw; in_list|].
  destruct (fault c _ _ _); [apply Hw; in_list|].
  destruct (gatewayRefund c _ _); [|apply Hw; in_list].
  destruct (snd (Refund.MarkAsCompleted _ _ _)); [apply Hw; in_list|].
  destruct (fault c _ _ _); [apply Hw; in_list|].
  apply finish_errors.
Qed.

(** X5: every error of the refund use case is one of six rejections (the five
    sentinels not found, unauthorized, not allowed, window expired and amount
    exceeded, and the currency validation error) or the error of a
    collaborator or an entity wrapped under one of the eleven messages of
    the use case. *)
Theorem Execute_returns_a_rejection_or_a_wrapped_error w e :
  fst (run c (Execute uc input) w) = Err e ->
  e ∈ rejections
  \/ exists prefix inner, e = Errorf prefix inner /\ prefix ∈ wrappers.
Proof.
  rewrite run_Execute.
  destruct (fault c w _ (TxGetByID _)); [intros [= <-]; wrapped|].
  destruct (GetByID _ w) as [transaction|]; [|intros [= <-]; rejected].
  destruct (negb (bool_decide _)); [intros [= <-]; rejected|].
  destruct (negb (Transaction.IsRefundable _ _)); [intros [= <-]; rejected|].
  destruct (Before _ _); [intros [= <-]; rejected|].
  rewrite run_checkAmount.
  destruct (Money64.NewMoney _ _) as [refundMoney|]; [|intros [= <-]; wrapped].
  destruct (Money64.IsGreaterThan _ _); [intros [= <-]; rejected|].
  destruct (fault c w _ _); [intros [= <-]; wrapped|]. cbn zeta.
  destruct (PrimFloat.ltb _ _); [intros [= <-]; rejected|].
  destruct (negb (bool_decide _)); [intros [= <-]; rejected|].
  destruct (Refund.NewRefund _ _ _ _ _) as [refund|]; [|intros [= <-]; wrapped].
  intros H. right. by apply process_errors in H.
Qed.


Lemma MarkAsCompleted_Ok now providerRefundID r :
  snd (Refund.MarkAsCompleted now providerRefundID r) = None ->
  let completed := fst (Refund.MarkAsCompleted now providerRefundID r) in
  Refund.Status completed = Refund.RefundStatusCompleted
  /\ Refund.ProviderRefundID completed = providerRefundID
  /\ Refund.ProcessedAt completed = Some now
  /\ Refund.ErrorCode completed = ""
  /\ Refund.ErrorMessage completed = "".
Proof. unfold Refund.MarkAsCompleted. case_match; [discriminate|]. done. Qed.

Lemma not_rejection prefix inner : Errorf prefix inner ∉ rejections.
Proof.
  unfold rejections. intros H.
  repeat (apply elem_of_cons in H as [H|H]; [discriminate|]).
  by apply elem_of_nil in H.
Qed.

(** X6: a request that is turned down with one of the six rejections has
    changed nothing: no refund and no transaction was written, no audit
    record logged and no id drawn. *)
Theorem rejected_refund_request_changes_nothing w e :
  fst (run c (Execute uc input) w) = Err e ->
  e ∈ rejections ->
  snd (run c (Execute uc input) w) = w.
Proof.
  rewrite run_Execute.
  destruct (fault c w _ (TxGetByID _)); [done|].
  destruct (GetByID _ w) as [transaction|]; [|done].
  destruct (negb (bool_decide _)); [done|].
  destruct (negb (Transaction.IsRefundable _ _)); [done|].
  destruct (Before _ _); [done|].
  rewrite run_checkAmount.
  destruct (Money64.NewMoney _ _) as [refundMoney|]; [|done].
  destruct (Money64.IsGreaterThan _ _); [done|].
  destruct (fault c w _ _); [done|]. cbn zeta.
  destruct (PrimFloat.ltb _ _); [done|].
  destruct (negb (bool_decide _)); [done|].
  destruct (Refund.NewRefund _ _ _ _ _) as [refund|].
  - intros H Hin. apply process_errors in H as (prefix & inner & -> & _).
    by apply not_rejection in Hin.
  - intros [= <-] Hin. by apply not_rejection in Hin.
Qed.

(** What steps 14 and 15 leave behind. *)
Lemma finish_outcome transaction totalRefunded refund providerRefundID w :
  let out := run c (finish uc input transaction totalRefunded refund providerRefundID) w in
  let marked :=
    fst (Transaction.MarkAsRefunded (clock w)
           (negb (Money64.Amount (Transaction.Amount transaction)
                  <=? totalRefunded + Amount input)%float) transaction) in
  match fst out with
  | Err _ => transactions (snd out) = transactions w /\ audit_log (snd out) = audit_log w
  | Ok refund' =>
      refund' = refund
      /\ transactions (snd out) = <[Transaction.ID marked := marked]> (transactions w)
      /\ audit_log (snd out)
         = if auditLogger uc
           then audit_log w ++ [auditRefundCompleted input refund marked providerRefundID]
           else audit_log w
  end.
Proof.
  cbn zeta. rewrite run_finish. cbn zeta.
  destruct (snd (Transaction.MarkAsRefunded _ _ _)); [done|].
  destruct (fault c w _ _); [done|]. cbn [fst snd].
  destruct (auditLogger uc); done.
Qed.

(** What steps 10 to 15 leave behind, for a refund just built. *)
Lemma process_outcome transaction totalRefunded refund w :
  let out := run c (process uc input transaction totalRefunded refund) w in
  let processing := fst (Refund.MarkAsProcessing (clock w) refund) in
  let marked :=
    fst (Transaction.MarkAsRefunded (clock w)
           (negb (Money64.Amount (Transaction.Amount transaction)
                  <=? totalRefunded + Amount input)%float) transaction) in
  (forall id, id <> Refund.ID refund -> refunds (snd out) !! id = refunds w !! id)
  /\ next_uuid (snd out) = next_uuid w
  /\ match fst out with
     | Err _ => transactions (snd out) = transactions w /\ audit_log (snd out) = audit_log w
     | Ok refund' =>
         exists providerRefundID,
           gatewayRefund c processing transaction = Ok providerRefundID
           /\ refund' = fst (Refund.MarkAsCompleted (clock w) providerRefundID processing)
           /\ snd (Refund.MarkAsProcessing (clock w) refund) = None
           /\ snd (Refund.MarkAsCompleted (clock w) providerRefundID processing) = None
           /\ refunds (snd out) !! Refund.ID refund = Some refund'
           /\ transactions (snd out) = <[Transaction.ID marked := marked]> (transactions w)
           /\ audit_log (snd out)
              = if auditLogger uc
                then audit_log w ++ [auditRefundCompleted input refund' marked providerRefundID]
                else audit_log w
     end.
Proof.
  cbn zeta. rewrite run_process. cbn zeta.
  pose proof (transitions_keep_identity (clock w) "" "" refund) as ((Hid1 & _) & _).
  set (r1 := fst (Refund.MarkAsProcessing (clock w) refund)) in *.
  assert (forall (m : gmap UUID Refund.t) r id,
            id <> Refund.ID refund -> Refund.ID r = Refund.ID refund ->
            <[Refund.ID r := r]> m !! id = m !! id) as Hother.
  { intros m r id Hne Hr. rewrite Hr. by apply lookup_insert_ne. }
  destruct (fault c w _ (RefundCreate refund)); [done|]. cbn zeta.
  destruct (snd (Refund.MarkAsProcessing (clock w) refund)) eqn:He1.
  { cbn. split; [|done]. intros id Hne. by apply Hother. }
  destruct (fault c _ _ (RefundUpdate r1)).
  { cbn. split; [|done]. intros id Hne. by apply Hother. }
  destruct (gatewayRefund c r1 transaction) as [providerRefundID|err].
  - pose proof (transitions_keep_identity (clock w) providerRefundID "" r1)
      as (_ & (Hid2 & _) & _).
    set (r2 := fst (Refund.MarkAsCompleted (clock w) providerRefundID r1)) in *.
    destruct (snd (Refund.MarkAsCompleted (clock w) providerRefundID r1)) eqn:He2.
    { cbn. split; [|done]. intros id Hne. rewrite !Hother; congruence. }
    destruct (fault c _ _ (RefundUpdate r2)).
    { cbn. split; [|done]. intros id Hne. rewrite !Hother; congruence. }
    pose proof (finish_outcome transaction totalRefunded r2 providerRefundID
                  (putRefund r2 (putRefund r1 (putRefund refund w)))) as Hfinish.
    cbn zeta in Hfinish.
    pose proof (finish_keeps_refunds c uc input transaction totalRefunded r2 providerRefundID
                  (putRefund r2 (putRefund r1 (putRefund refund w)))) as Hrefunds.
    assert (next_uuid (snd (run c (finish uc input transaction totalRefunded r2
                                     providerRefundID)
                              (putRefund r2 (putRefund r1 (putRefund refund w)))))
            = next_uuid w) as Hnext.
    { rewrite run_finish. cbn zeta. repeat case_match; done. }
    split; [|split; [done|]].
    { intros id Hne. rewrite Hrefunds. cbn. rewrite !Hother; congruence. }
    destruct (fst (run c (finish uc input transaction totalRefunded r2 providerRefundID) _))
      as [refund'|]; [|done].
    destruct Hfinish as (-> & Htx & Haudit).
    exists providerRefundID. rewrite Hrefunds.
    split; [done|]. split; [done|]. split; [done|]. split; [done|].
    split; [|done]. cbn. rewrite <- Hid1, <- Hid2. apply lookup_insert_eq.
  - pose proof (transitions_keep_identity (clock w) "REFUND_FAILED" (Error err) r1)
      as (_ & _ & (Hid2 & _)).
    cbn zeta. cbn [fst snd].
    destruct (fault c _ _ (RefundUpdate _)).
    + cbn. split; [|done]. intros id Hne. rewrite !Hother; congruence.
    + cbn. split; [|done]. intros id Hne. rewrite !Hother; congruence.
Qed.


(** How a run of [Execute] ends: turned down before a refund is built, with
    a refund entity that [NewRefund] declined, or in steps 10 to 15. *)
Lemma Execute_cases w :
  (exists e, run c (Execute uc input) w = (Err e, w))
  \/ (exists e, run c (Execute uc input) w
                = (Err e, with_next_uuid (N.succ (next_uuid w)) w))
  \/ (exists transaction totalRefunded refund,
        passesChecks c input w transaction totalRefunded refund
        /\ run c (Execute uc input) w
           = run c (process uc input transaction totalRefunded refund)
               (with_next_uuid (N.succ (next_uuid w)) w)).
Proof.
  rewrite run_Execute.
  destruct (fault c w _ (TxGetByID _)) eqn:Hget; [left; eauto|].
  destruct (GetByID _ w) as [transaction|] eqn:Hfound; [|left; eauto].
  destruct (bool_decide _) eqn:Hpartner; [|left; eauto]. cbn [negb].
  apply bool_decide_eq_true in Hpartner.
  destruct (Transaction.IsRefundable _ _) eqn:Hrefundable; [|left; eauto]. cbn [negb].
  destruct (Before _ _) eqn:Hwindow; [left; eauto|].
  rewrite run_checkAmount.
  destruct (Money64.NewMoney _ _) as [refundMoney|] eqn:Hmoney; [|left; eauto].
  destruct (Money64.IsGreaterThan _ _) eqn:Hgreater; [left; eauto|].
  destruct (fault c w _ (RefundGetTotalRefundedAmount _)) eqn:Htotal; [left; eauto|].
  cbn zeta.
  destruct (PrimFloat.ltb _ _) eqn:Hsum; [left; eauto|].
  destruct (bool_decide _) eqn:Hcurrency; [|left; eauto]. cbn [negb].
  apply bool_decide_eq_true in Hcurrency.
  destruct (Refund.NewRefund _ _ _ _ _) as [refund|] eqn:Hnew; [|right; left; eauto].
  right. right.
  assert (refundMoney = Money64.mk (Amount input) (Currency input)) as ->.
  { by apply Money64_NewMoney_inv in Hmoney. }
  exists transaction, (GetTotalRefundedAmount (Transaction.ID transaction) w), refund.
  split; [|done]. repeat split; done.
Qed.

(** X7: a run of the refund use case, however it ends, writes at most one
    refund row, the one under the id it draws, and at most one transaction,
    the one it was asked to refund: every other row of the two tables is as
    it was. *)
Theorem Execute_writes_only_the_new_refund_and_the_requested_transaction w :
  let out := run c (Execute uc input) w in
  (forall id, id <> next_uuid w -> refunds (snd out) !! id = refunds w !! id)
  /\ (forall id,
        (forall transaction,
            GetByID (TransactionID input) w = Some transaction ->
            id <> Transaction.ID transaction) ->
        transactions (snd out) !! id = transactions w !! id).
Proof.
  cbn zeta.
  destruct (Execute_cases w) as [[e ->]|[[e ->]|(transaction & totalRefunded & refund
                                                  & Hpasses & ->)]]; [done..|].
  pose proof Hpasses as ((_ & Hfound & _) & _ & _ & _ & _ & Hnew).
  apply NewRefund_inv in Hnew as (Hid & _).
  destruct (process_outcome transaction totalRefunded refund
              (with_next_uuid (N.succ (next_uuid w)) w)) as (Hrefunds & _ & Hrest).
  cbn zeta in Hrest. split.
  - intros id Hne. rewrite Hrefunds by congruence. done.
  - intros id Hne. specialize (Hne transaction Hfound).
    destruct (fst (run c (process uc input transaction totalRefunded refund) _))
      as [refund'|].
    + destruct Hrest as (providerRefundID & _ & _ & _ & _ & _ & -> & _). cbn.
      rewrite lookup_insert_ne; [done|].
      unfold Transaction.MarkAsRefunded. by case_match.
    + by destruct Hrest as [-> _].
Qed.

(** X8: the refund that a successful request returns is completed, carries the
    id that the run drew, belongs to the transaction of the request, which is
    the requester's own, is over the requested amount in the currency of the
    transaction, carries the reason of the request, was processed at the time
    of the run, and is the row stored under its id. Its provider refund id is
    the one the gateway returned for the refund that [NewRefund] built and
    [MarkAsProcessing] moved to processing. *)
Theorem successful_refund_is_completed_for_the_requester w refund :
  fst (run c (Execute uc input) w) = Ok refund ->
  exists transaction pending providerRefundID,
    GetByID (TransactionID input) w = Some transaction
    /\ Transaction.PartnerID transaction = PartnerID input
    /\ Refund.NewRefund (next_uuid w) (clock w) (Transaction.ID transaction)
         (Money64.mk (Amount input) (Currency input)) (Reason input) = Ok pending
    /\ gatewayRefund c (fst (Refund.MarkAsProcessing (clock w) pending)) transaction
       = Ok providerRefundID
    /\ Refund.ID refund = next_uuid w
    /\ Refund.TransactionID refund = Transaction.ID transaction
    /\ Refund.Amount refund = Money64.mk (Amount input) (Currency input)
    /\ Currency input = Money64.Currency (Transaction.Amount transaction)
    /\ Refund.Reason refund = Reason input
    /\ Refund.Status refund = Refund.RefundStatusCompleted
    /\ Refund.ProviderRefundID refund = providerRefundID
    /\ Refund.ProcessedAt refund = Some (clock w)
    /\ Refund.ErrorCode refund = ""
    /\ refunds (snd (run c (Execute uc input) w)) !! next_uuid w = Some refund.
Proof.
  destruct (Execute_cases w) as [[e' ->]|[[e' ->]|(transaction & totalRefunded & refund0
                                                    & Hpasses & ->)]]; [done..|].
  pose proof Hpasses as ((_ & Hfound & Hpartner & _) & _ & _ & _ & Hcurrency & Hnew).
  destruct (process_outcome transaction totalRefunded refund0
              (with_next_uuid (N.succ (next_uuid w)) w)) as (_ & _ & Hrest).
  cbn zeta in Hrest. intros H. rewrite H in Hrest.
  destruct Hrest as (providerRefundID & Hgateway & -> & He1 & He2 & Hstored & _).
  exists transaction, refund0, providerRefundID.
  change (clock (with_next_uuid (N.succ (next_uuid w)) w)) with (clock w) in *.
  assert (Refund.ID refund0 = next_uuid w) as Hid.
  { by apply NewRefund_inv in Hnew as (Hid & _). }
  rewrite Hid in Hstored.
  split; [done|]. split; [done|]. split; [done|]. split; [done|].
  unfold Refund.NewRefund in Hnew. repeat case_match; try discriminate.
  injection Hnew as <-.
  unfold Refund.MarkAsCompleted, Refund.MarkAsProcessing in *. cbn in *.
  repeat split; done.
Qed.


(** X9: a request that fails, at whatever step, has written no transaction
    and has handed the audit logger nothing. A request that succeeds has
    handed it one record, the "refund_completed" record of the returned
    refund with the partner, address and user agent of the request, the
    amount and the provider's refund id; a use case without a logger hands
    over none. *)
Theorem refund_request_audits_only_its_success w :
  let out := run c (Execute uc input) w in
  match fst out with
  | Err _ => transactions (snd out) = transactions w /\ audit_log (snd out) = audit_log w
  | Ok refund =>
      if auditLogger uc
      then exists a,
             audit_log (snd out) = audit_log w ++ [a]
             /\ ports.Action a = "refund_completed"
             /\ ports.ResourceType a = "refund"
             /\ ports.ResourceID a = Refund.ID refund
             /\ ports.PartnerID a = PartnerID input
             /\ ports.IPAddress a = IPAddress input
             /\ ports.UserAgent a = UserAgent input
             /\ ("amount", AFloat (Amount input)) ∈ ports.Changes a
             /\ ("provider_refund_id", AString (Refund.ProviderRefundID refund))
                ∈ ports.Changes a
      else audit_log (snd out) = audit_log w
  end.
Proof.
  cbn zeta.
  destruct (Execute_cases w) as [[e' ->]|[[e' ->]|(transaction & totalRefunded & refund0
                                                    & Hpasses & ->)]]; [done..|].
  destruct (process_outcome transaction totalRefunded refund0
              (with_next_uuid (N.succ (next_uuid w)) w)) as (_ & _ & Hrest).
  cbn zeta in Hrest.
  destruct (fst (run c (process uc input transaction totalRefunded refund0) _))
    as [refund|]; [|done].
  destruct Hrest as (providerRefundID & _ & -> & _ & He2 & _ & _ & Haudit).
  rewrite Haudit. destruct (auditLogger uc); [|done].
  apply MarkAsCompleted_Ok in He2 as (_ & -> & _).
  eexists. split; [reflexivity|]. cbn.
  repeat split; try done.
  - apply list_elem_of_further, list_elem_of_here.
  - do 2 apply list_elem_of_further. apply list_elem_of_here.
Qed.

(** X10: a request that passes the checks succeeds when the store takes every
    call, the provider refunds and the transaction can be marked refunded:
    the run returns the completed refund, leaves it in the store under its id
    and writes the transaction back marked as refunded. *)
Theorem refund_request_succeeds_when_checks_pass
    w transaction totalRefunded refund providerRefundID :
  passesChecks c input w transaction totalRefunded refund ->
  available c ->
  gatewayRefund c (fst (Refund.MarkAsProcessing (clock w) refund)) transaction
  = Ok providerRefundID ->
  let isFullRefund :=
    (Money64.Amount (Transaction.Amount transaction) <=? totalRefunded + Amount input)%float in
  let marked := Transaction.MarkAsRefunded (clock w) (negb isFullRefund) transaction in
  snd marked = None ->
  let out := run c (Execute uc input) w in
  exists completed,
    fst out = Ok completed
    /\ Refund.Status completed = Refund.RefundStatusCompleted
    /\ Refund.ProviderRefundID completed = providerRefundID
    /\ refunds (snd out) !! Refund.ID refund = Some completed
    /\ transactions (snd out) !! Transaction.ID (fst marked) = Some (fst marked).
Proof.
  intros Hpasses Havailable Hgateway isFullRefund marked Hmarked out.
  pose proof Hpasses as (_ & _ & _ & _ & _ & Hnew).
  apply NewRefund_inv in Hnew as (Hid & Htx & Hamount & Hpending).
  destruct (MarkAsProcessing_from_pending (clock w) refund Hpending)
    as [Hnone Hprocessing].
  pose proof (transitions_keep_identity (clock w) "" "" refund) as ((Hid1 & _) & _).
  set (r1 := fst (Refund.MarkAsProcessing (clock w) refund)) in *.
  destruct (MarkAsCompleted_from_processing (clock w) providerRefundID r1 Hprocessing)
    as (Hnone2 & Hcompleted & Hprovider).
  pose proof (transitions_keep_identity (clock w) providerRefundID "" r1)
    as (_ & (Hid2 & _) & _).
  set (r2 := fst (Refund.MarkAsCompleted (clock w) providerRefundID r1)) in *.
  exists r2. subst out.
  rewrite (Execute_passesChecks _ _ _ _ _ _ _ Hpasses).
  rewrite run_process, Havailable. cbn zeta.
  change (clock (with_next_uuid _ w)) with (clock w).
  fold r1. rewrite Hnone, Havailable, Hgateway. fold r2.
  rewrite Hnone2, Havailable, run_finish. cbn zeta.
  change (clock (putRefund _ _)) with (clock w).
  fold isFullRefund. fold marked. rewrite Hmarked, Havailable. cbn [fst snd].
  split; [done|]. split; [done|]. split; [done|].
  destruct (auditLogger uc); cbn.
  - split; [|apply lookup_insert_eq]. rewrite <- Hid1, <- Hid2. apply lookup_insert_eq.
  - split; [|apply lookup_insert_eq]. rewrite <- Hid1, <- Hid2. apply lookup_insert_eq.
Qed.

End RefundOutcomesFacts.

Section RefundOutcomesExamples.

Import RefundTransactionUseCase RefundOutcomes scenario examples.

(** X5 on a refund that the provider fails: the error is the provider's,
    wrapped. *)
Lemma Execute_returns_a_rejection_or_a_wrapped_error_witness :
  let e := Errorf "refund processing failed" (External "provider unavailable") in
  fst (run declining (Execute uc (refund 2500)) w0) = Err e
  /\ (e ∈ rejections \/ exists prefix inner, e = Errorf prefix inner /\ prefix ∈ wrappers).
Proof.
  intros e.
  assert (fst (run declining (Execute uc (refund 2500)) w0) = Err e) as H.
  { vm_compute. reflexivity. }
  split; [exact H|].
  exact (Execute_returns_a_rejection_or_a_wrapped_error declining uc (refund 2500) w0 e H).
Defined.

(** X6 on a request that comes after the refund window. *)
Lemma rejected_refund_request_changes_nothing_witness :
  fst (run healthy (Execute uc (refund 1000)) lateWorld) = Err ErrRefundWindowExpired
  /\ snd (run healthy (Execute uc (refund 1000)) lateWorld) = lateWorld.
Proof.
  assert (fst (run healthy (Execute uc (refund 1000)) lateWorld)
          = Err ErrRefundWindowExpired) as H.
  { vm_compute. reflexivity. }
  split; [exact H|].
  apply (rejected_refund_request_changes_nothing healthy uc (refund 1000) lateWorld
           ErrRefundWindowExpired H).
  do 3 apply list_elem_of_further. apply list_elem_of_here.
Defined.

(** X8 on the first refund of the end-to-end scenario. *)
Lemma successful_refund_is_completed_for_the_requester_witness :
  fst (run healthy (Execute uc (refund 3000)) w0) = Ok firstRefund
  /\ exists transaction pending providerRefundID,
       GetByID 1%N w0 = Some transaction
       /\ Transaction.PartnerID transaction = 7%N
       /\ Refund.NewRefund 100%N (5 * day) (Transaction.ID transaction)
            (Money64.mk 3000 "USD") "customer request" = Ok pending
       /\ gatewayRefund healthy (fst (Refund.MarkAsProcessing (5 * day) pending)) transaction
          = Ok providerRefundID
       /\ Refund.ID firstRefund = 100%N
       /\ Refund.TransactionID firstRefund = Transaction.ID transaction
       /\ Refund.Amount firstRefund = Money64.mk 3000 "USD"
       /\ "USD" = Money64.Currency (Transaction.Amount transaction)
       /\ Refund.Reason firstRefund = "customer request"
       /\ Refund.Status firstRefund = Refund.RefundStatusCompleted
       /\ Refund.ProviderRefundID firstRefund = providerRefundID
       /\ Refund.ProcessedAt firstRefund = Some (5 * day)
       /\ Refund.ErrorCode firstRefund = ""
       /\ refunds (snd (run healthy (Execute uc (refund 3000)) w0)) !! 100%N
          = Some firstRefund.
Proof.
  assert (fst (run healthy (Execute uc (refund 3000)) w0) = Ok firstRefund) as H.
  { vm_compute. reflexivity. }
  split; [exact H|].
  exact (successful_refund_is_completed_for_the_requester healthy uc (refund 3000) w0
           firstRefund H).
Defined.

(** X10 on a refund of 2500 of the completed transaction of 10000. *)
Lemma refund_request_succeeds_when_checks_pass_witness :
  let out := run healthy (Execute uc (refund 2500)) w0 in
  let marked := Transaction.MarkAsRefunded (5 * day) true (completedTransaction 0 10) in
  exists completed,
    fst out = Ok completed
    /\ Refund.Status completed = Refund.RefundStatusCompleted
    /\ Refund.ProviderRefundID completed = "mock_refund_stripe"
    /\ refunds (snd out) !! 100%N = Some completed
    /\ transactions (snd out) !! 1%N = Some (fst marked).
Proof.
  intros out marked.
  apply (refund_request_succeeds_when_checks_pass healthy uc (refund 2500) w0
           (completedTransaction 0 10) 0%float pendingRefund "mock_refund_stripe").
  - repeat split; vm_compute; solve [reflexivity | discriminate].
  - intros w X op. reflexivity.
  - reflexivity.
  - vm_compute. reflexivity.
Defined.

End RefundOutcomesExamples.

(** ** What a payment returns and writes *)
Section PaymentOutcomes.

Import ProcessPaymentUseCase tables.

Variable c : Collaborators.
Variable uc : ProcessPaymentUseCase.t.
Variable transactionID : UUID.

Lemma Transaction_MarkAsCompleted_from_processing now providerID transaction :
  Transaction.Status transaction = Transaction.StatusProcessing ->
  let completed := fst (Transaction.MarkAsCompleted now providerID transaction) in
  snd (Transaction.MarkAsCompleted now providerID transaction) = None
  /\ Transaction.Status completed = Transaction.StatusCompleted
  /\ Transaction.ProviderTransactionID completed = providerID
  /\ Transaction.ID completed = Transaction.ID transaction.
Proof. intros H. unfold Transaction.MarkAsCompleted. by rewrite H. Qed.

Lemma guard_open transaction :
  Transaction.Status transaction = Transaction.StatusPending
  \/ Transaction.Status transaction = Transaction.StatusFailed ->
  negb (Transaction.IsPending transaction) && negb (Transaction.IsFailed transaction)
  = false.
Proof.
  intros H. unfold Transaction.IsPending, Transaction.IsFailed.
  by destruct H as [-> | ->].
Qed.



(** The run of a payment that the provider takes, on a store that takes the
    two writes. *)
Lemma run_payment_completed w transaction providerTxnID :
  fault c w _ (TxGetByID transactionID) = None ->
  GetByID transactionID w = Some transaction ->
  Transaction.Status transaction = Transaction.StatusPending
  \/ Transaction.Status transaction = Transaction.StatusFailed ->
  let processing := fst (Transaction.MarkAsProcessing (clock w) transaction) in
  fault c w _ (TxUpdate processing) = None ->
  gatewayPayment c processing = Ok providerTxnID ->
  let completed := fst (Transaction.MarkAsCompleted (clock w) providerTxnID processing) in
  fault c (putTransaction processing w) _ (TxUpdate completed) = None ->
  run c (Execute uc transactionID) w
  = (None,
     if auditLogger uc
     then logged (auditPaymentCompleted completed providerTxnID)
            (putTransaction completed (putTransaction processing w))
     else putTransaction completed (putTransaction processing w)).
Proof.
  intros Hget Hfound Hstatus processing Hwrite Hgateway completed Hwrite'.
  destruct (Transaction_MarkAsProcessing_legal (clock w) transaction Hstatus)
    as (Hnone & Hprocessing & Hid).
  fold processing in Hnone, Hprocessing, Hid.
  destruct (Transaction_MarkAsCompleted_from_processing (clock w) providerTxnID
              processing Hprocessing) as (Hnone' & _).
  fold completed in Hnone'.
  rewrite run_Execute_payment, Hget, Hfound, guard_open by done.
  cbn zeta. fold processing. rewrite Hnone, Hwrite, Hgateway.
  fold completed. by rewrite Hnone', Hwrite'.
Qed.

(** X12: a payment that the provider takes, on a store that takes every call:
    the run returns nil, the stored transaction is completed under the
    provider's id, the audit logger, when there is one, is handed one
    "payment_completed" record, and no refund is written. *)
Theorem payment_success_completes_transaction w transaction providerTxnID :
  available c ->
  GetByID transactionID w = Some transaction ->
  Transaction.Status transaction = Transaction.StatusPending
  \/ Transaction.Status transaction = Transaction.StatusFailed ->
  gatewayPayment c (fst (Transaction.MarkAsProcessing (clock w) transaction))
  = Ok providerTxnID ->
  let out := run c (Execute uc transactionID) w in
  exists completed,
    fst out = None
    /\ transactions (snd out) !! Transaction.ID transaction = Some completed
    /\ Transaction.Status completed = Transaction.StatusCompleted
    /\ Transaction.ProviderTransactionID completed = providerTxnID
    /\ audit_log (snd out)
       = (if auditLogger uc
          then audit_log w ++ [auditPaymentCompleted completed providerTxnID]
          else audit_log w)
    /\ refunds (snd out) = refunds w.
Proof.
  intros Havailable Hfound Hstatus Hgateway out.
  destruct (Transaction_MarkAsProcessing_legal (clock w) transaction Hstatus)
    as (_ & Hprocessing & Hid).
  set (processing := fst (Transaction.MarkAsProcessing (clock w) transaction)) in *.
  destruct (Transaction_MarkAsCompleted_from_processing (clock w) providerTxnID
              processing Hprocessing) as (_ & Hcompleted & Hprovider & Hid').
  set (completed := fst (Transaction.MarkAsCompleted (clock w) providerTxnID processing))
    in *.
  exists completed. subst out.
  rewrite (run_payment_completed w transaction providerTxnID) by done.
  rewrite <- Hid, <- Hid'.
  destruct (auditLogger uc); cbn; rewrite lookup_insert_eq; done.
Qed.



(** X14: a run of the payment use case, however it ends, writes no refund and
    no transaction but the one it was asked to process. *)
Theorem payment_touches_only_its_transaction w :
  let out := run c (Execute uc transactionID) w in
  refunds (snd out) = refunds w
  /\ (forall id,
        (forall transaction,
            GetByID transactionID w = Some transaction -> id <> Transaction.ID transaction) ->
        transactions (snd out) !! id = transactions w !! id).
Proof.
  cbn zeta. rewrite run_Execute_payment.
  destruct (fault c w _ (TxGetByID transactionID)); [done|].
  destruct (GetByID transactionID w) as [transaction|] eqn:Hfound; [|done].
  destruct (negb _ && negb _) eqn:Hguard; [done|].
  cbn zeta.
  assert (forall now, Transaction.ID (fst (Transaction.MarkAsProcessing now transaction))
                      = Transaction.ID transaction) as Hid1.
  { intros now. unfold Transaction.MarkAsProcessing. by case_match. }
  set (processing := fst (Transaction.MarkAsProcessing (clock w) transaction)) in *.
  assert (forall now a, Transaction.ID (fst (Transaction.MarkAsCompleted now a processing))
                        = Transaction.ID processing) as Hid2.
  { intros now a. unfold Transaction.MarkAsCompleted. by case_match. }
  assert (forall now a b, Transaction.ID (fst (Transaction.MarkAsFailed now a b processing))
                          = Transaction.ID processing) as Hid3.
  { intros now a b. unfold Transaction.MarkAsFailed. by case_match. }
  assert (forall (m : gmap UUID Transaction.t) x id,
            (forall transaction0,
                Some transaction = Some transaction0 -> id <> Transaction.ID transaction0) ->
            Transaction.ID x = Transaction.ID transaction ->
            <[Transaction.ID x := x]> m !! id = m !! id) as Hother.
  { intros m x id Hne Hx. rewrite Hx. apply lookup_insert_ne.
    intros <-. by apply (Hne transaction). }
  destruct (snd (Transaction.MarkAsProcessing (clock w) transaction)); [done|].
  destruct (fault c w _ (TxUpdate processing)); [done|].
  destruct (gatewayPayment c processing) as [providerTxnID|err].
  - destruct (snd (Transaction.MarkAsCompleted _ _ _)).
    { cbn. split; [done|]. intros id Hne. rewrite Hother; [done|done|apply Hid1]. }
    destruct (fault c _ _ _).
    { cbn. split; [done|]. intros id Hne. rewrite Hother; [done|done|apply Hid1]. }
    destruct (auditLogger uc); cbn; (split; [done|]); intros id Hne;
      rewrite !Hother; try done; rewrite ?Hid2; apply Hid1.
  - destruct (fault c _ _ _); destruct (auditLogger uc); cbn; (split; [done|]);
      intros id Hne; rewrite !Hother; try done; rewrite ?Hid3; apply Hid1.
Qed.

End PaymentOutcomes.

Section PaymentOutcomesExamples.

Import ProcessPaymentUseCase tables scenario examples.


Lemma worldOf_refundsByID now x : refundsByID (worldOf now x).
Proof. intros id r. cbn. by rewrite lookup_empty. Qed.

(** X12 on the pending transaction of the scenarios. *)
Lemma payment_success_completes_transaction_witness :
  let out := run healthy (Execute (ProcessPaymentUseCase.mk true) 1%N) beforePayment in
  exists completed,
    fst out = None
    /\ transactions (snd out) !! 1%N = Some completed
    /\ Transaction.Status completed = Transaction.StatusCompleted
    /\ Transaction.ProviderTransactionID completed = "mock_stripe_txn"
    /\ audit_log (snd out) = [] ++ [auditPaymentCompleted completed "mock_stripe_txn"]
    /\ refunds (snd out) = ∅.
Proof.
  intros out.
  apply (payment_success_completes_transaction healthy (ProcessPaymentUseCase.mk true) 1%N
           beforePayment (pendingTransaction 0) "mock_stripe_txn").
  - intros w X op. reflexivity.
  - vm_compute. reflexivity.
  - left. reflexivity.
  - reflexivity.
Defined.


End PaymentOutcomesExamples.

(** ** Retrying a failed payment *)
Section Retry.

Import RetryFailedPaymentUseCase.

Variable c : Collaborators.
Variable entity : Entity.
Variable uc : RetryFailedPaymentUseCase.t.
Variable transactionID : UUID.

(** The retry use case as an equation on runs. *)
Lemma run_Execute_retry w :
  run c (Execute entity uc transactionID) w =
  match fault c w _ (TxGetByID transactionID) with
  | Some err => (Some (Errorf "failed to get transaction" err), w)
  | None =>
      match GetByID transactionID w with
      | None => (Some ErrTransactionNotFound, w)
      | Some transaction =>
          if negb (CanRetry entity transaction)
          then (Some (NewBusinessRuleError "max_retries_exceeded"
                        "transaction has reached maximum retry attempts"), w)
          else
            let counted := IncrementRetryCount entity (clock w) transaction in
            match snd counted with
            | Some err => (Some (Errorf "failed to increment retry count" err), w)
            | None =>
                match fault c w _ (TxUpdate (fst counted)) with
                | Some err => (Some (Errorf "failed to update transaction" err), w)
                | None =>
                    run c (ProcessPaymentUseCase.Execute
                             (ProcessPaymentUseCase.mk (auditLogger uc)) transactionID)
                      (if auditLogger uc
                       then logged (auditPaymentRetry (fst counted))
                              (putTransaction (fst counted) w)
                       else putTransaction (fst counted) w)
                end
            end
      end
  end.
Proof.
  unfold Execute. cbn [run handle].
  destruct (fault c w _ (TxGetByID transactionID)); [done|].
  destruct (GetByID transactionID w) as [transaction|]; [|done].
  destruct (negb (CanRetry entity transaction)); [done|]. cbn [run handle]. cbn zeta.
  destruct (IncrementRetryCount entity (clock w) transaction) as [counted [err|]]; [done|].
  cbn [run handle fst snd].
  destruct (fault c w _ (TxUpdate counted)); [done|].
  destruct (auditLogger uc); done.
Qed.


(** X16: a retry that [CanRetry] does not allow returns the max_retries_exceeded
    error and changes nothing. A retry that is allowed stores the transaction
    that [IncrementRetryCount] hands back and then processes that stored
    transaction: when the provider takes the payment, the transaction ends
    completed under the provider's id, still with the count of the retry,
    and the audit logger has been handed the "payment_retry" and then the
    "payment_completed" record. *)
Theorem retry_counts_and_then_processes w transaction :
  available c ->
  GetByID transactionID w = Some transaction ->
  (CanRetry entity transaction = false ->
   run c (Execute entity uc transactionID) w
   = (Some (NewBusinessRuleError "max_retries_exceeded"
              "transaction has reached maximum retry attempts"), w))
  /\ (forall counted providerTxnID,
        CanRetry entity transaction = true ->
        IncrementRetryCount entity (clock w) transaction = (counted, None) ->
        Transaction.ID counted = transactionID ->
        Transaction.DeletedAt counted = None ->
        Transaction.Status counted = Transaction.StatusPending
        \/ Transaction.Status counted = Transaction.StatusFailed ->
        gatewayPayment c (fst (Transaction.MarkAsProcessing (clock w) counted))
        = Ok providerTxnID ->
        let out := run c (Execute entity uc transactionID) w in
        exists completed,
          fst out = None
          /\ transactions (snd out) !! transactionID = Some completed
          /\ Transaction.Status completed = Transaction.StatusCompleted
          /\ Transaction.ProviderTransactionID completed = providerTxnID
          /\ Transaction.RetryCount completed = Transaction.RetryCount counted
          /\ audit_log (snd out)
             = if auditLogger uc
               then audit_log w ++ [auditPaymentRetry counted;
                                    ProcessPaymentUseCase.auditPaymentCompleted
                                      completed providerTxnID]
               else audit_log w).
Proof.
  intros Havailable Hfound. split.
  - intros Hguard. by rewrite run_Execute_retry, Havailable, Hfound, Hguard.
  - intros counted providerTxnID Hguard Hcounted Hid Hlive Hstatus Hgateway out.
    subst out. rewrite run_Execute_retry, Havailable, Hfound, Hguard. cbn [negb].
    cbn zeta. rewrite Hcounted. cbn [fst snd]. rewrite Havailable.
    set (w1 := if auditLogger uc then _ else _).
    assert (clock w1 = clock w) as Hclock by (subst w1; by destruct (auditLogger uc)).
    assert (GetByID transactionID w1 = Some counted) as Hfound1.
    { unfold GetByID. subst w1.
      destruct (auditLogger uc); cbn; rewrite <- Hid at 1;
        rewrite lookup_insert_eq; unfold live, Transaction.IsDeleted;
        by rewrite Hlive. }
    rewrite (run_payment_completed c _ transactionID w1 counted providerTxnID);
      rewrite ?Hclock; try done.
    set (processing := fst (Transaction.MarkAsProcessing (clock w) counted)).
    set (completed := fst (Transaction.MarkAsCompleted (clock w) providerTxnID processing)).
    destruct (Transaction_MarkAsProcessing_legal (clock w) counted Hstatus)
      as (_ & Hprocessing & Hid1).
    fold processing in Hprocessing, Hid1.
    destruct (Transaction_MarkAsCompleted_from_processing (clock w) providerTxnID
                processing Hprocessing) as (_ & Hcompleted & Hprovider & Hid2).
    fold completed in Hcompleted, Hprovider, Hid2.
    exists completed. split; [done|].
    assert (Transaction.ID completed = transactionID) as Hkey by congruence.
    assert (Transaction.RetryCount completed = Transaction.RetryCount counted) as Hcount.
    { subst completed processing.
      unfold Transaction.MarkAsCompleted, Transaction.MarkAsProcessing.
      repeat case_match; done. }
    cbn [ProcessPaymentUseCase.auditLogger]. subst w1.
    destruct (auditLogger uc); cbn; rewrite <- Hkey at 1; rewrite lookup_insert_eq;
      repeat split; try done.
    by rewrite <- app_assoc.
Qed.

End Retry.

Section RetryExamples.

Import RetryFailedPaymentUseCase scenario examples.

(** X16 on a failed transaction with one retry behind it, for an entity that
    allows three. *)
Lemma retry_counts_and_then_processes_witness :
  let out := run healthy (Execute upToThree (RetryFailedPaymentUseCase.mk true) 1%N)
               afterDecline in
  let counted := fst (IncrementRetryCount upToThree 120 failedTransaction) in
  exists completed,
    fst out = None
    /\ transactions (snd out) !! 1%N = Some completed
    /\ Transaction.Status completed = Transaction.StatusCompleted
    /\ Transaction.ProviderTransactionID completed = "mock_stripe_txn"
    /\ Transaction.RetryCount completed = 2
    /\ audit_log (snd out)
       = [] ++ [auditPaymentRetry counted;
                ProcessPaymentUseCase.auditPaymentCompleted completed "mock_stripe_txn"].
Proof.
  intros out counted.
  assert (available healthy) as Havailable by (intros w X op; reflexivity).
  assert (GetByID 1%N afterDecline = Some failedTransaction) as Hfound.
  { vm_compute. reflexivity. }
  apply (proj2 (retry_counts_and_then_processes healthy upToThree
                  (RetryFailedPaymentUseCase.mk true) 1%N afterDecline failedTransaction
                  Havailable Hfound) counted "mock_stripe_txn").
  - reflexivity.
  - reflexivity.
  - reflexivity.
  - reflexivity.
  - right. reflexivity.
  - reflexivity.
Defined.

End RetryExamples.

(** ** The refund check of the schema *)
Section RefundTrigger.

Import schema tables.

Variable decimal : float64 -> Z.

Lemma completed_total_putRefund_fresh transactionID r w :
  refunds w !! Refund.ID r = None ->
  completed_total decimal transactionID (putRefund r w)
  = completed_total decimal transactionID w + completed decimal transactionID r.
Proof.
  intros Hfresh. unfold completed_total. cbn.
  rewrite map_fold_insert_L; [done| |done].
  intros. lia.
Qed.

Lemma completed_total_putRefund_stored transactionID r r0 w :
  refunds w !! Refund.ID r = Some r0 ->
  completed_total decimal transactionID (putRefund r w)
  = completed_total decimal transactionID w
    - completed decimal transactionID r0 + completed decimal transactionID r.
Proof.
  intros Hstored. unfold completed_total. cbn.
  rewrite <- insert_delete_eq.
  rewrite map_fold_insert_L; [| intros; lia | apply lookup_delete_eq].
  rewrite (map_fold_delete_L _ 0 (Refund.ID r) r0 (refunds w)); [lia| |done].
  intros. lia.
Qed.

(** The sum of the trigger is the completed total of the transaction
    without the share of the row stored under the id of [new]. *)
Lemma total_refunded_spec new w :
  refundsByID w ->
  total_refunded decimal new w
  = completed_total decimal (Refund.TransactionID new) w - own decimal new (refunds w).
Proof.
  unfold refundsByID, total_refunded, completed_total.
  generalize (refunds w). clear w. intros m.
  induction m as [|i x m Hfresh IH] using map_ind; intros Hkeyed.
  - unfold own. rewrite !map_fold_empty, lookup_empty. lia.
  - rewrite !map_fold_insert_L; [| intros; lia | done | | done];
      [| intros; repeat case_match; lia].
    assert (Refund.ID x = i) as Hx by (apply Hkeyed, lookup_insert_eq).
    rewrite IH.
    2:{ intros id r Hr. apply Hkeyed. rewrite lookup_insert_ne; [done|]. congruence. }
    unfold own. rewrite Hx.
    destruct (decide (i = Refund.ID new)) as [->|Hne].
    + rewrite lookup_insert_eq, Hfresh.
      rewrite bool_decide_eq_true_2 by done. cbn [negb]. lia.
    + rewrite lookup_insert_ne by done.
      rewrite bool_decide_eq_false_2 by done. cbn [negb]. lia.
Qed.

Lemma total_after_write new w :
  refundsByID w ->
  completed_total decimal (Refund.TransactionID new) (putRefund new w)
  = total_refunded decimal new w + completed decimal (Refund.TransactionID new) new.
Proof.
  intros Hkeyed. rewrite total_refunded_spec by done. unfold own.
  destruct (refunds w !! Refund.ID new) as [r0|] eqn:Hstored.
  - rewrite (completed_total_putRefund_stored _ _ r0) by done. lia.
  - rewrite completed_total_putRefund_fresh by done. lia.
Qed.

(** X17: a row that the refund trigger of the schema lets through leaves the
    completed refunds of its transaction within the amount of the
    transaction, whether the row is inserted or replaces the row of the same
    id. The amounts are those of the columns, [decimal] of the amounts of
    the entities, and the amount of a row is positive (the table's
    [CHECK (amount > 0)]). *)
Theorem trigger_keeps_completed_total_within_amount new w x :
  refundsByID w ->
  transactions w !! Refund.TransactionID new = Some x ->
  0 < decimal (Money64.Amount (Refund.Amount new)) ->
  validate_refund_amount decimal new w = None ->
  completed_total decimal (Refund.TransactionID new) (putRefund new w)
  <= decimal (Money64.Amount (Transaction.Amount x)).
Proof.
  intros Hkeyed Hx Hpositive. unfold validate_refund_amount. rewrite Hx.
  destruct (Z.ltb_spec (decimal (Money64.Amount (Transaction.Amount x)))
              (total_refunded decimal new w + decimal (Money64.Amount (Refund.Amount new))));
    [done|].
  intros _. rewrite total_after_write by done.
  unfold completed. case_match; lia.
Qed.

End RefundTrigger.

Section TriggerExamples.

Import RefundTransactionUseCase schema tables scenario examples.

(** X17 on the first refund of the end-to-end scenario, inserted as
    completed, with the amounts in ten-thousandths. *)
Lemma trigger_keeps_completed_total_within_amount_witness :
  completed_total decimal4 1%N (putRefund firstRefund w0) <= 100000000.
Proof.
  apply (trigger_keeps_completed_total_within_amount decimal4 firstRefund w0
           (completedTransaction 0 10)).
  - apply worldOf_refundsByID.
  - reflexivity.
  - reflexivity.
  - vm_compute. reflexivity.
Defined.

End TriggerExamples.

(** ** Splitting the Authorization header *)
Section SplitFacts.

Import Strings.

Lemma Split_nonempty s sep : Split s sep <> [].
Proof. destruct s as [|a s]; cbn; [done|]. repeat case_match; done. Qed.

Lemma Split_no_separator s sep : Contains s sep = false -> Split s sep = [s].
Proof.
  induction s as [|a s IH]; cbn; [done|].
  destruct (Ascii.eqb a sep); [done|]. cbn. intros H. by rewrite IH.
Qed.

Lemma Split_other a s sep :
  a <> sep ->
  exists piece pieces,
    Split s sep = piece :: pieces
    /\ Split (String a s) sep = String a piece :: pieces.
Proof.
  intros Hne. cbn. rewrite (proj2 (Ascii.eqb_neq a sep) Hne).
  destruct (Split s sep) as [|piece pieces] eqn:Hs; [by apply Split_nonempty in Hs|].
  eauto.
Qed.

Lemma Split_separator s sep : Split (String sep s) sep = "" :: Split s sep.
Proof. cbn. by rewrite Ascii.eqb_refl. Qed.

Lemma Split_one_piece s sep piece :
  Split s sep = [piece] -> piece = s /\ Contains s sep = false.
Proof.
  revert piece. induction s as [|a s IH]; intros piece.
  - by intros [= <-].
  - destruct (Ascii.eqb_spec a sep) as [->|Hne].
    + rewrite Split_separator. intros [= <- H]. by apply Split_nonempty in H.
    + destruct (Split_other a s sep Hne) as (p & ps & Hs & ->).
      intros [= <- ->]. destruct (IH p Hs) as [-> Hp]. split; [done|].
      cbn. by rewrite (proj2 (Ascii.eqb_neq a sep) Hne).
Qed.

(** Two pieces: the string is the first piece, the separator and the second
    piece, and neither piece holds the separator. *)
Lemma Split_two_pieces s sep first second :
  Split s sep = [first; second]
  <-> s = first +:+ String sep second
      /\ Contains first sep = false /\ Contains second sep = false.
Proof.
  revert first. induction s as [|a s IH]; intros first.
  - split; [done|]. intros (H & _). by destruct first.
  - destruct (Ascii.eqb_spec a sep) as [->|Hne].
    + rewrite Split_separator. split.
      * intros [= <- H]. apply Split_one_piece in H as [-> H]. done.
      * intros (H & Hfirst & Hsecond). destruct first as [|b first].
        -- cbn in H. injection H as ->. by rewrite Split_no_separator.
        -- cbn in H, Hfirst. injection H as <- _.
           by rewrite Ascii.eqb_refl in Hfirst.
    + destruct (Split_other a s sep Hne) as (p & ps & Hs & ->). split.
      * intros [= <- ->]. apply IH in Hs as (-> & Hp & Hsecond).
        cbn. split; [done|]. split; [|done].
        by rewrite (proj2 (Ascii.eqb_neq a sep) Hne).
      * intros (H & Hfirst & Hsecond). destruct first as [|b first].
        -- cbn in H. by injection H as -> _.
        -- cbn in H, Hfirst. injection H as <- ->.
           apply orb_false_iff in Hfirst as [_ Hfirst].
           assert (Split (first +:+ String sep second) sep = [first; second]) as Hs'
             by (by apply IH).
           rewrite Hs' in Hs. by injection Hs as <- <-.
Qed.

End SplitFacts.

Section Authentication.

Import Strings middleware.

Variable m : AuthMiddleware.

Lemma Split_Bearer apiKey :
  Contains apiKey " " = false -> Split ("Bearer " +:+ apiKey) " " = ["Bearer"; apiKey].
Proof. intros Hkey. apply Split_two_pieces. done. Qed.

Lemma presents_unique c apiKey apiKey' partner partner' checked checked' :
  presents m c apiKey partner checked ->
  presents m c apiKey' partner' checked' ->
  apiKey' = apiKey /\ partner' = partner /\ checked' = checked.
Proof.
  intros (Hheader & _ & _ & Hrepo & Hvalid) (Hheader' & _ & _ & Hrepo' & Hvalid').
  rewrite Hheader in Hheader'.
  assert (apiKey' = apiKey) as -> by (by injection Hheader').
  rewrite Hrepo in Hrepo'. injection Hrepo' as <-. split; [done|]. split; [done|].
  congruence.
Qed.

(** The ways in which [Handle] ends. *)
Lemma Handle_cases (c : Ctx) :
  (exists apiKey partner checked,
      presents m c apiKey partner checked
      /\ Handle m c
         = match checked with
           | None =>
               (Next, Locals "partner" (LocalPartner partner)
                        (Locals "partner_id" (LocalUUID (Partner.ID partner)) c))
           | Some ErrPartnerInactive =>
               (JSON StatusForbidden "forbidden" "partner account is inactive", c)
           | Some _ => (JSON StatusUnauthorized "unauthorized" "invalid API key", c)
           end)
  \/ ((forall apiKey partner checked, ~ presents m c apiKey partner checked)
      /\ exists message, Handle m c = (JSON StatusUnauthorized "unauthorized" message, c)).
Proof.
  unfold Handle.
  case_bool_decide as Hempty.
  { right. split; [|eauto]. intros apiKey partner checked (H & _).
    by rewrite Hempty in H. }
  destruct (Split _ _) as [|scheme [|apiKey [|]]] eqn:Hsplit.
  1,2,4: right; (split; [|eauto]); intros apiKey' partner checked (H & Hkey & _);
    rewrite H, Split_Bearer in Hsplit; done.
  case_bool_decide as Hscheme; cbn [negb].
  2:{ right. split; [|eauto]. intros apiKey' partner checked (H & Hkey & _).
      rewrite H, Split_Bearer in Hsplit by done. by injection Hsplit as <- _. }
  subst scheme. apply Split_two_pieces in Hsplit as (Hheader & _ & Hkey).
  assert (forall apiKey', Get "Authorization" c = "Bearer " +:+ apiKey' -> apiKey' = apiKey)
    as Hsame.
  { intros apiKey' H. rewrite H in Hheader. by injection Hheader. }
  destruct (Nat.ltb_spec (String.length apiKey) 8).
  { right. split; [|eauto]. intros apiKey' partner checked (H' & _ & Hlength & _).
    apply Hsame in H' as ->. lia. }
  destruct (GetByAPIKeyPrefix m _) as [[partner|]|] eqn:Hrepo.
  2,3: right; (split; [|eauto]); intros apiKey' partner' checked (H' & _ & _ & Hrepo' & _);
    apply Hsame in H' as ->; congruence.
  left. exists apiKey, partner, (ValidateAPIKey m partner apiKey).
  split; [done|]. by destruct (ValidateAPIKey m partner apiKey) as [[]|].
Qed.

(** X19: the authentication middleware passes a request on to the next handler
    exactly when its Authorization header is "Bearer ", then a key of at
    least 8 bytes without a space, the repository answers the first 8 bytes
    of the key with a partner, and the key is valid for that partner. *)
Theorem Handle_lets_a_request_through_iff (c : Ctx) :
  fst (Handle m c) = Next
  <-> exists apiKey partner,
        Get "Authorization" c = "Bearer " +:+ apiKey
        /\ Contains apiKey " " = false
        /\ (8 <= String.length apiKey)%nat
        /\ GetByAPIKeyPrefix m (String.substring 0 8 apiKey) = Ok (Some partner)
        /\ ValidateAPIKey m partner apiKey = None.
Proof.
  destruct (Handle_cases c) as [(apiKey & partner & checked & Hpresents & ->)
                               |(Hnone & message & ->)].
  - split.
    + intros Hnext. exists apiKey, partner.
      destruct checked as [[]|]; try discriminate. exact Hpresents.
    + intros (apiKey' & partner' & Hpresents').
      destruct (presents_unique _ _ _ _ _ _ _ Hpresents Hpresents') as (_ & _ & <-).
      done.
  - split; [done|]. intros (apiKey & partner & Hpresents).
    by apply Hnone in Hpresents.
Qed.

(** X20: a request that the middleware turns away is answered with 401
    "unauthorized", or with 403 "forbidden" exactly when the header is well
    formed, the repository answered a partner and the partner's check of the
    key returned [ErrPartnerInactive] itself; an error of the repository is
    answered like an unknown key. In each case the context is left as it
    was. *)
Theorem Handle_turns_away_with_401_or_403 (c : Ctx) status error message :
  fst (Handle m c) = JSON status error message ->
  snd (Handle m c) = c
  /\ (status = StatusForbidden /\ error = "forbidden"
      \/ status = StatusUnauthorized /\ error = "unauthorized")
  /\ (status = StatusForbidden
      <-> exists apiKey partner,
            Get "Authorization" c = "Bearer " +:+ apiKey
            /\ Contains apiKey " " = false
            /\ (8 <= String.length apiKey)%nat
            /\ GetByAPIKeyPrefix m (String.substring 0 8 apiKey) = Ok (Some partner)
            /\ ValidateAPIKey m partner apiKey = Some ErrPartnerInactive).
Proof.
  assert (forall P : Prop, ~ P -> (StatusUnauthorized = StatusForbidden <-> P)) as H401.
  { intros P HP. split; [done|]. intros HP'. by apply HP in HP'. }
  destruct (Handle_cases c) as [(apiKey & partner & checked & Hpresents & ->)
                               |(Hnone & message' & ->)].
  - destruct checked as [err|]; [|done].
    destruct err.
    8:{ intros [= <- <- <-]. split; [done|]. split; [by left|].
        split; [|done]. intros _. exists apiKey, partner. exact Hpresents. }
    all: intros [= <- <- <-]; (split; [done|]); (split; [by right|]); apply H401;
      intros (apiKey' & partner' & Hpresents');
      by destruct (presents_unique _ _ _ _ _ _ _ Hpresents Hpresents') as (_ & _ & ?).
  - intros [= <- <- <-]. split; [done|]. split; [by right|]. apply H401.
    intros (apiKey & partner & Hpresents). by apply Hnone in Hpresents.
Qed.

(** X21: what [Handle] keeps for the handlers that follow is what
    [GetPartnerID] hands them: after a request went through, the id of the
    partner that the repository answered for the first 8 bytes of the key,
    and the partner itself under "partner"; after a request that was turned
    away, what it would have handed them before; and without a partner id in
    the context, [uuid.Nil] and [ErrUnauthorizedOperation]. *)
Theorem GetPartnerID_returns_the_authenticated_partner (c : Ctx) :
  (locals c !! "partner_id" = None ->
   GetPartnerID c = (uuid_Nil, Some ErrUnauthorizedOperation))
  /\ (fst (Handle m c) = Next ->
      exists apiKey partner,
        Get "Authorization" c = "Bearer " +:+ apiKey
        /\ GetByAPIKeyPrefix m (String.substring 0 8 apiKey) = Ok (Some partner)
        /\ GetPartnerID (snd (Handle m c)) = (Partner.ID partner, None)
        /\ locals (snd (Handle m c)) !! "partner" = Some (LocalPartner partner))
  /\ (fst (Handle m c) <> Next -> GetPartnerID (snd (Handle m c)) = GetPartnerID c).
Proof.
  split; [|split].
  - intros H. unfold GetPartnerID. by rewrite H.
  - destruct (Handle_cases c) as [(apiKey & partner & checked & Hpresents & ->)
                                 |(Hnone & message & ->)]; [|done].
    destruct checked as [[]|]; try discriminate. intros _.
    destruct Hpresents as (Hheader & _ & _ & Hrepo & _).
    exists apiKey, partner. split; [done|]. split; [done|].
    unfold GetPartnerID, Locals. cbn.
    rewrite lookup_insert_ne by done. rewrite !lookup_insert_eq. done.
  - destruct (Handle_cases c) as [(apiKey & partner & checked & Hpresents & ->)
                                 |(Hnone & message & ->)]; [|done].
    by destruct checked as [[]|].
Qed.

End Authentication.

Section AuthenticationExamples.

Import Strings middleware examples.

(** X20 on the key of a partner whose account is suspended. *)
Lemma Handle_turns_away_with_401_or_403_witness :
  let m := postgres.authOver directory ownKey in
  let c := request "Bearer glob-key-partner-4" in
  fst (Handle m c) = JSON 403 "forbidden" "partner account is inactive"
  /\ snd (Handle m c) = c
  /\ (403 = StatusForbidden /\ "forbidden" = "forbidden"
      \/ 403 = StatusUnauthorized /\ "forbidden" = "unauthorized")
  /\ (403 = StatusForbidden
      <-> exists apiKey partner,
            Get "Authorization" c = "Bearer " +:+ apiKey
            /\ Contains apiKey " " = false
            /\ (8 <= String.length apiKey)%nat
            /\ GetByAPIKeyPrefix m (String.substring 0 8 apiKey) = Ok (Some partner)
            /\ ValidateAPIKey m partner apiKey = Some ErrPartnerInactive).
Proof.
  intros m c.
  assert (fst (Handle m c) = JSON 403 "forbidden" "partner account is inactive") as H.
  { vm_compute. reflexivity. }
  split; [exact H|].
  exact (Handle_turns_away_with_401_or_403 m c 403 "forbidden"
           "partner account is inactive" H).
Defined.

End AuthenticationExamples.

(** ** Payment methods and providers *)
Section StringFacts.

Import Strings.

Lemma lower_space a : asciiSpace (lower a) = asciiSpace a.
Proof.
  unfold lower. 
  destruct ((65 <=? N_of_ascii a)%N && (N_of_ascii a <=? 90)%N) eqn:H; [|done].
  apply andb_true_iff in H as [H1 H2]. apply N.leb_le in H1, H2.
  unfold asciiSpace. rewrite N_ascii_embedding by lia.
  rewrite !bool_decide_eq_false_2; [done| |].
  - intros Hin. repeat (apply elem_of_cons in Hin as [Hin|Hin]; [lia|]).
    by apply elem_of_nil in Hin.
  - intros Hin. repeat (apply elem_of_cons in Hin as [Hin|Hin]; [lia|]).
    by apply elem_of_nil in Hin.
Qed.

Lemma lower_idempotent a : lower (lower a) = lower a.
Proof.
  unfold lower at 2.
  destruct ((65 <=? N_of_ascii a)%N && (N_of_ascii a <=? 90)%N) eqn:H.
  - apply andb_true_iff in H as [H1 H2]. apply N.leb_le in H1, H2.
    unfold lower. rewrite N_ascii_embedding by lia.
    destruct (N.leb_spec (N_of_ascii a + 32) 90); [lia|]. rewrite andb_false_r.
    destruct (N.leb_spec 65 (N_of_ascii a)); [|lia].
    destruct (N.leb_spec (N_of_ascii a) 90); [|lia]. done.
  - unfold lower. by rewrite H.
Qed.

Lemma ToLower_idempotent s : ToLower (ToLower s) = ToLower s.
Proof. induction s as [|a s IH]; cbn; [done|]. by rewrite lower_idempotent, IH. Qed.

Lemma ToLower_TrimLeft s : ToLower (TrimLeft s) = TrimLeft (ToLower s).
Proof.
  induction s as [|a s IH]; cbn; [done|].
  rewrite lower_space. by destruct (asciiSpace a).
Qed.

Lemma ToLower_TrimRight s : ToLower (TrimRight s) = TrimRight (ToLower s).
Proof.
  induction s as [|a s IH]; cbn; [done|].
  rewrite <- IH, lower_space.
  destruct (TrimRight s); cbn; [by destruct (asciiSpace a)|done].
Qed.

Lemma ToLower_TrimSpace s : ToLower (TrimSpace s) = TrimSpace (ToLower s).
Proof. unfold TrimSpace. by rewrite ToLower_TrimRight, ToLower_TrimLeft. Qed.

Lemma TrimLeft_head s :
  match TrimLeft s with
  | EmptyString => True
  | String a _ => asciiSpace a = false
  end.
Proof.
  induction s as [|a s IH]; cbn; [done|].
  destruct (asciiSpace a) eqn:Ha; [done|]. done.
Qed.

Lemma TrimLeft_fixed s :
  match s with EmptyString => True | String a _ => asciiSpace a = false end ->
  TrimLeft s = s.
Proof. destruct s as [|a s]; cbn; [done|]. by intros ->. Qed.

Lemma TrimRight_head s :
  match s with EmptyString => True | String a _ => asciiSpace a = false end ->
  match TrimRight s with EmptyString => True | String a _ => asciiSpace a = false end.
Proof.
  destruct s as [|a s]; cbn; [done|]. intros Ha.
  destruct (TrimRight s); [by rewrite Ha|done].
Qed.

Lemma TrimRight_idempotent s : TrimRight (TrimRight s) = TrimRight s.
Proof.
  induction s as [|a s IH]; cbn; [done|].
  destruct (TrimRight s) as [|b kept] eqn:Hs.
  - destruct (asciiSpace a) eqn:Ha; cbn; [done|]. by rewrite Ha.
  - cbn. cbn in IH. by rewrite IH.
Qed.

Lemma TrimSpace_idempotent s : TrimSpace (TrimSpace s) = TrimSpace s.
Proof.
  unfold TrimSpace.
  rewrite (TrimLeft_fixed (TrimRight (TrimLeft s))).
  - apply TrimRight_idempotent.
  - apply TrimRight_head, TrimLeft_head.
Qed.

(** Normalising twice is normalising once. *)
Lemma normal_idempotent s :
  ToLower (TrimSpace (ToLower (TrimSpace s))) = ToLower (TrimSpace s).
Proof. by rewrite <- ToLower_TrimSpace, TrimSpace_idempotent, ToLower_idempotent. Qed.

End StringFacts.

Section PaymentValueObjects.

Import Strings.

Lemma valid_key (l : list (string * bool)) (key : string) :
  default false ((list_to_map l : gmap string bool) !! key) = true ->
  key ∈ l.*1.
Proof.
  destruct (list_to_map l !! key) as [v|] eqn:H; [|done]. intros _.
  apply elem_of_list_to_map_2 in H. apply list_elem_of_fmap. by exists (key, v).
Qed.

(** X23: [NewPaymentMethod] on ASCII input succeeds exactly when the input,
    trimmed and in lower case, is one of the four codes that the schema
    inserts into [payment_methods]; what it builds is that code, is valid,
    and is built again from its own string; it fails with
    [ErrInvalidPaymentMethod] only; and trimming the input or lowering its
    case beforehand changes nothing. *)
Theorem NewPaymentMethod_builds_a_seeded_method (method : string) :
  isASCII method = true ->
  (forall pm,
      PaymentMethod.NewPaymentMethod method = Ok pm ->
      pm = ToLower (TrimSpace method)
      /\ pm ∈ catalog.payment_methods
      /\ PaymentMethod.IsValid pm = true
      /\ PaymentMethod.NewPaymentMethod (PaymentMethod.String pm) = Ok pm)
  /\ (ToLower (TrimSpace method) ∈ catalog.payment_methods ->
      PaymentMethod.NewPaymentMethod method = Ok (ToLower (TrimSpace method)))
  /\ (forall err,
        PaymentMethod.NewPaymentMethod method = Err err -> err = ErrInvalidPaymentMethod)
  /\ PaymentMethod.NewPaymentMethod (ToLower method)
     = PaymentMethod.NewPaymentMethod method
  /\ PaymentMethod.NewPaymentMethod (TrimSpace method)
     = PaymentMethod.NewPaymentMethod method.
Proof.
  intros _.
  assert (forall m, m ∈ catalog.payment_methods ->
                    PaymentMethod.NewPaymentMethod m = Ok m) as Haccepted.
  { intros m Hin. unfold catalog.payment_methods in Hin.
    repeat (apply elem_of_cons in Hin as [->|Hin]; [by vm_compute|]).
    by apply elem_of_nil in Hin. }
  unfold PaymentMethod.NewPaymentMethod. cbn zeta.
  split; [|split; [|split; [|split]]].
  - intros pm. destruct (default false _) eqn:Hvalid; [|done]. cbn [negb]. intros [= <-].
    apply valid_key in Hvalid.
    pose proof (Haccepted _ Hvalid) as Hagain.
    unfold PaymentMethod.IsValid, PaymentMethod.String. by rewrite Hagain.
  - intros Hin. apply Haccepted in Hin as Hagain.
    unfold PaymentMethod.NewPaymentMethod in Hagain. cbn zeta in Hagain.
    rewrite normal_idempotent in Hagain.
    destruct (default false _); [done|discriminate].
  - intros err. destruct (default false _); [done|]. by intros [= <-].
  - by rewrite <- ToLower_TrimSpace, ToLower_idempotent.
  - by rewrite TrimSpace_idempotent.
Qed.

(** X24: [NewPaymentProvider] on ASCII input succeeds exactly when the input,
    trimmed and in lower case, is a value of the [payment_provider] enum of
    the schema; what it builds is that value, is valid, and is built again
    from its own string; and it fails with the validation error of the field
    "provider" only. *)
Theorem NewPaymentProvider_builds_a_value_of_the_schema_enum (provider : string) :
  isASCII provider = true ->
  (forall pp,
      PaymentProvider.NewPaymentProvider provider = Ok pp ->
      pp = ToLower (TrimSpace provider)
      /\ pp ∈ catalog.payment_provider
      /\ PaymentProvider.IsValid pp = true
      /\ PaymentProvider.NewPaymentProvider (PaymentProvider.String pp) = Ok pp)
  /\ (ToLower (TrimSpace provider) ∈ catalog.payment_provider ->
      PaymentProvider.NewPaymentProvider provider = Ok (ToLower (TrimSpace provider)))
  /\ (forall err,
        PaymentProvider.NewPaymentProvider provider = Err err ->
        Error err = "[VALIDATION_ERROR] provider: invalid payment provider").
Proof.
  intros _.
  assert (forall p, p ∈ catalog.payment_provider ->
                    PaymentProvider.NewPaymentProvider p = Ok p) as Haccepted.
  { intros p Hin. unfold catalog.payment_provider in Hin.
    repeat (apply elem_of_cons in Hin as [->|Hin]; [by vm_compute|]).
    by apply elem_of_nil in Hin. }
  unfold PaymentProvider.NewPaymentProvider. cbn zeta.
  split; [|split].
  - intros pp. destruct (default false _) eqn:Hvalid; [|done]. cbn [negb]. intros [= <-].
    apply valid_key in Hvalid.
    pose proof (Haccepted _ Hvalid) as Hagain.
    unfold PaymentProvider.IsValid, PaymentProvider.String. by rewrite Hagain.
  - intros Hin. apply Haccepted in Hin as Hagain.
    unfold PaymentProvider.NewPaymentProvider in Hagain. cbn zeta in Hagain.
    rewrite normal_idempotent in Hagain.
    destruct (default false _); [done|discriminate].
  - intros err. destruct (default false _); [done|]. by intros [= <-].
Qed.

End PaymentValueObjects.

Section PaymentValueObjectsExamples.

Import Strings.

(** X23 on a bank transfer written with spaces and capitals, and on cash. *)
Lemma NewPaymentMethod_builds_a_seeded_method_witness :
  PaymentMethod.NewPaymentMethod "  Bank_Transfer " = Ok PaymentMethod.PaymentMethodBankTransfer
  /\ PaymentMethod.NewPaymentMethod "cash" = Err ErrInvalidPaymentMethod.
Proof.
  split.
  - apply (proj1 (proj2 (NewPaymentMethod_builds_a_seeded_method "  Bank_Transfer "
                           eq_refl))).
    vm_compute. do 1 apply list_elem_of_further. apply list_elem_of_here.
  - destruct (PaymentMethod.NewPaymentMethod "cash") as [pm|err] eqn:H.
    + vm_compute in H. discriminate H.
    + f_equal.
      exact (proj1 (proj2 (proj2 (NewPaymentMethod_builds_a_seeded_method "cash" eq_refl)))
               err H).
Defined.

(** X24 on PayPal written with a space and capitals. *)
Lemma NewPaymentProvider_builds_a_value_of_the_schema_enum_witness :
  PaymentProvider.NewPaymentProvider " PayPal" = Ok PaymentProvider.ProviderPayPal.
Proof.
  apply (proj1 (proj2 (NewPaymentProvider_builds_a_value_of_the_schema_enum " PayPal"
                         eq_refl))).
  vm_compute. do 1 apply list_elem_of_further. apply list_elem_of_here.
Defined.

End PaymentValueObjectsExamples.

(** ** The partner repository *)
Section PartnerRepository.

Import postgres.

Lemma elem_of_selectLive cond db p :
  p ∈ selectLive cond db
  <-> exists id row,
        partners db !! id = Some row /\ columns row = p
        /\ cond p = true /\ live row = true.
Proof.
  unfold selectLive. rewrite list_elem_of_fmap. split.
  - intros (row & -> & Hin). apply list_elem_of_In, filter_In in Hin as [Hin Hcond].
    apply list_elem_of_In, list_elem_of_fmap in Hin as ([id row'] & -> & Hin).
    apply elem_of_map_to_list in Hin. apply andb_true_iff in Hcond as [Hcond Hlive].
    exists id, row'. done.
  - intros (id & row & Hrow & <- & Hcond & Hlive). exists row. split; [done|].
    apply list_elem_of_In, filter_In. split.
    + apply list_elem_of_In, list_elem_of_fmap. exists (id, row). split; [done|].
      by apply elem_of_map_to_list.
    + by rewrite Hcond, Hlive.
Qed.

Lemma selectLive_head cond db found rest :
  selectLive cond db = found :: rest ->
  exists id row,
    partners db !! id = Some row /\ columns row = found
    /\ cond found = true /\ live row = true.
Proof.
  intros H. apply elem_of_selectLive. rewrite H. apply list_elem_of_here.
Qed.


Lemma GetByID_Ok id db p :
  GetByID id db = Ok p -> partners db !! id = Some (mkRow p None).
Proof.
  unfold GetByID. destruct (refused db _); [done|].
  destruct (partners db !! id) as [[p' [t|]]|]; cbn; try done. by intros [= <-].
Qed.

Lemma GetByID_of_live id db row :
  partners db !! id = Some row -> live row = true ->
  GetByID id db
  = match refused db (SelectPartner id) with
    | Some err => Err (Errorf "failed to get partner" err)
    | None => Ok (columns row)
    end.
Proof. intros Hrow Hlive. unfold GetByID. by rewrite Hrow, Hlive. Qed.

(** X25: what the three lookups of the partner repository answer is a row of
    the table that is not soft-deleted, stored under the id of the partner,
    and it carries the id, the email or the prefix that was asked for. *)
Theorem lookups_answer_rows_that_are_not_deleted db :
  wellFormed db ->
  (forall id p, GetByID id db = Ok p ->
                Partner.ID p = id /\ partners db !! id = Some (mkRow p None))
  /\ (forall email p, GetByEmail email db = Ok p ->
                      Partner.Email p = email
                      /\ partners db !! Partner.ID p = Some (mkRow p None))
  /\ (forall prefix p, GetByAPIKeyPrefix prefix db = Ok p ->
                       Partner.APIKeyPrefix p = prefix
                       /\ partners db !! Partner.ID p = Some (mkRow p None)).
Proof.
  intros [Hkeyed _].
  assert (forall cond found rest p,
            selectLive cond db = found :: rest ->
            GetByID (Partner.ID found) db = Ok p ->
            cond p = true /\ partners db !! Partner.ID p = Some (mkRow p None)) as Hvia.
  { intros cond found rest p Hs Hget.
    apply selectLive_head in Hs as (id & row & Hrow & <- & Hcond & Hlive).
    rewrite (Hkeyed _ _ Hrow) in Hget.
    rewrite (GetByID_of_live _ _ _ Hrow Hlive) in Hget.
    destruct (refused db _); [done|]. injection Hget as <-.
    split; [done|]. rewrite (Hkeyed _ _ Hrow), Hrow.
    destruct row as [p [t|]]; [done|done]. }
  split; [|split].
  - intros id p Hget. apply GetByID_Ok in Hget as Hrow.
    split; [|done]. by apply Hkeyed in Hrow.
  - intros email p. unfold GetByEmail. destruct (refused db _); [done|].
    destruct (selectLive _ db) as [|found rest] eqn:Hs; [done|]. intros Hget.
    destruct (Hvia _ _ _ _ Hs Hget) as [Hcond Hrow].
    by apply bool_decide_eq_true in Hcond.
  - intros prefix p. unfold GetByAPIKeyPrefix. destruct (refused db _); [done|].
    destruct (selectLive _ db) as [|found rest] eqn:Hs; [done|]. intros Hget.
    destruct (Hvia _ _ _ _ Hs Hget) as [Hcond Hrow].
    by apply bool_decide_eq_true in Hcond.
Qed.




Lemma clashes_email partner db id row :
  partners db !! id = Some row ->
  Partner.Email (columns row) = Partner.Email partner ->
  clashes partner db = true.
Proof.
  intros Hrow Hemail. unfold clashes. apply orb_true_iff. right.
  apply existsb_exists. exists row. split.
  - apply list_elem_of_In, list_elem_of_fmap. exists (id, row). split; [done|].
    by apply elem_of_map_to_list.
  - by rewrite bool_decide_eq_true_2.
Qed.


(** X28: the email of a soft-deleted partner stays taken: the lookup by email
    does not find the partner, and [Create] cannot store another partner
    under that email (the UNIQUE constraint of the table counts soft-deleted
    rows). *)
Theorem soft_deleted_partner_keeps_its_email (db : DB) (id : UUID) (row : Row) (at_ : Time) :
  wellFormed db ->
  partners db !! id = Some row ->
  deleted_at row = Some at_ ->
  (refused db (SelectIDByEmail (Partner.Email (columns row))) = None ->
   GetByEmail (Partner.Email (columns row)) db = Err ErrPartnerNotFound)
  /\ (forall partner,
        Partner.Email partner = Partner.Email (columns row) ->
        fst (Create partner db) <> None /\ snd (Create partner db) = db).
Proof.
  intros [Hkeyed Hunique] Hrow Hdeleted. split.
  - intros Hselect. unfold GetByEmail. rewrite Hselect.
    destruct (selectLive _ db) as [|found rest] eqn:Hs; [done|].
    apply selectLive_head in Hs as (id' & row' & Hrow' & <- & Hcond & Hlive).
    apply bool_decide_eq_true in Hcond.
    assert (id' = id) as -> by (by apply (Hunique id' id row' row)).
    rewrite Hrow in Hrow'. injection Hrow' as <-.
    unfold live in Hlive. by rewrite Hdeleted in Hlive.
  - intros partner Hemail. unfold Create.
    destruct (refused db _); [done|].
    by rewrite (clashes_email partner db id row).
Qed.


Lemma StronglySorted_page {A} (R : relation A) (l : list A) (n k : nat) :
  StronglySorted R l -> StronglySorted R (take n (drop k l)).
Proof.
  intros H.
  assert (StronglySorted R (drop k l)) as Hdrop.
  { rewrite <- (take_drop k l) in H. by apply StronglySorted_app_1_r in H. }
  rewrite <- (take_drop n (drop k l)) in Hdrop.
  by apply StronglySorted_app_1_l in Hdrop.
Qed.

Lemma collect_Ok (page ps : list Partner.t) db :
  (forall p, p ∈ page -> exists row, partners db !! Partner.ID p = Some row
                                      /\ columns row = p /\ live row = true) ->
  collect (Partner.ID <$> page) db = Ok ps ->
  ps = page.
Proof.
  revert ps. induction page as [|p page IH]; intros ps Hrows; cbn.
  - by intros [= <-].
  - destruct (Hrows p) as (row & Hrow & <- & Hlive); [apply list_elem_of_here|].
    rewrite (GetByID_of_live _ _ _ Hrow Hlive).
    destruct (refused db _); [done|].
    destruct (collect _ db) as [ps'|] eqn:Hrest; [|done].
    intros [= <-]. f_equal. apply IH; [|done].
    intros p Hp. apply Hrows. by apply list_elem_of_further.
Qed.

(** X29: what [List] answers is one page of the partners that are not
    soft-deleted: limit and offset are not negative, the page holds at most
    [limit] partners, each a row of the table that is not soft-deleted, the
    newest first. *)
Theorem List_answers_a_page_newest_first (limit offset : Z) (db : DB) (ps : list Partner.t) :
  wellFormed db ->
  List limit offset db = Ok ps ->
  0 <= limit /\ 0 <= offset
  /\ (Z.of_nat (length ps) <= limit)
  /\ (forall p, p ∈ ps -> partners db !! Partner.ID p = Some (mkRow p None))
  /\ StronglySorted newerOrSame ps.
Proof.
  intros [Hkeyed _]. unfold List.
  destruct (refused db _); [done|].
  destruct (Z.ltb_spec limit 0); [done|].
  destruct (Z.ltb_spec offset 0); [done|]. cbn zeta.
  set (page := take _ _).
  assert (forall p, p ∈ page -> exists row, partners db !! Partner.ID p = Some row
                                             /\ columns row = p /\ live row = true) as Hrows.
  { intros p Hp. subst page.
    apply subseteq_take, subseteq_drop in Hp.
    rewrite merge_sort_Permutation in Hp.
    apply elem_of_selectLive in Hp as (id & row & Hrow & <- & _ & Hlive).
    exists row. by rewrite (Hkeyed _ _ Hrow). }
  intros Hcollect. apply collect_Ok in Hcollect as ->; [|done].
  split; [done|]. split; [done|]. split; [|split].
  - subst page. rewrite length_take. lia.
  - intros p Hp. destruct (Hrows p Hp) as (row & Hrow & <- & Hlive).
    rewrite Hrow. destruct row as [q [t|]]; done.
  - subst page. apply StronglySorted_page, StronglySorted_merge_sort; apply _.
Qed.

(** X30: a partner that is soft-deleted cannot authenticate: a key whose first
    8 bytes are the prefix of soft-deleted rows only is answered with 401,
    whatever the check of the key would say. *)
Theorem soft_deleted_partner_cannot_authenticate
    (db : DB) (validate : Partner.t -> string -> option error)
    (c : middleware.Ctx) (apiKey : string) :
  wellFormed db ->
  middleware.Get "Authorization" c = "Bearer " +:+ apiKey ->
  (forall id row,
      partners db !! id = Some row ->
      Partner.APIKeyPrefix (columns row) = String.substring 0 8 apiKey ->
      live row = false) ->
  exists message,
    middleware.Handle (authOver db validate) c
    = (middleware.JSON middleware.StatusUnauthorized "unauthorized" message, c).
Proof.
  intros [Hkeyed _] Hheader Hdeleted.
  destruct (Handle_cases (authOver db validate) c)
    as [(apiKey' & partner & checked & Hpresents & _)|(_ & message & ->)]; [|eauto].
  exfalso. destruct Hpresents as (Hheader' & _ & _ & Hrepo & _).
  rewrite Hheader in Hheader'.
  assert (apiKey' = apiKey) as -> by (by injection Hheader').
  cbn in Hrepo. unfold GetByAPIKeyPrefix in Hrepo.
  destruct (refused db _); [done|].
  destruct (selectLive _ db) as [|found rest] eqn:Hs; [done|].
  apply selectLive_head in Hs as (id & row & Hrow & <- & Hcond & Hlive).
  apply bool_decide_eq_true in Hcond.
  by rewrite (Hdeleted id row Hrow Hcond) in Hlive.
Qed.

End PartnerRepository.

Section PartnerRepositoryExamples.

Import postgres examples.

Local Ltac rows H :=
  unfold directory in H; cbn [partners] in H;
  rewrite !lookup_insert_Some, lookup_empty in H.

Lemma directory_rows id row :
  partners directory !! id = Some row ->
  row ∈ [mkRow acme None; mkRow techstart None; mkRow initech (Some 3000);
         mkRow globex None]
  /\ Partner.ID (columns row) = id.
Proof.
  intros H. rows H.
  destruct H as [[<- <-]|[_ [[<- <-]|[_ [[<- <-]|[_ [[<- <-]|[_ H]]]]]]]]; [..|done].
  all: split; [|done].
  all: repeat first [apply list_elem_of_here | apply list_elem_of_further].
Qed.

Lemma directory_wellFormed : wellFormed directory.
Proof.
  split.
  - intros id row H. by apply directory_rows in H as [_ H].
  - intros id id' row row' H H'.
    apply directory_rows in H as [H <-]. apply directory_rows in H' as [H' <-].
    repeat (apply elem_of_cons in H as [->|H]);
      repeat (apply elem_of_cons in H' as [->|H']);
      try (by apply elem_of_nil in H); try (by apply elem_of_nil in H');
      cbn; intros; done.
Qed.

(** X25 on the directory of the examples. *)
Lemma lookups_answer_rows_that_are_not_deleted_witness :
  (forall id p, GetByID id directory = Ok p ->
                Partner.ID p = id /\ partners directory !! id = Some (mkRow p None))
  /\ (forall email p, GetByEmail email directory = Ok p ->
                      Partner.Email p = email
                      /\ partners directory !! Partner.ID p = Some (mkRow p None))
  /\ (forall prefix p, GetByAPIKeyPrefix prefix directory = Ok p ->
                       Partner.APIKeyPrefix p = prefix
                       /\ partners directory !! Partner.ID p = Some (mkRow p None)).
Proof.
  exact (lookups_answer_rows_that_are_not_deleted directory directory_wellFormed).
Defined.



(** X28 on the soft-deleted row of the directory of the examples. *)
Lemma soft_deleted_partner_keeps_its_email_witness :
  (refused directory (SelectIDByEmail "billing@initech.example") = None ->
   GetByEmail "billing@initech.example" directory = Err ErrPartnerNotFound)
  /\ (forall partner,
        Partner.Email partner = "billing@initech.example" ->
        fst (Create partner directory) <> None /\ snd (Create partner directory) = directory).
Proof.
  apply (soft_deleted_partner_keeps_its_email directory (Partner.ID initech)
           (mkRow initech (Some 3000)) 3000 directory_wellFormed).
  - vm_compute. reflexivity.
  - reflexivity.
Defined.

(** X29 on the second page of size two of the directory of the examples. *)
Lemma List_answers_a_page_newest_first_witness :
  List 2 1 directory = Ok [techstart; acme]
  /\ 0 <= 2 /\ 0 <= 1
  /\ Z.of_nat (length [techstart; acme]) <= 2
  /\ (forall p, p ∈ [techstart; acme] ->
                partners directory !! Partner.ID p = Some (mkRow p None))
  /\ StronglySorted newerOrSame [techstart; acme].
Proof.
  assert (List 2 1 directory = Ok [techstart; acme]) as H.
  { vm_compute. reflexivity. }
  split; [exact H|].
  exact (List_answers_a_page_newest_first 2 1 directory [techstart; acme]
           directory_wellFormed H).
Defined.

Lemma initech_rows_deleted id row :
  partners directory !! id = Some row ->
  Partner.APIKeyPrefix (columns row) = "init-key" ->
  live row = false.
Proof.
  intros H. apply directory_rows in H as [H _].
  repeat (apply elem_of_cons in H as [->|H]); try (by apply elem_of_nil in H);
    cbn; intros; done.
Qed.

(** X30 on the key of the soft-deleted partner of the directory of the
    examples. *)
Lemma soft_deleted_partner_cannot_authenticate_witness :
  exists message,
    middleware.Handle (authOver directory anyKey) (request "Bearer init-key-partner-3")
    = (middleware.JSON middleware.StatusUnauthorized "unauthorized" message,
       request "Bearer init-key-partner-3").
Proof.
  apply (soft_deleted_partner_cannot_authenticate directory anyKey
           (request "Bearer init-key-partner-3") "init-key-partner-3" directory_wellFormed).
  - reflexivity.
  - exact initech_rows_deleted.
Defined.

End PartnerRepositoryExamples.

Section EarlierExamples.

Import tables scenario examples.

(** X15 on a store that refuses to write a failed transaction. *)
Lemma payment_failure_write_unchecked_witness :
  let out := run refusesFailed (ProcessPaymentUseCase.Execute (ProcessPaymentUseCase.mk true) 1%N)
               beforePayment in
  fst out = Some (Errorf "payment processing failed" (External "card declined"))
  /\ transactions (snd out) !! 1%N
     = Some (fst (Transaction.MarkAsProcessing 60 (pendingTransaction 0))).
Proof.
  intros out.
  apply (payment_failure_write_unchecked refusesFailed (ProcessPaymentUseCase.mk true) 1%N
           beforePayment (pendingTransaction 0) (External "card declined")
           (External "connection reset")).
  - reflexivity.
  - vm_compute. reflexivity.
  - left. reflexivity.
  - intros w. reflexivity.
  - reflexivity.
  - intros w. reflexivity.
Defined.

End EarlierExamples.
